(** * handoff: session capture, collection and bundle serialisation

    A shallow embedding of the core of the [handoff] tool
    (github.com/fakeyudi/handoff): the shell-history collector and its
    window filter, the Git and file-activity collectors, the stop command,
    and the renderer/parser pair for context bundles.

    Go strings are byte sequences and are modelled as [list ascii]; Go's
    [int] and [int64] are modelled as [Z] with the wrap-around written out
    where the code can reach it; a Go map is a stdpp [gmap]. *)

From stdpp Require Import gmap strings list.
From Stdlib Require Import ZArith Ascii String List Lia DecimalN DecimalPos Sorted.
From Stdlib Require DecimalFacts.
Import ListNotations.

Set Default Proof Using "Type".

(** ** Byte strings *)

Abbreviation bytes := (list ascii).

(** [bs "text"] is the byte string of a literal. *)
Definition bs (s : string) : bytes := list_ascii_of_string s.

Definition byte_eqb (a b : ascii) : bool := Ascii.eqb a b.

Fixpoint bytes_eqb (s t : bytes) : bool :=
  match s, t with
  | [], [] => true
  | a :: s', b :: t' => byte_eqb a b && bytes_eqb s' t'
  | _, _ => false
  end.

(** The packages [strings], [strconv], [path/filepath] and [bufio] of the Go
    standard library, as far as the program calls them. *)
Module GoStrings.

(** [strings.HasPrefix]. *)
Fixpoint HasPrefix (s prefix : bytes) {struct prefix} : bool :=
  match prefix, s with
  | [], _ => true
  | p :: prefix', c :: s' => byte_eqb p c && HasPrefix s' prefix'
  | _ :: _, [] => false
  end.

(** [strings.HasSuffix]. *)
Definition HasSuffix (s suffix : bytes) : bool :=
  HasPrefix (rev s) (rev suffix).

(** [strings.TrimPrefix]. *)
Definition TrimPrefix (s prefix : bytes) : bytes :=
  if HasPrefix s prefix then skipn (length prefix) s else s.

(** [strings.Index]: the offset of the first occurrence of [substr] in
    [s], [None] standing for Go's [-1]. *)
Fixpoint Index (s substr : bytes) : option nat :=
  if HasPrefix s substr then Some 0%nat
  else match s with
       | [] => None
       | _ :: s' => option_map S (Index s' substr)
       end.

(** [strings.Contains]. *)
Definition Contains (s substr : bytes) : bool :=
  match Index s substr with Some _ => true | None => false end.

(** [strings.IndexByte]. *)
Fixpoint IndexByte (s : bytes) (c : ascii) : option nat :=
  match s with
  | [] => None
  | a :: s' => if byte_eqb a c then Some 0%nat else option_map S (IndexByte s' c)
  end.

(** The UTF-8 encodings of the code points for which [unicode.IsSpace]
    holds.  Each starts with an ASCII byte or a lead byte, never with a
    continuation byte, so Go's rune decoder always stops in front of an
    occurrence and decodes exactly it: matching these byte sequences is
    the same as decoding runes and testing [unicode.IsSpace]. *)
Definition spaceRunes : list bytes :=
  map (map ascii_of_nat)
    [ [9]; [10]; [11]; [12]; [13]; [32];
      [194; 133]; [194; 160];
      [225; 154; 128];
      [226; 128; 128]; [226; 128; 129]; [226; 128; 130]; [226; 128; 131];
      [226; 128; 132]; [226; 128; 133]; [226; 128; 134]; [226; 128; 135];
      [226; 128; 136]; [226; 128; 137]; [226; 128; 138];
      [226; 128; 168]; [226; 128; 169]; [226; 128; 175];
      [226; 129; 159];
      [227; 128; 128] ]%nat.

(** Width in bytes of the white-space rune at the head of [s], [0] when
    [s] does not start with one. *)
Definition spaceLen (runes : list bytes) (s : bytes) : nat :=
  match List.find (HasPrefix s) runes with
  | Some r => length r
  | None => 0%nat
  end.

(** [strings.Fields]: the maximal runs of non-space runes.  [skip] counts
    the remaining bytes of a white-space rune being stepped over, [cur]
    is the field being read and [acc] the fields already closed. *)
Definition closeField (cur : bytes) (acc : list bytes) : list bytes :=
  match cur with [] => acc | _ => acc ++ [cur] end.

Fixpoint FieldsFrom (s : bytes) (skip : nat) (cur : bytes) (acc : list bytes)
  : list bytes :=
  match s with
  | [] => closeField cur acc
  | c :: s' =>
      match skip with
      | S k => FieldsFrom s' k cur acc
      | O =>
          match spaceLen spaceRunes s with
          | O => FieldsFrom s' 0 (cur ++ [c]) acc
          | S k => FieldsFrom s' k [] (closeField cur acc)
          end
      end
  end.

Definition Fields (s : bytes) : list bytes := FieldsFrom s 0 [] [].

(** [strings.TrimSpace]. *)
Fixpoint trimLeftFrom (runes : list bytes) (s : bytes) (skip : nat) : bytes :=
  match s with
  | [] => []
  | _ :: s' =>
      match skip with
      | S k => trimLeftFrom runes s' k
      | O =>
          match spaceLen runes s with
          | O => s
          | S k => trimLeftFrom runes s' k
          end
      end
  end.

Definition TrimSpace (s : bytes) : bytes :=
  let l := trimLeftFrom spaceRunes s 0 in
  rev (trimLeftFrom (map (@rev ascii) spaceRunes) (rev l) 0).

(** [strings.TrimRight(s, "\n")]. *)
Fixpoint dropWhileEq (c : ascii) (s : bytes) : bytes :=
  match s with
  | a :: s' => if byte_eqb a c then dropWhileEq c s' else s
  | [] => []
  end.

Definition TrimRightByte (s : bytes) (c : ascii) : bytes :=
  rev (dropWhileEq c (rev s)).

(** [strings.Split(s, sep)] for a one-byte separator: always at least one
    piece. *)
Fixpoint SplitFrom (s : bytes) (sep : ascii) (cur : bytes) : list bytes :=
  match s with
  | [] => [cur]
  | c :: s' =>
      if byte_eqb c sep then cur :: SplitFrom s' sep []
      else SplitFrom s' sep (cur ++ [c])
  end.

Definition Split (s : bytes) (sep : ascii) : list bytes := SplitFrom s sep [].

(** [filepath.Base] on a slash-separated path. *)
Fixpoint takeUntil (c : ascii) (s : bytes) : bytes :=
  match s with
  | a :: s' => if byte_eqb a c then [] else a :: takeUntil c s'
  | [] => []
  end.

Definition Base (path : bytes) : bytes :=
  match path with
  | [] => bs "."
  | _ =>
      let stripped := dropWhileEq "/"%char (rev path) in
      match rev (takeUntil "/"%char stripped) with
      | [] => bs "/"
      | elem => elem
      end
  end.

(** Decimal digits. *)
Definition isDigit (c : ascii) : bool :=
  (48 <=? nat_of_ascii c)%nat && (nat_of_ascii c <=? 57)%nat.

Definition digitVal (c : ascii) : Z := Z.of_nat (nat_of_ascii c) - 48.

Fixpoint uintChars (d : Decimal.uint) : bytes :=
  match d with
  | Decimal.Nil => []
  | Decimal.D0 l => "0"%char :: uintChars l
  | Decimal.D1 l => "1"%char :: uintChars l
  | Decimal.D2 l => "2"%char :: uintChars l
  | Decimal.D3 l => "3"%char :: uintChars l
  | Decimal.D4 l => "4"%char :: uintChars l
  | Decimal.D5 l => "5"%char :: uintChars l
  | Decimal.D6 l => "6"%char :: uintChars l
  | Decimal.D7 l => "7"%char :: uintChars l
  | Decimal.D8 l => "8"%char :: uintChars l
  | Decimal.D9 l => "9"%char :: uintChars l
  end.

(** What [fmt]'s verb [%d] prints for an integer. *)
Definition FormatInt (n : Z) : bytes :=
  if (n <? 0)%Z then "-"%char :: uintChars (N.to_uint (Z.abs_N n))
  else uintChars (N.to_uint (Z.to_N n)).

(** [strconv.ParseUint(s, 10, 64)] without its range check: the digits
    are accumulated from the left; any other byte is a syntax error. *)
Fixpoint parseDigits (s : bytes) (acc : Z) : option Z :=
  match s with
  | [] => Some acc
  | c :: s' =>
      if isDigit c then parseDigits s' (acc * 10 + digitVal c)%Z else None
  end.

(** [strconv.ParseInt(s, 10, 64)]: an optional sign, then at least one
    digit; [None] for a syntax error and for a value outside [int64]. *)
Definition ParseInt (s : bytes) : option Z :=
  let '(neg, digits) :=
    match s with
    | c :: s' =>
        if byte_eqb c "+"%char then (false, s')
        else if byte_eqb c "-"%char then (true, s')
        else (false, s)
    | [] => (false, s)
    end in
  match digits with
  | [] => None
  | _ =>
      match parseDigits digits 0 with
      | None => None
      | Some un =>
          if negb neg && (2 ^ 63 <=? un)%Z then None
          else if neg && (2 ^ 63 <? un)%Z then None
          else Some (if neg then - un else un)%Z
      end
  end.

(** [bufio.Scanner] with the default split function [ScanLines] and the
    default buffer: the lines of the input without their terminator and
    without one trailing carriage return; an empty last line is not
    reported.  A line that does not fit the 64 KiB buffer stops the scan
    with [ErrTooLong]; the flag of the result is that error. *)
Definition MaxScanTokenSize : N := 65536.

Definition dropCR (line : bytes) : bytes :=
  match rev line with
  | c :: r => if byte_eqb c "013"%char then rev r else line
  | [] => line
  end.

Definition lineFits (line : bytes) : bool :=
  (N.of_nat (length line) <? MaxScanTokenSize)%N.

Fixpoint scanFrom (s : bytes) (cur : bytes) : list bytes * bool :=
  match s with
  | [] =>
      match cur with
      | [] => ([], false)
      | _ => if lineFits cur then ([dropCR cur], false) else ([], true)
      end
  | c :: s' =>
      if byte_eqb c "010"%char then
        if lineFits cur then
          let '(rest, err) := scanFrom s' [] in (dropCR cur :: rest, err)
        else ([], true)
      else scanFrom s' (cur ++ [c])
  end.

Definition ScanLines (s : bytes) : list bytes * bool := scanFrom s [].

End GoStrings.

(** ** Package [time] *)
Module GoTime.

(** A [time.Time] without monotonic reading, as the number of nanoseconds
    since the zero instant, January 1 of year 1, 00:00:00 UTC. *)
Abbreviation Time := Z.

Definition zero : Time := 0%Z.

Definition wrap64 (z : Z) : Z := ((z + 2 ^ 63) mod 2 ^ 64 - 2 ^ 63)%Z.

(** Seconds between the zero instant and the Unix epoch. *)
Definition unixToInternal : Z := 62135596800%Z.

(** [time.Unix(sec, 0)]: the seconds are shifted in [int64] arithmetic. *)
Definition Unix (sec : Z) : Time := (wrap64 (sec + unixToInternal) * 1000000000)%Z.

Definition IsZero (t : Time) : bool := (t =? 0)%Z.
Definition Before (t u : Time) : bool := (t <? u)%Z.
Definition After (t u : Time) : bool := (u <? t)%Z.

End GoTime.

(** ** Package [session]: the record of one tracking session *)
Module Session.
Import GoTime.

(** A developer-provided note attached to a session. *)
Record Annotation := mkAnnotation {
  ann_Timestamp : Time;
  ann_Message : bytes;
  ann_IsSummary : bool
}.

(** A single file modification event. *)
Record FileEdit := mkFileEdit {
  fe_Path : bytes;
  fe_Timestamp : Time;
  fe_Diff : bytes
}.

(** An active or completed tracking session.  [StopTime] is a pointer in
    the source, [None] being [nil]. *)
Record Session := mkSession {
  ID : bytes;
  StartTime : Time;
  StopTime : option Time;
  WorkDir : bytes;
  Annotations : list Annotation;
  FileEdits : list FileEdit;
  HistoryBaselineCount : Z
}.

End Session.

(** ** Package [bundle]: the data of a context bundle *)
Module BundleData.
Import GoTime Session.

Record SessionMeta := mkSessionMeta {
  sm_ID : bytes;
  sm_StartTime : Time;
  sm_StopTime : Time;
  sm_WorkDir : bytes;
  sm_Duration : bytes;
  sm_Author : bytes
}.

Record GitInfo := mkGitInfo {
  Branch : bytes;
  HeadCommit : bytes;
  Diff : bytes;
  StagedDiff : bytes;
  RecentLog : list bytes
}.

(** A single terminal command; the timestamp is zero when the shell does
    not record one. *)
Record Command := mkCommand {
  Raw : bytes;
  Timestamp : Time
}.

Record ContextBundle := mkContextBundle {
  cb_Session : SessionMeta;
  cb_Annotations : list Annotation;
  cb_FileEdits : list FileEdit;
  cb_Git : option GitInfo;
  cb_Commands : list Command;
  cb_EditorTabs : list bytes
}.

End BundleData.

(** ** Package [encoding/base64], the standard encoding *)
Module Base64.

(** The character of a six-bit value: [A-Z], [a-z], [0-9], [+], [/]. *)
Definition encodeStd (v : N) : ascii :=
  if (v <? 26)%N then ascii_of_N (65 + v)
  else if (v <? 52)%N then ascii_of_N (97 + (v - 26))
  else if (v <? 62)%N then ascii_of_N (48 + (v - 52))
  else if (v =? 62)%N then "+"%char
  else "/"%char.

(** The six-bit value of a character of the alphabet. *)
Definition decodeStd (c : ascii) : option N :=
  let n := N_of_ascii c in
  if (65 <=? n)%N && (n <=? 90)%N then Some (n - 65)%N
  else if (97 <=? n)%N && (n <=? 122)%N then Some (n - 97 + 26)%N
  else if (48 <=? n)%N && (n <=? 57)%N then Some (n - 48 + 52)%N
  else if (n =? 43)%N then Some 62%N
  else if (n =? 47)%N then Some 63%N
  else None.

Definition padChar : ascii := "="%char.

(** [EncodeToString]: three bytes give four characters; a last group of
    one or two bytes is padded. *)
Fixpoint EncodeToString (src : bytes) : bytes :=
  match src with
  | [] => []
  | [a] =>
      let x := N_of_ascii a in
      [encodeStd (x / 4); encodeStd (x mod 4 * 16); padChar; padChar]
  | [a; b] =>
      let x := N_of_ascii a in
      let y := N_of_ascii b in
      [encodeStd (x / 4); encodeStd (x mod 4 * 16 + y / 16);
       encodeStd (y mod 16 * 4); padChar]
  | a :: b :: c :: rest =>
      let x := N_of_ascii a in
      let y := N_of_ascii b in
      let z := N_of_ascii c in
      encodeStd (x / 4) :: encodeStd (x mod 4 * 16 + y / 16)
      :: encodeStd (y mod 16 * 4 + z / 64) :: encodeStd (z mod 64)
      :: EncodeToString rest
  end.

(** The quanta of [DecodeString], line breaks already skipped: four
    characters give three bytes; padding is accepted in the last quantum
    only, and nothing may follow it. *)
Fixpoint decodeQuanta (src : bytes) : option bytes :=
  match src with
  | [] => Some []
  | [a; b; c; d] =>
      match decodeStd a, decodeStd b with
      | Some s0, Some s1 =>
          let x := ascii_of_N (s0 * 4 + s1 / 16) in
          match decodeStd c, decodeStd d with
          | Some s2, Some s3 =>
              Some [x; ascii_of_N (s1 mod 16 * 16 + s2 / 4);
                    ascii_of_N (s2 mod 4 * 64 + s3)]
          | Some s2, None =>
              if Ascii.eqb d padChar then
                Some [x; ascii_of_N (s1 mod 16 * 16 + s2 / 4)]
              else None
          | None, _ =>
              if Ascii.eqb c padChar && Ascii.eqb d padChar then Some [x]
              else None
          end
      | _, _ => None
      end
  | a :: b :: c :: d :: rest =>
      match decodeStd a, decodeStd b, decodeStd c, decodeStd d with
      | Some s0, Some s1, Some s2, Some s3 =>
          match decodeQuanta rest with
          | Some out =>
              Some (ascii_of_N (s0 * 4 + s1 / 16)
                    :: ascii_of_N (s1 mod 16 * 16 + s2 / 4)
                    :: ascii_of_N (s2 mod 4 * 64 + s3) :: out)
          | None => None
          end
      | _, _, _, _ => None
      end
  | _ => None
  end.

(** The bytes of an encoded text: the alphabet and the padding. *)
Definition isBase64Byte (c : ascii) : bool :=
  match decodeStd c with
  | Some _ => true
  | None => Ascii.eqb c padChar
  end.

Definition isLineBreak (c : ascii) : bool :=
  Ascii.eqb c "010"%char || Ascii.eqb c "013"%char.

(** [DecodeString]: carriage returns and line feeds are ignored; [None]
    is a [CorruptInputError]. *)
Definition DecodeString (s : bytes) : option bytes :=
  decodeQuanta (List.filter (fun c => negb (isLineBreak c)) s).

End Base64.

(** ** Package [bundle]: renderers and parsers *)
Module Bundle.
Import GoStrings GoTime Session BundleData.

(** The calls into [encoding/json] and [time] that the package makes, for
    the type [ContextBundle]: [json.Marshal], [json.MarshalIndent] with an
    empty prefix and two spaces, [json.Unmarshal], and [Time.Format].  An
    error is the text that [%v] prints. *)
Class Library := mkLibrary {
  json_Marshal : ContextBundle -> bytes + bytes;
  json_MarshalIndent : ContextBundle -> bytes + bytes;
  json_Unmarshal : bytes -> ContextBundle + bytes;
  Format : Time -> bytes -> bytes
}.

(** [JSONRenderer.Render]. *)
Definition JSONRender `{Library} (bundle : ContextBundle) : bytes + bytes :=
  json_MarshalIndent bundle.

Definition versionSentinel : bytes := bs "<!-- handoff-bundle-version: 1 -->".
Definition dataPrefix : bytes := bs "<!-- handoff-data: ".
Definition dataSuffix : bytes := bs " -->".

Definition lf : bytes := ["010"%char].

Definition annotationLine `{Library} (a : Annotation) : bytes :=
  let kind := if ann_IsSummary a then bs "summary" else bs "note" in
  bs "- [" ++ Format (ann_Timestamp a) (bs "2006-01-02 15:04:05") ++ bs "] ("
  ++ kind ++ bs ") " ++ ann_Message a ++ lf.

Definition fileEditRow `{Library} (fe : FileEdit) : bytes :=
  bs "| " ++ fe_Path fe ++ bs " | "
  ++ Format (fe_Timestamp fe) (bs "2006-01-02 15:04:05") ++ bs " |" ++ lf.

(** A fenced diff, closed on a line of its own. *)
Definition diffBlock (diff : bytes) : bytes :=
  bs "```diff" ++ lf ++ diff
  ++ (if HasSuffix diff lf then [] else lf) ++ bs "```" ++ lf.

Definition gitSection (git : option GitInfo) : bytes :=
  match git with
  | None => bs "_Not a git repository or git data unavailable._" ++ lf
  | Some g =>
      bs "### Unstaged" ++ lf ++ lf
      ++ (match Diff g with
          | [] => bs "_No unstaged changes._" ++ lf
          | d => diffBlock d
          end)
      ++ lf
      ++ bs "### Staged" ++ lf ++ lf
      ++ (match StagedDiff g with
          | [] => bs "_No staged changes._" ++ lf
          | d => diffBlock d
          end)
      ++ lf
      ++ bs "### Recent Commits" ++ lf ++ lf
      ++ (match RecentLog g with
          | [] => bs "_No recent commits._" ++ lf
          | log => concat (map (fun line => bs "- " ++ line ++ lf) log)
          end)
  end.

(** The numbered list of commands, numbered from [i + 1]. *)
Fixpoint commandLines (i : Z) (cmds : list Command) : bytes :=
  match cmds with
  | [] => []
  | cmd :: rest =>
      FormatInt (i + 1) ++ bs ". `" ++ Raw cmd ++ bs "`" ++ lf
      ++ commandLines (i + 1) rest
  end.

(** The human-readable part of the document: the title and the six
    sections. *)
Definition humanView `{Library} (bundle : ContextBundle) : bytes :=
  let meta := cb_Session bundle in
  bs "# Handoff — " ++ sm_WorkDir meta ++ bs " — "
  ++ Format (sm_StopTime meta) (bs "2006-01-02 15:04:05 MST") ++ lf ++ lf
  ++ bs "## Summary" ++ lf ++ lf
  ++ bs "- Duration: " ++ sm_Duration meta ++ lf
  ++ (match sm_Author meta with
      | [] => []
      | author => bs "- Author: " ++ author ++ lf
      end)
  ++ (match cb_Git bundle with
      | None => []
      | Some g =>
          bs "- Branch: " ++ Branch g ++ lf
          ++ bs "- Head commit: " ++ HeadCommit g ++ lf
      end)
  ++ lf
  ++ bs "## Annotations" ++ lf ++ lf
  ++ (match cb_Annotations bundle with
      | [] => bs "_No annotations._" ++ lf
      | anns => concat (map annotationLine anns)
      end)
  ++ lf
  ++ bs "## File Edits" ++ lf ++ lf
  ++ (match cb_FileEdits bundle with
      | [] => bs "_No file edits recorded._" ++ lf
      | edits =>
          bs "| Path | Last Modified |" ++ lf
          ++ bs "|------|---------------|" ++ lf
          ++ concat (map fileEditRow edits)
      end)
  ++ lf
  ++ bs "## Git Changes" ++ lf ++ lf
  ++ gitSection (cb_Git bundle)
  ++ lf
  ++ bs "## Terminal Commands" ++ lf ++ lf
  ++ (match cb_Commands bundle with
      | [] => bs "_No terminal commands recorded._" ++ lf
      | cmds => commandLines 0 cmds
      end)
  ++ lf
  ++ bs "## Editor Tabs" ++ lf ++ lf
  ++ (match cb_EditorTabs bundle with
      | [] => bs "_No editor tabs recorded._" ++ lf
      | tabs => concat (map (fun tab => bs "- " ++ tab ++ lf) tabs)
      end)
  ++ lf.

(** The head of the document: the sentinel line and the payload line. *)
Definition payloadLines (encoded : bytes) : bytes :=
  versionSentinel ++ lf ++ dataPrefix ++ encoded ++ dataSuffix ++ lf ++ lf.

(** [MarkdownRenderer.Render]. *)
Definition MarkdownRender `{Library} (bundle : ContextBundle) : bytes + bytes :=
  match json_Marshal bundle with
  | inr err => inr (bs "marshal bundle: " ++ err)
  | inl jsonBytes =>
      let encoded := Base64.EncodeToString jsonBytes in
      inl (payloadLines encoded ++ humanView bundle)
  end.

(** The errors of the parsers, with the text of each. *)
Inductive ParseError :=
| JSONSyntax (err : bytes)
| MissingSentinel
| MissingPayload
| MalformedPayload
| CorruptBase64
| EmbeddedJSON (err : bytes).

Definition errorText (e : ParseError) : bytes :=
  match e with
  | JSONSyntax err => bs "failed to parse JSON bundle: " ++ err
  | MissingSentinel => bs "not a valid handoff bundle: missing version sentinel"
  | MissingPayload => bs "not a valid handoff bundle: missing data payload"
  | MalformedPayload => bs "not a valid handoff bundle: malformed data payload"
  | CorruptBase64 =>
      bs "not a valid handoff bundle: corrupted base64 payload: "
      ++ bs "illegal base64 data"
  | EmbeddedJSON err =>
      bs "not a valid handoff bundle: failed to parse embedded JSON: " ++ err
  end.

(** The spec's [InvalidBundle]: the text says so. *)
Definition InvalidBundle (e : ParseError) : bool :=
  HasPrefix (errorText e) (bs "not a valid handoff bundle").

(** [JSONParser.Parse]. *)
Definition JSONParse `{Library} (data : bytes) : ContextBundle + ParseError :=
  match json_Unmarshal data with
  | inr err => inr (JSONSyntax err)
  | inl bundle => inl bundle
  end.

(** [MarkdownParser.Parse]. *)
Definition MarkdownParse `{Library} (data : bytes) : ContextBundle + ParseError :=
  let content := data in
  if negb (Contains content versionSentinel) then inr MissingSentinel
  else
    match Index content dataPrefix with
    | None => inr MissingPayload
    | Some start =>
        let start := (start + length dataPrefix)%nat in
        match Index (skipn start content) dataSuffix with
        | None => inr MalformedPayload
        | Some end_ =>
            let encoded := firstn end_ (skipn start content) in
            match Base64.DecodeString encoded with
            | None => inr CorruptBase64
            | Some jsonBytes =>
                match json_Unmarshal jsonBytes with
                | inr err => inr (EmbeddedJSON err)
                | inl bundle => inl bundle
                end
            end
        end
    end.

(** The last two steps of [MarkdownParser.Parse], on the payload. *)
Definition decodePayload `{Library} (encoded : bytes) : ContextBundle + ParseError :=
  match Base64.DecodeString encoded with
  | None => inr CorruptBase64
  | Some jsonBytes =>
      match json_Unmarshal jsonBytes with
      | inr err => inr (EmbeddedJSON err)
      | inl bundle => inl bundle
      end
  end.

(** The text between the first payload prefix and the suffix that
    follows it, when the document has both. *)
Definition embeddedPayload (content : bytes) : option bytes :=
  match Index content dataPrefix with
  | None => None
  | Some start =>
      let rest := skipn (start + length dataPrefix) content in
      match Index rest dataSuffix with
      | None => None
      | Some end_ => Some (firstn end_ rest)
      end
  end.

End Bundle.

(** ** The operating system, as the collectors see it *)
Module OS.

(** What opening and reading a file gives. *)
Inductive FileState :=
| Missing
| Unreadable (err : bytes)
| Content (data : bytes).

(** The environment of a run: the [SHELL] variable, the home directory,
    [filepath.Join], and the files by path.  Errors carry the text that
    [%v] prints. *)
Record Env := mkEnv {
  SHELL : bytes;
  UserHomeDir : bytes;
  Join : list bytes -> bytes;
  file : bytes -> FileState;
  notExistText : bytes
}.

(** [os.Open] followed by reading the whole file. *)
Definition Open (env : Env) (path : bytes) : bytes + bytes :=
  match file env path with
  | Content data => inl data
  | Unreadable err => inr err
  | Missing => inr (bs "open " ++ path ++ bs ": " ++ notExistText env)
  end.

End OS.

(** ** Package [shell]: the plugin's command log *)
Module ShellLog.
Import GoStrings GoTime BundleData OS.

(** One line of the log, [<epoch>\t<command>], in the loop of
    [ReadCommandLog]: lines without a tab after a non-empty epoch, with an
    empty command or an unparsable epoch are skipped. *)
Definition readLogLine (cmds : list Command) (line : bytes) : list Command :=
  match IndexByte line "009"%char with
  | None => cmds
  | Some O => cmds
  | Some tab =>
      let epochStr := firstn tab line in
      let raw := skipn (tab + 1) line in
      match raw with
      | [] => cmds
      | _ =>
          match ParseInt epochStr with
          | None => cmds
          | Some epoch => cmds ++ [mkCommand raw (Unix epoch)]
          end
      end
  end.

(** [ReadCommandLog] on the log file: a missing file is an empty log and
    not an error.  The flag is the error of opening or scanning. *)
Definition ReadCommandLog (log : FileState) : list Command * bool :=
  match log with
  | Missing => ([], false)
  | Unreadable _ => ([], true)
  | Content content =>
      let '(lines, err) := ScanLines content in
      (fold_left readLogLine lines [], err)
  end.

(** [TruncateCommandLog]: an existing log becomes empty. *)
Definition TruncateCommandLog (log : FileState) : FileState :=
  match log with
  | Missing => Missing
  | _ => Content []
  end.

End ShellLog.

(** ** Package [collector] *)
Module Collector.
Import GoStrings GoTime Session BundleData.

(** The output of a single collector. *)
Record CollectorResult := mkCollectorResult {
  cr_FileEdits : list FileEdit;
  cr_Commands : list Command;
  cr_GitInfo : option GitInfo;
  cr_EditorTabs : list bytes;
  cr_Warnings : list bytes
}.

Definition emptyResult : CollectorResult := mkCollectorResult [] [] None [] [].

(** *** Shell history *)

Definition maxNoTimestampCommands : Z := 50.

Definition handoffNoiseCommands : list bytes := [bs "start"; bs "stop"].

(** [isHandoffNoise]: the command is an invocation of the binary followed
    by [start] or [stop]. *)
Definition isHandoffNoise (raw : bytes) : bool :=
  match Fields raw with
  | f0 :: f1 :: _ =>
      if negb (bytes_eqb (Base f0) (bs "handoff")) then false
      else existsb (bytes_eqb f1) handoffNoiseCommands
  | _ => false
  end.

(** First loop of [filterCommands]: noise is dropped, the other commands
    are appended to [timestamped] or to [noTimestamp]. *)
Definition classify (acc : list Command * list Command) (cmd : Command)
  : list Command * list Command :=
  let '(timestamped, noTimestamp) := acc in
  if isHandoffNoise (Raw cmd) then acc
  else if IsZero (Timestamp cmd) then (timestamped, noTimestamp ++ [cmd])
  else (timestamped ++ [cmd], noTimestamp).

(** Second loop: a timestamped command is kept unless it is before
    [start], or [stop] is set and it is after [stop]. *)
Definition keepInWindow (start : Time) (stop : option Time)
    (result : list Command) (cmd : Command) : list Command :=
  if Before (Timestamp cmd) start then result
  else
    match stop with
    | Some stop' => if After (Timestamp cmd) stop' then result else result ++ [cmd]
    | None => result ++ [cmd]
    end.

Definition notFlushedWarning : bytes :=
  bs "shell history was not flushed during session — " ++
  bs "add 'setopt INC_APPEND_HISTORY' to ~/.zshrc (zsh) or " ++
  bs "'PROMPT_COMMAND=" ++ [ascii_of_nat 34] ++ bs "history -a" ++
  [ascii_of_nat 34] ++
  bs "' to ~/.bashrc (bash) to capture commands in real time".

Definition noTimestampsWarning (n : Z) : bytes :=
  bs "shell history has no timestamps; showing " ++ FormatInt n ++
  bs " commands since session start".

Definition len {A} (l : list A) : Z := Z.of_nat (length l).

(** [filterCommands]: the commands of the session window.  The source
    appends to [*warnings]; here the warnings go in and come out. *)
Definition filterCommands (commands : list Command) (start : Time)
    (stop : option Time) (baselineCount : Z) (warnings : list bytes)
  : list Command * list bytes :=
  let '(timestamped, noTimestamp) := fold_left classify commands ([], []) in
  let result := fold_left (keepInWindow start stop) timestamped [] in
  if (0 <? len noTimestamp)%Z then
    let '(fresh, warnings) :=
      if (0 <? baselineCount)%Z && (baselineCount <? len noTimestamp)%Z then
        (skipn (Z.to_nat baselineCount) noTimestamp, warnings)
      else if (len noTimestamp <=? baselineCount)%Z then
        ([], warnings ++ [notFlushedWarning])
      else (noTimestamp, warnings) in
    let fresh :=
      if (maxNoTimestampCommands <? len fresh)%Z then
        skipn (Z.to_nat (len fresh - maxNoTimestampCommands)) fresh
      else fresh in
    if (0 <? len fresh)%Z then
      (result ++ fresh, warnings ++ [noTimestampsWarning (len fresh)])
    else (result, warnings)
  else (result, warnings).

(** [parseBashHistory]: plain lines, each optionally preceded by a line
    [#<epoch>].  The loop state is the commands read and [pendingTime]. *)
Definition bashLine (st : list Command * Time) (line : bytes)
  : list Command * Time :=
  let '(commands, pendingTime) := st in
  if HasPrefix line (bs "#") then
    match ParseInt (TrimPrefix line (bs "#")) with
    | Some epoch => (commands, Unix epoch)
    | None => (commands, zero)
    end
  else
    match line with
    | [] => (commands, zero)
    | _ => (commands ++ [mkCommand line pendingTime], zero)
    end.

Definition parseBashHistory (r : bytes) (since : Time) : list Command * bool :=
  let '(lines, err) := ScanLines r in
  (fst (fold_left bashLine lines ([], zero)), err).

(** [parseZshHistory]: extended lines [: <epoch>:<elapsed>;<command>],
    any other non-empty line being a command without timestamp. *)
Definition zshExtended (line : bytes) : option Command :=
  if HasPrefix line (bs ": ") then
    let rest := skipn 2 line in
    match Index rest (bs ";") with
    | Some (S _ as semiIdx) =>
        let timePart := firstn semiIdx rest in
        let cmd := skipn (semiIdx + 1) rest in
        match Index timePart (bs ":") with
        | Some (S _ as colonIdx) =>
            match ParseInt (firstn colonIdx timePart) with
            | Some epoch => Some (mkCommand cmd (Unix epoch))
            | None => None
            end
        | _ => None
        end
    | _ => None
    end
  else None.

Definition zshLine (commands : list Command) (line : bytes) : list Command :=
  match line with
  | [] => commands
  | _ =>
      match zshExtended line with
      | Some c => commands ++ [c]
      | None => commands ++ [mkCommand line zero]
      end
  end.

Definition parseZshHistory (r : bytes) (since : Time) : list Command * bool :=
  let '(lines, err) := ScanLines r in
  (fold_left zshLine lines [], err).

(** [parseFishHistory]: blocks [- cmd: <command>] followed by
    [  when: <epoch>].  The loop state is the commands read, [currentCmd],
    [currentTime] and [inEntry]. *)
Record fishState := mkFishState {
  fish_commands : list Command;
  currentCmd : bytes;
  currentTime : Time;
  inEntry : bool
}.

Definition fishFlush (st : fishState) : list Command :=
  if inEntry st && negb (bytes_eqb (currentCmd st) []) then
    fish_commands st ++ [mkCommand (currentCmd st) (currentTime st)]
  else fish_commands st.

Definition fishLine (st : fishState) (line : bytes) : fishState :=
  if HasPrefix line (bs "- cmd: ") then
    mkFishState (fishFlush st) (TrimPrefix line (bs "- cmd: ")) zero true
  else if inEntry st && HasPrefix line (bs "  when: ") then
    match ParseInt (TrimSpace (TrimPrefix line (bs "  when: "))) with
    | Some epoch =>
        mkFishState (fish_commands st) (currentCmd st) (Unix epoch) (inEntry st)
    | None => st
    end
  else st.

Definition parseFishHistory (r : bytes) (since : Time) : list Command * bool :=
  let '(lines, err) := ScanLines r in
  (fishFlush (fold_left fishLine lines (mkFishState [] [] zero false)), err).

End Collector.

(** *** The shell collector *)
Module ShellCollector.
Import GoStrings GoTime Session BundleData Collector OS.

Definition HistoryParser := bytes -> Time -> list Command * bool.

Record ShellCollector := mkShellCollector {
  HistoryPath : bytes;
  UsePluginLog : bool
}.

(** The parser and the default history path for the user's shell; an
    unknown shell is read as bash. *)
Definition selectParser (env : Env) : HistoryParser * bytes :=
  let shell := Base (SHELL env) in
  let home := UserHomeDir env in
  if bytes_eqb shell (bs "bash") then
    (parseBashHistory, Join env [home; bs ".bash_history"])
  else if bytes_eqb shell (bs "zsh") then
    (parseZshHistory, Join env [home; bs ".zsh_history"])
  else if bytes_eqb shell (bs "fish") then
    (parseFishHistory,
     Join env [home; bs ".local"; bs "share"; bs "fish"; bs "fish_history"])
  else (parseBashHistory, Join env [home; bs ".bash_history"]).

Definition historyPath (env : Env) (sc : ShellCollector) : bytes :=
  match HistoryPath sc with
  | [] => snd (selectParser env)
  | p => p
  end.

(** [collectFromHistory]: the shell history file, parsed and filtered.  A
    file that cannot be opened or parsed is a warning, never an error. *)
Definition collectFromHistory (env : Env) (sc : ShellCollector)
    (sess : Session) : CollectorResult :=
  let parser := fst (selectParser env) in
  let histPath := historyPath env sc in
  match Open env histPath with
  | inr err =>
      mkCollectorResult [] [] None []
        [bs "shell history unavailable (" ++ histPath ++ bs "): " ++ err]
  | inl f =>
      match parser f (StartTime sess) with
      | (_, true) =>
          mkCollectorResult [] [] None []
            [bs "failed to parse shell history (" ++ histPath ++ bs "): " ++
             bs "bufio.Scanner: token too long"]
      | (commands, false) =>
          let '(filtered, warnings) :=
            filterCommands commands (StartTime sess) (StopTime sess)
              (HistoryBaselineCount sess) [] in
          mkCollectorResult [] filtered None [] warnings
      end
  end.

(** [SnapshotHistoryBaseline]: the number of commands in the history file,
    [0] when it cannot be read. *)
Definition SnapshotHistoryBaseline (env : Env) (historyPathOverride : bytes) : Z :=
  let '(parser, defaultPath) := selectParser env in
  let histPath :=
    match historyPathOverride with [] => defaultPath | p => p end in
  match Open env histPath with
  | inr _ => 0%Z
  | inl f =>
      match parser f zero with
      | (_, true) => 0%Z
      | (commands, false) => len commands
      end
  end.

(** [Collect]: the plugin log when it is enabled and has entries, which
    consumes the log; the history file otherwise.  The result comes with
    the state of the log file after the call. *)
Definition Collect (env : Env) (sc : ShellCollector) (log : FileState)
    (sess : Session) : CollectorResult * FileState :=
  let viaHistory := (collectFromHistory env sc sess, log) in
  if UsePluginLog sc then
    let '(cmds, err) := ShellLog.ReadCommandLog log in
    if negb err && (0 <? len cmds)%Z then
      let '(filtered, warnings) :=
        filterCommands cmds (StartTime sess) (StopTime sess) 0 [] in
      (mkCollectorResult [] filtered None [] warnings,
       ShellLog.TruncateCommandLog log)
    else viaHistory
  else viaHistory.

End ShellCollector.

(** *** The Git collector *)
Module GitCollector.
Import GoStrings GoTime Session BundleData Collector.

(** A Go [error] as the collector tells them apart: the exit status of a
    subprocess ([*exec.ExitError]), or anything else. *)
Inductive GoError :=
| ExitError (code : Z)
| OtherError (msg : bytes).

(** [isExitCode128]. *)
Definition isExitCode128 (err : GoError) : bool :=
  match err with
  | ExitError code => (code =? 128)%Z
  | OtherError _ => false
  end.

(** [GitRunner]: runs git in [workDir] with [args]; the output or the
    error. *)
Definition GitRunner := bytes -> list bytes -> bytes + GoError.

Record GitCollector := mkGitCollector {
  gc_WorkDir : bytes;
  Runner : option GitRunner
}.

(** [parseLogLines]: the non-empty lines of the output of [git log]. *)
Definition parseLogLines (output : bytes) : list bytes :=
  List.filter (fun l => negb (bytes_eqb l [])) (Split output "010"%char).

(** The argument vectors of the five queries. *)
Definition branchQuery : list bytes := [bs "rev-parse"; bs "--abbrev-ref"; bs "HEAD"].
Definition headQuery : list bytes := [bs "rev-parse"; bs "HEAD"].
Definition diffQuery : list bytes := [bs "diff"].
Definition stagedQuery : list bytes := [bs "diff"; bs "--staged"].
Definition logQuery (since : bytes) : list bytes :=
  [bs "log"; bs "--oneline"; bs "--since=" ++ since].

Definition notARepository : bytes := bs "not a git repository".

(** The runner in use: the real subprocess unless one is set. *)
Definition runnerOf (defaultRunner : GitRunner) (g : GitCollector) : GitRunner :=
  match Runner g with Some r => r | None => defaultRunner end.

(** The directory git runs in: the collector's, else the session's. *)
Definition workDirOf (g : GitCollector) (sess : Session) : bytes :=
  match gc_WorkDir g with [] => WorkDir sess | w => w end.

(** What git answers to a query of the collector. *)
Definition ask (defaultRunner : GitRunner) (g : GitCollector) (sess : Session)
    (query : list bytes) : bytes + GoError :=
  runnerOf defaultRunner g (workDirOf g sess) query.

(** The five queries of a run, in the order they are made. *)
Definition queries (formatRFC3339 : Time -> bytes) (sess : Session)
  : list (list bytes) :=
  [branchQuery; headQuery; diffQuery; stagedQuery;
   logQuery (formatRFC3339 (StartTime sess))].

(** [Collect]: the branch query doubles as the repository check; exit
    status 128 there is a warning, every other failure is returned as the
    error of the collector.  [defaultRunner] is the real subprocess and
    [formatRFC3339] is [Time.Format(time.RFC3339)]. *)
Definition Collect (defaultRunner : GitRunner) (formatRFC3339 : Time -> bytes)
    (g : GitCollector) (sess : Session) : CollectorResult + GoError :=
  let runner := runnerOf defaultRunner g in
  let workDir := workDirOf g sess in
  match runner workDir branchQuery with
  | inr err =>
      if isExitCode128 err then
        inl (mkCollectorResult [] [] None [] [notARepository])
      else inr err
  | inl branch =>
      match runner workDir headQuery with
      | inr err => inr err
      | inl headCommit =>
          match runner workDir diffQuery with
          | inr err => inr err
          | inl diff =>
              match runner workDir stagedQuery with
              | inr err => inr err
              | inl stagedDiff =>
                  let since := formatRFC3339 (StartTime sess) in
                  match runner workDir (logQuery since) with
                  | inr err => inr err
                  | inl logOut =>
                      let recentLog := parseLogLines logOut in
                      let info :=
                        mkGitInfo (TrimSpace branch) (TrimSpace headCommit)
                          diff stagedDiff recentLog in
                      inl (mkCollectorResult [] [] (Some info) [] [])
                  end
              end
          end
      end
  end.

End GitCollector.

(** *** The file-activity collector *)
Module FileCollector.
Import GoStrings GoTime Session BundleData Collector OS.

Record FileCollector := mkFileCollector {
  fc_WorkDir : bytes;
  IgnorePatterns : list bytes
}.

(** What [filepath.WalkDir] hands to its callback for one path: whether
    the walk reports an error for it, whether it is a directory, and its
    modification time when [Info] succeeds. *)
Record DirEntry := mkDirEntry {
  de_path : bytes;
  de_err : bool;
  de_IsDir : bool;
  de_ModTime : option Time
}.

(** The file system and the library calls of this collector:
    [filepath.WalkDir], [filepath.Match] (an error counts as no match),
    [filepath.Rel], and the diff of a file ([captureFileDiff], which runs
    git and reads the file). *)
Record FileSystem := mkFileSystem {
  WalkDir : bytes -> list DirEntry;
  Match : bytes -> bytes -> bool;
  Rel : bytes -> bytes -> option bytes;
  captureFileDiff : bytes -> bytes -> bytes
}.

(** [isIgnored]: a pattern matches the base name, the path relative to
    the working directory, or the full path. *)
Definition isIgnored (fs : FileSystem) (fc : FileCollector) (path : bytes)
    (patterns : list bytes) : bool :=
  let rel :=
    match fc_WorkDir fc with
    | [] => path
    | w => match Rel fs w path with Some r => r | None => path end
    end in
  let base := Base path in
  existsb (fun pattern =>
             Match fs pattern base || Match fs pattern rel || Match fs pattern path)
    patterns.

(** [readPatternFile]: the trimmed lines that are neither empty nor
    comments; the flag is the scanner's error. *)
Definition patternLine (patterns : list bytes) (text : bytes) : list bytes :=
  let line := TrimSpace text in
  if bytes_eqb line [] || HasPrefix line (bs "#") then patterns
  else patterns ++ [line].

Definition readPatternFile (data : bytes) : list bytes * bool :=
  let '(lines, err) := ScanLines data in
  (fold_left patternLine lines [], err).

(** [loadIgnorePatterns]: the configured patterns, then those of
    [.gitignore] and of [.handoffignore]; a missing file is skipped, any
    other failure is an error. *)
Definition loadIgnoreFile (env : Env) (fc : FileCollector)
    (acc : list bytes + bytes) (name : bytes) : list bytes + bytes :=
  match acc with
  | inr err => inr err
  | inl patterns =>
      match file env (Join env [fc_WorkDir fc; name]) with
      | Missing => inl patterns
      | Unreadable err => inr err
      | Content data =>
          match readPatternFile data with
          | (_, true) => inr (bs "bufio.Scanner: token too long")
          | (extra, false) => inl (patterns ++ extra)
          end
      end
  end.

Definition loadIgnorePatterns (env : Env) (fc : FileCollector)
  : list bytes + bytes :=
  fold_left (loadIgnoreFile env fc) [bs ".gitignore"; bs ".handoffignore"]
    (inl (IgnorePatterns fc)).

(** One step of both loops over [latest]: a path is entered, or its time
    replaced by a later one. *)
Definition record (latest : gmap bytes Time) (path : bytes) (t : Time)
  : gmap bytes Time :=
  match latest !! path with
  | Some t0 => if After t t0 then <[path := t]> latest else latest
  | None => <[path := t]> latest
  end.

Definition seedEdit (latest : gmap bytes Time) (fe : FileEdit) : gmap bytes Time :=
  record latest (fe_Path fe) (fe_Timestamp fe).

(** The callback of the walk. *)
Definition visit (fs : FileSystem) (fc : FileCollector) (patterns : list bytes)
    (start stopTime : Time) (latest : gmap bytes Time) (d : DirEntry)
  : gmap bytes Time :=
  if de_err d then latest
  else if de_IsDir d then latest
  else if isIgnored fs fc (de_path d) patterns then latest
  else
    match de_ModTime d with
    | None => latest
    | Some mtime =>
        if Before mtime start || After mtime stopTime then latest
        else record latest (de_path d) mtime
    end.

(** The last loop: one record per entry of the map that is not ignored. *)
Definition emit (fs : FileSystem) (fc : FileCollector) (patterns : list bytes)
    (edits : list FileEdit) (entry : bytes * Time) : list FileEdit :=
  let '(path, ts) := entry in
  if isIgnored fs fc path patterns then edits
  else edits ++ [mkFileEdit path ts (captureFileDiff fs path (fc_WorkDir fc))].

(** [Collect]: the edits recorded on the session merged with the files of
    the working directory modified in the window.  Go iterates a map in an
    unspecified order; the order of [map_to_list] stands for it.  [now] is
    [time.Now()]. *)
Definition Collect (env : Env) (fs : FileSystem) (now : Time)
    (fc : FileCollector) (sess : Session) : CollectorResult :=
  match loadIgnorePatterns env fc with
  | inr err =>
      mkCollectorResult [] [] None []
        [bs "failed to load ignore patterns: " ++ err]
  | inl patterns =>
      let stopTime := match StopTime sess with Some t => t | None => now end in
      let latest := fold_left seedEdit (FileEdits sess) ∅ in
      let workDir := match fc_WorkDir fc with [] => bs "." | w => w end in
      let latest :=
        fold_left (visit fs fc patterns (StartTime sess) stopTime)
          (WalkDir fs workDir) latest in
      let edits := fold_left (emit fs fc patterns) (map_to_list latest) [] in
      mkCollectorResult edits [] None [] []
  end.

(** [record] on a pair. *)
Definition recordPair (latest : gmap bytes Time) (e : bytes * Time)
  : gmap bytes Time :=
  record latest e.1 e.2.

(** The occurrences of paths the collector merges: the edits recorded on
    the session, and the files the walk accepts. *)
Definition recorded (sess : Session) : list (bytes * Time) :=
  map (fun fe => (fe_Path fe, fe_Timestamp fe)) (FileEdits sess).

Definition accepted (fs : FileSystem) (fc : FileCollector) (patterns : list bytes)
    (start stopTime : Time) (d : DirEntry) : list (bytes * Time) :=
  if de_err d || de_IsDir d || isIgnored fs fc (de_path d) patterns then []
  else
    match de_ModTime d with
    | None => []
    | Some mtime =>
        if Before mtime start || After mtime stopTime then []
        else [(de_path d, mtime)]
    end.

Definition occurrences (fs : FileSystem) (now : Time) (fc : FileCollector)
    (patterns : list bytes) (sess : Session) : list (bytes * Time) :=
  let stopTime := match StopTime sess with Some t => t | None => now end in
  let workDir := match fc_WorkDir fc with [] => bs "." | w => w end in
  recorded sess
  ++ flat_map (accepted fs fc patterns (StartTime sess) stopTime)
       (WalkDir fs workDir).

End FileCollector.

(** ** Package [cmd]: the stop command *)
Module Cmd.
Import GoStrings GoTime Session BundleData Bundle OS Collector.
Import GitCollector.

(** [config.Config] and [profile.Profile]. *)
Record Config := mkConfig {
  cfg_IgnorePatterns : list bytes;
  ShellHistoryPath : bytes;
  DefaultFormat : bytes;
  OutputDir : bytes
}.

Record Profile := mkProfile {
  Name : bytes;
  prof_DefaultFormat : bytes;
  RecordCommands : bool;
  prof_OutputDir : bytes;
  ShellPluginShell : bytes
}.

(** The session file of the store: absent, unreadable, not a session, or
    the session saved last. *)
Inductive StoreState :=
| NoRecord
| StoreUnreadable (err : bytes)
| Damaged (err : bytes)
| Saved (s : Session).

(** What the command does to the world, in order: calls of the renderer,
    files written, and the removal of the session file. *)
Inductive Event :=
| Rendered (format : bytes)
| Wrote (path data : bytes)
| Deleted.

(** The world a run of the command acts on. *)
Record World := mkWorld {
  sessionFile : StoreState;
  commandLog : FileState;
  outputs : list (bytes * bytes);
  events : list Event;
  stderr : list bytes;
  stdout : list bytes
}.

(** How [os.WriteFile] fails: the file cannot be opened, and nothing
    changes; or the file is created or truncated, and the write or the
    close then fails with the first [written] bytes of the data in the
    file. *)
Inductive WriteFailure :=
| OpenFailed (err : bytes)
| WriteFailed (written : nat) (err : bytes).

(** The errors [stopCmd] returns. *)
Inductive StopError :=
| StoreUnavailable (err : bytes)
| NoActiveSession
| LoadFailed (err : bytes)
| CollectorError (err : GoError)
| RenderError (err : bytes)
| WriteError (err : bytes)
| DeleteError (err : bytes).

(** What a run depends on besides the world: the environment and the file
    system, git, the editors, the current time, the flags, the merged
    configuration, the profile, and the failures of the store, of
    [os.WriteFile] and of [os.Remove]. *)
Record Run := mkRun {
  env : Env;
  fs : FileCollector.FileSystem;
  git : GitRunner;
  editors : Session -> CollectorResult;
  durationText : Time -> Time -> bytes;
  now : Time;
  stopMessage : bytes;
  stopFormat : bytes;
  cfg : Config;
  prof : option Profile;
  storeFault : option bytes;
  writeFault : bytes -> option WriteFailure;
  deleteFault : option bytes
}.

(** [store.Load]. *)
Definition Load (w : World) : Session + StopError :=
  match sessionFile w with
  | NoRecord => inr NoActiveSession
  | StoreUnreadable err => inr (LoadFailed (bs "failed to read session state: " ++ err))
  | Damaged err => inr (LoadFailed (bs "failed to parse session state: " ++ err))
  | Saved s => inl s
  end.

(** A collector, as the loop of the command runs it: the result or the
    fatal error, and the plugin's command log after the call. *)
Definition Collector : Type :=
  Session -> FileState -> (CollectorResult + GoError) * FileState.

Definition RFC3339 : bytes := bs "2006-01-02T15:04:05Z07:00".

(** The four collectors, in the order of the source. *)
Definition collectors `{Library} (r : Run) (s : Session) : list Collector :=
  [ (fun sess log =>
       (inl (FileCollector.Collect (env r) (fs r) (now r)
               (FileCollector.mkFileCollector (WorkDir s) (cfg_IgnorePatterns (cfg r)))
               sess), log));
    (fun sess log =>
       let '(result, log') :=
         ShellCollector.Collect (env r)
           (ShellCollector.mkShellCollector (ShellHistoryPath (cfg r))
              (match prof r with Some p => RecordCommands p | None => false end))
           log sess in
       (inl result, log'));
    (fun sess log =>
       (GitCollector.Collect (git r) (fun t => Format t RFC3339)
          (mkGitCollector (WorkDir s) None) sess, log));
    (fun sess log => (inl (editors r sess), log)) ].

(** The body of the loop: the contribution of one collector is appended. *)
Definition merge (merged result : CollectorResult) : CollectorResult :=
  mkCollectorResult
    (cr_FileEdits merged ++ cr_FileEdits result)
    (cr_Commands merged ++ cr_Commands result)
    (match cr_GitInfo result with Some g => Some g | None => cr_GitInfo merged end)
    (cr_EditorTabs merged ++ cr_EditorTabs result)
    (cr_Warnings merged ++ cr_Warnings result).

(** The loop over the collectors: the first error ends it. *)
Fixpoint runCollectors (cs : list Collector) (s : Session) (log : FileState)
    (merged : CollectorResult) : (CollectorResult + GoError) * FileState :=
  match cs with
  | [] => (inl merged, log)
  | c :: rest =>
      match c s log with
      | (inr err, log') => (inr err, log')
      | (inl result, log') => runCollectors rest s log' (merge merged result)
      end
  end.

(** The session in memory once the stop time is set and the summary, if
    any, is appended; it is not saved. *)
Definition stopSession (r : Run) (s : Session) : Session :=
  mkSession (ID s) (StartTime s) (Some (now r)) (WorkDir s)
    (match stopMessage r with
     | [] => Annotations s
     | m => Annotations s ++ [mkAnnotation (now r) m true]
     end)
    (FileEdits s) (HistoryBaselineCount s).

(** [stopCmd.RunE]: the world after the run and the error returned. *)
Definition stopCmd `{Library} (r : Run) (w : World) : World * option StopError :=
  match storeFault r with
  | Some err => (w, Some (StoreUnavailable err))
  | None =>
      match Load w with
      | inr err => (w, Some err)
      | inl s0 =>
          let s := stopSession r s0 in
          match runCollectors (collectors r s) s (commandLog w) emptyResult with
          | (inr err, log) =>
              (mkWorld (sessionFile w) log (outputs w) (events w) (stderr w)
                 (stdout w),
               Some (CollectorError err))
          | (inl merged, log) =>
              let author := match prof r with Some p => Name p | None => [] end in
              let b :=
                mkContextBundle
                  (mkSessionMeta (ID s) (StartTime s) (now r) (WorkDir s)
                     (durationText r (now r) (StartTime s)) author)
                  (Annotations s) (cr_FileEdits merged) (cr_GitInfo merged)
                  (cr_Commands merged) (cr_EditorTabs merged) in
              let format :=
                match stopFormat r with [] => DefaultFormat (cfg r) | f => f end in
              let isJSON := bytes_eqb format (bs "json") in
              let ext := if isJSON then bs ".json" else bs ".md" in
              let rendered := if isJSON then JSONRender b else MarkdownRender b in
              let ev := events w ++ [Rendered format] in
              match rendered with
              | inr err =>
                  (mkWorld (sessionFile w) log (outputs w) ev (stderr w) (stdout w),
                   Some (RenderError err))
              | inl data =>
                  let filename := bs "handoff-" ++ Format (now r) RFC3339 ++ ext in
                  let outputDir :=
                    match OutputDir (cfg r) with [] => bs "." | d => d end in
                  let outputPath := Join (env r) [outputDir; filename] in
                  match writeFault r outputPath with
                  | Some (OpenFailed err) =>
                      (mkWorld (sessionFile w) log (outputs w) ev (stderr w)
                         (stdout w),
                       Some (WriteError err))
                  | Some (WriteFailed written err) =>
                      let partial := firstn written data in
                      (mkWorld (sessionFile w) log
                         (outputs w ++ [(outputPath, partial)])
                         (ev ++ [Wrote outputPath partial]) (stderr w) (stdout w),
                       Some (WriteError err))
                  | None =>
                      let outs := outputs w ++ [(outputPath, data)] in
                      let ev := ev ++ [Wrote outputPath data] in
                      match deleteFault r with
                      | Some err =>
                          (mkWorld (sessionFile w) log outs ev (stderr w) (stdout w),
                           Some (DeleteError err))
                      | None =>
                          (mkWorld NoRecord log outs (ev ++ [Deleted])
                             (stderr w
                              ++ map (fun warning => bs "warning: " ++ warning)
                                   (cr_Warnings merged))
                             (stdout w
                              ++ [bs "Session stopped. Output: " ++ outputPath]),
                           None)
                      end
                  end
              end
          end
      end
  end.

End Cmd.

(** ** Vocabulary of the statements about the window filter *)
Module FilterSpec.
Import GoStrings GoTime Session BundleData Collector.

(** [t] lies in the window from [start] to [stop], both ends included; an
    unset [stop] leaves the window open. *)
Definition inWindow (start : Time) (stop : option Time) (t : Time) : bool :=
  negb (Before t start) &&
  match stop with
  | Some stop' => negb (After t stop')
  | None => true
  end.

Definition isNoise (c : Command) : bool := isHandoffNoise (Raw c).

(** The two classes the filter treats apart, self-noise left out. *)
Definition timestampedOf (cmds : list Command) : list Command :=
  List.filter (fun c => negb (isNoise c) && negb (IsZero (Timestamp c))) cmds.

Definition noTimestampOf (cmds : list Command) : list Command :=
  List.filter (fun c => negb (isNoise c) && IsZero (Timestamp c)) cmds.

(** The last [n] entries of [l], all of [l] when it is shorter. *)
Definition lastN {A} (n : nat) (l : list A) : list A :=
  skipn (length l - n) l.

(** The warnings of the filter and the commands it returns. *)
Definition filtered (cmds : list Command) (start : Time) (stop : option Time)
    (baseline : Z) : list Command :=
  fst (filterCommands cmds start stop baseline []).

Definition filterWarnings (cmds : list Command) (start : Time)
    (stop : option Time) (baseline : Z) : list bytes :=
  snd (filterCommands cmds start stop baseline []).

End FilterSpec.

(** ** The three history grammars, as a shell writes them *)
Module HistoryFormats.
Import GoStrings GoTime BundleData Collector.

Definition newline : ascii := "010"%char.

Definition isInt64 (z : Z) : bool := (- 2 ^ 63 <=? z)%Z && (z <? 2 ^ 63)%Z.

(** A line the scanner hands over unchanged: no line feed inside, no
    carriage return at the end, and short enough for the buffer. *)
Definition wfLine (line : bytes) : bool :=
  negb (existsb (byte_eqb newline) line)
  && bytes_eqb (dropCR line) line
  && lineFits line.

(** Bash: a command line, with a line [#<epoch>] before it when the shell
    records timestamps. *)
Definition bashEntry : Type := bytes * option Z.

Definition bashText (e : bashEntry) : bytes :=
  match e with
  | (cmd, Some epoch) =>
      bs "#" ++ FormatInt epoch ++ [newline] ++ cmd ++ [newline]
  | (cmd, None) => cmd ++ [newline]
  end.

Definition bashCommand (e : bashEntry) : Command :=
  match e with
  | (cmd, Some epoch) => mkCommand cmd (Unix epoch)
  | (cmd, None) => mkCommand cmd zero
  end.

(** A command is a non-empty line that does not start with [#]. *)
Definition wfBash (e : bashEntry) : bool :=
  match e with
  | (cmd, epoch) =>
      negb (bytes_eqb cmd []) && negb (HasPrefix cmd (bs "#")) && wfLine cmd
      && match epoch with Some z => isInt64 z | None => true end
  end.

(** Zsh, extended format: [: <epoch>:<elapsed>;<command>]. *)
Definition zshEntry : Type := bytes * Z * Z.

Definition zshLineText (e : zshEntry) : bytes :=
  match e with
  | (cmd, epoch, elapsed) =>
      bs ": " ++ FormatInt epoch ++ bs ":" ++ FormatInt elapsed ++ bs ";" ++ cmd
  end.

Definition zshText (e : zshEntry) : bytes := zshLineText e ++ [newline].

Definition zshCommand (e : zshEntry) : Command :=
  match e with
  | (cmd, epoch, _) => mkCommand cmd (Unix epoch)
  end.

Definition wfZsh (e : zshEntry) : bool :=
  match e with
  | (cmd, epoch, elapsed) =>
      isInt64 epoch && wfLine (zshLineText e)
  end.

(** Fish: a line [- cmd: <command>] and a line [  when: <epoch>]. *)
Definition fishEntry : Type := bytes * Z.

Definition fishText (e : fishEntry) : bytes :=
  match e with
  | (cmd, epoch) =>
      bs "- cmd: " ++ cmd ++ [newline] ++
      bs "  when: " ++ FormatInt epoch ++ [newline]
  end.

Definition fishCommand (e : fishEntry) : Command :=
  match e with
  | (cmd, epoch) => mkCommand cmd (Unix epoch)
  end.

Definition wfFish (e : fishEntry) : bool :=
  match e with
  | (cmd, epoch) =>
      negb (bytes_eqb cmd []) && wfLine (bs "- cmd: " ++ cmd) && isInt64 epoch
  end.

(** The lines of an entry, without their terminators. *)
Definition bashLines (e : bashEntry) : list bytes :=
  match e with
  | (cmd, Some epoch) => [bs "#" ++ FormatInt epoch; cmd]
  | (cmd, None) => [cmd]
  end.

Definition fishLines (e : fishEntry) : list bytes :=
  match e with
  | (cmd, epoch) => [bs "- cmd: " ++ cmd; bs "  when: " ++ FormatInt epoch]
  end.

(** The bytes [%d] can print. *)
Definition digitOrMinus (c : ascii) : bool := isDigit c || byte_eqb c "-".

(** A history file: the entries one after the other. *)
Definition history {E} (text : E -> bytes) (entries : list E) : bytes :=
  concat (map text entries).

End HistoryFormats.

(** ** Sample data for the closed instances of the statements *)
Module Samples.
Import GoStrings GoTime Session BundleData Collector OS ShellCollector.


Definition nl : ascii := "010"%char.

(** A session that starts at Unix time 1700000000 and lasts an hour. *)
Definition t0 : Time := Unix 1700000000.
Definition t1 : Time := Unix 1700003600.

Definition cmdBefore : Command := mkCommand (bs "git pull") (Unix 1699990000).
Definition cmdInside : Command := mkCommand (bs "go test ./...") (Unix 1700000300).
Definition cmdAfter : Command := mkCommand (bs "git push") (Unix 1700009000).
Definition cmdPlainA : Command := mkCommand (bs "ls") zero.
Definition cmdPlainB : Command := mkCommand (bs "make") zero.

(** [filepath.Join] on clean elements. *)
Fixpoint joinPath (elems : list bytes) : bytes :=
  match elems with
  | [] => []
  | [e] => e
  | e :: rest => e ++ "/"%char :: joinPath rest
  end.

(** A machine whose only file is the history of the user's shell. *)
Definition envWith (shell histPath content : bytes) : Env :=
  mkEnv shell (bs "/home/dev") joinPath
    (fun p => if bytes_eqb p histPath then Content content else Missing)
    (bs "no such file or directory").


(** A bash history without timestamps. *)
Definition bashPlain : Env :=
  envWith (bs "/bin/bash") (bs "/home/dev/.bash_history")
    (bs "ls" ++ [nl] ++ bs "make" ++ [nl]).

(** A zsh history with a plain line before an extended one. *)
Definition zshMixed : Env :=
  envWith (bs "/bin/zsh") (bs "/home/dev/.zsh_history")
    (bs "ls" ++ [nl] ++ bs ": 1700000300:0;go test ./..." ++ [nl]).

Definition sessionWith (baseline : Z) : Session :=
  mkSession (bs "a1b2") t0 (Some t1) (bs "/home/dev/proj") [] [] baseline.

Definition autoShell : ShellCollector := mkShellCollector [] false.



(** A working directory with two files, one of them modified in the
    session, and a session on which the watcher recorded [main.go] twice. *)
Definition mainGo : bytes := bs "/home/dev/proj/main.go".
Definition readme : bytes := bs "/home/dev/proj/README.md".

Definition projFiles : FileCollector.FileSystem :=
  FileCollector.mkFileSystem
    (fun _ =>
       [FileCollector.mkDirEntry (bs "/home/dev/proj") false true None;
        FileCollector.mkDirEntry mainGo false false (Some (Unix 1700000900));
        FileCollector.mkDirEntry readme false false (Some (Unix 1690000000))])
    (fun pattern name => bytes_eqb pattern name)
    (fun _ path => Some path)
    (fun _ _ => []).

Definition projCollector : FileCollector.FileCollector :=
  FileCollector.mkFileCollector (bs "/home/dev/proj") [bs "*.log"].

Definition watchedSession : Session :=
  mkSession (bs "a1b2") t0 (Some t1) (bs "/home/dev/proj") []
    [mkFileEdit mainGo (Unix 1700000100) [];
     mkFileEdit mainGo (Unix 1700001500) []]
    0.

(** A bundle with an entry in every collection. *)
Definition sampleBundle : ContextBundle :=
  mkContextBundle
    (mkSessionMeta (bs "a1b2") t0 t1 (bs "/home/dev/proj") (bs "1h0m0s") (bs "dev"))
    [mkAnnotation (Unix 1700000300) (bs "reproduced bug") false;
     mkAnnotation t1 (bs "see retry loop") true]
    [mkFileEdit mainGo (Unix 1700001500) []]
    (Some (mkGitInfo (bs "main") (bs "abc123") (bs "diff --git a/main.go b/main.go")
             [] [bs "abc123 fix retry loop"]))
    [cmdInside]
    [mainGo].

(** A stand-in for [encoding/json]: every field in the order of the
    struct, a string as its length, a colon and its bytes, a number in
    decimal closed by a semicolon, a list as its length and its elements.
    The indented layout puts the same text on a line of its own. *)
Definition putInt (z : Z) : bytes := FormatInt z ++ bs ";".
Definition putStr (s : bytes) : bytes := FormatInt (len s) ++ bs ":" ++ s.
Definition putList {A} (put : A -> bytes) (l : list A) : bytes :=
  putInt (len l) ++ concat (map put l).

Definition putBundle (b : ContextBundle) : bytes :=
  let m := cb_Session b in
  putStr (sm_ID m) ++ putInt (sm_StartTime m) ++ putInt (sm_StopTime m)
  ++ putStr (sm_WorkDir m) ++ putStr (sm_Duration m) ++ putStr (sm_Author m)
  ++ putList (fun a => putInt (ann_Timestamp a) ++ putStr (ann_Message a)
                       ++ putInt (if ann_IsSummary a then 1 else 0))
       (cb_Annotations b)
  ++ putList (fun e => putStr (fe_Path e) ++ putInt (fe_Timestamp e)
                       ++ putStr (fe_Diff e))
       (cb_FileEdits b)
  ++ putList (fun g => putStr (Branch g) ++ putStr (HeadCommit g)
                       ++ putStr (Diff g) ++ putStr (StagedDiff g)
                       ++ putList putStr (RecentLog g))
       (match cb_Git b with Some g => [g] | None => [] end)
  ++ putList (fun c => putStr (Raw c) ++ putInt (Timestamp c)) (cb_Commands b)
  ++ putList putStr (cb_EditorTabs b).

(** A reader consumes a value from the front of the text. *)
Definition Reader (A : Type) : Type := bytes -> option (A * bytes).

Definition readZ (s : bytes) : option Z :=
  match s with
  | [] => None
  | c :: s' =>
      if byte_eqb c "-"%char then option_map Z.opp (parseDigits s' 0)
      else parseDigits s 0
  end.

Definition getUntil (stop : ascii) : Reader Z :=
  fun s =>
    match IndexByte s stop with
    | None => None
    | Some i =>
        match readZ (firstn i s) with
        | Some z => Some (z, skipn (i + 1) s)
        | None => None
        end
    end.

Definition getInt : Reader Z := getUntil ";"%char.

Definition getStr : Reader bytes :=
  fun s =>
    match getUntil ":"%char s with
    | Some (n, rest) =>
        if (0 <=? n)%Z && (n <=? len rest)%Z then
          Some (firstn (Z.to_nat n) rest, skipn (Z.to_nat n) rest)
        else None
    | None => None
    end.

Fixpoint getMany {A} (get : Reader A) (n : nat) : Reader (list A) :=
  fun s =>
    match n with
    | O => Some ([], s)
    | S k =>
        match get s with
        | Some (x, rest) =>
            match getMany get k rest with
            | Some (xs, rest') => Some (x :: xs, rest')
            | None => None
            end
        | None => None
        end
    end.

Definition getList {A} (get : Reader A) : Reader (list A) :=
  fun s =>
    match getInt s with
    | Some (n, rest) =>
        if (0 <=? n)%Z && (n <=? len rest)%Z then getMany get (Z.to_nat n) rest
        else None
    | None => None
    end.

Definition andThen {A B} (r : Reader A) (k : A -> Reader B) : Reader B :=
  fun s => match r s with Some (x, rest) => k x rest | None => None end.

Definition ret {A} (x : A) : Reader A := fun s => Some (x, s).

Definition getAnnotation : Reader Annotation :=
  andThen getInt (fun t => andThen getStr (fun m => andThen getInt (fun f =>
  ret (mkAnnotation t m (f =? 1)%Z)))).

Definition getFileEdit : Reader FileEdit :=
  andThen getStr (fun p => andThen getInt (fun t => andThen getStr (fun d =>
  ret (mkFileEdit p t d)))).

Definition getGitInfo : Reader GitInfo :=
  andThen getStr (fun b => andThen getStr (fun h => andThen getStr (fun d =>
  andThen getStr (fun sd => andThen (getList getStr) (fun l =>
  ret (mkGitInfo b h d sd l)))))).

Definition getCommand : Reader Command :=
  andThen getStr (fun r => andThen getInt (fun t => ret (mkCommand r t))).

Definition getBundle : Reader ContextBundle :=
  andThen getStr (fun id => andThen getInt (fun start => andThen getInt (fun stop =>
  andThen getStr (fun dir => andThen getStr (fun dur => andThen getStr (fun author =>
  andThen (getList getAnnotation) (fun anns =>
  andThen (getList getFileEdit) (fun edits =>
  andThen (getList getGitInfo) (fun git =>
  andThen (getList getCommand) (fun cmds =>
  andThen (getList getStr) (fun tabs =>
  ret (mkContextBundle (mkSessionMeta id start stop dir dur author) anns edits
         (hd_error git) cmds tabs)))))))))))).

Definition sampleLibrary : Bundle.Library :=
  Bundle.mkLibrary
    (fun b => inl (putBundle b))
    (fun b => inl (putBundle b ++ [nl]))
    (fun data =>
       match getBundle (TrimSpace data) with
       | Some (b, []) => inl b
       | _ => inr (bs "invalid character")
       end)
    (fun _ _ => bs "2023-11-14 23:13:20").

(** The bundle a Markdown document of the stop command holds. *)
Definition readBundle (document : bytes) : option ContextBundle :=
  match @Bundle.MarkdownParse sampleLibrary document with
  | inl b => Some b
  | inr _ => None
  end.

Definition sampleCompact : bytes := putBundle sampleBundle.

(** A run of the stop command in which git fails with exit status 1,
    with the shell plugin enabled and one command in its log. *)
Definition sampleProfile : Cmd.Profile :=
  Cmd.mkProfile (bs "dev") (bs "markdown") true (bs ".") (bs "bash").

Definition gitBroken : Cmd.Run :=
  Cmd.mkRun bashPlain projFiles (fun _ _ => inr (GitCollector.ExitError 1))
    (fun _ => Collector.emptyResult) (fun _ _ => bs "1h0m0s") t1
    (bs "see retry loop") [] (Cmd.mkConfig [bs "*.log"] [] (bs "markdown") (bs "."))
    (Some sampleProfile) None (fun _ => None) None.

Definition activeWorld : Cmd.World :=
  Cmd.mkWorld (Cmd.Saved watchedSession)
    (Content (bs "1700000300" ++ ["009"%char] ++ bs "go test ./..." ++ [nl]))
    [] [] [] [].

(** The same run with a git that answers every query. *)
Definition gitWorking : Cmd.Run :=
  Cmd.mkRun bashPlain projFiles (fun _ _ => inl (bs "main" ++ [nl]))
    (fun _ => Collector.emptyResult) (fun _ _ => bs "1h0m0s") t1
    (bs "see retry loop") [] (Cmd.mkConfig [bs "*.log"] [] (bs "markdown") (bs "."))
    (Some sampleProfile) None (fun _ => None) None.

(** The runners of the tests of the Git collector: outside a repository
    every call exits with status 128; a repository in which [git diff]
    exits with status 1; and a repository that answers every query. *)
Definition gitNoRepo : GitCollector.GitRunner :=
  fun _ _ => inr (GitCollector.ExitError 128).

Definition gitDiffFails : GitCollector.GitRunner :=
  fun _ args =>
    if bytes_eqb (hd [] args) (bs "diff") then inr (GitCollector.ExitError 1)
    else inl (bs "main" ++ [nl]).

Definition gitAnswers : GitCollector.GitRunner :=
  fun _ args =>
    if bytes_eqb (hd [] args) (bs "log") then
      inl (bs "abc123 first commit" ++ [nl] ++ bs "def456 second commit" ++ [nl])
    else if bytes_eqb (hd [] args) (bs "diff") then
      if bytes_eqb (nth 1 args []) (bs "--staged") then
        inl (bs "diff --git a/bar.go b/bar.go" ++ [nl])
      else inl (bs "diff --git a/foo.go b/foo.go" ++ [nl])
    else if bytes_eqb (nth 1 args []) (bs "HEAD") then
      inl (bs "abc123def456" ++ [nl])
    else inl (bs "main" ++ [nl]).

(** The stop that git fails, the same stop retried on the world the
    failed one left, once git works, and the stop had git worked at
    once. *)
Definition failedStop : Cmd.World * option Cmd.StopError :=
  @Cmd.stopCmd sampleLibrary gitBroken activeWorld.

Definition retriedStop : Cmd.World * option Cmd.StopError :=
  @Cmd.stopCmd sampleLibrary gitWorking failedStop.1.

Definition directStop : Cmd.World * option Cmd.StopError :=
  @Cmd.stopCmd sampleLibrary gitWorking activeWorld.

End Samples.

(** ** The editor-tab collector *)
Module EditorCollector.
Import GoStrings GoTime Session BundleData Collector OS.

Record EditorCollector := mkEditorCollector {
  StateDir : bytes
}.

(** [editorReader]: the tabs and the warnings of one editor, for a home
    directory. *)
Definition editorReader : Type := bytes -> list bytes * list bytes.

(** What the collector reads the editors through: [os.UserHomeDir] (the
    directory, or the text of its error), [collectVSCodeFamily] for an
    editor name and a storage directory, and the four readers. *)
Record Editors := mkEditors {
  homeDir : bytes + bytes;
  collectVSCodeFamily : bytes -> bytes -> list bytes * list bytes;
  collectVSCodeFamilyAuto : editorReader;
  collectJetBrains : editorReader;
  collectVim : editorReader;
  collectNeovim : editorReader
}.

(** [seen[t]] on a [map[string]bool]: a missing key reads as [false]. *)
Definition isSeen (seen : gmap bytes bool) (t : bytes) : bool :=
  match seen !! t with Some b => b | None => false end.

(** [if !seen[t] { seen[t] = true; tabs = append(tabs, t) }]. *)
Definition addTab (st : gmap bytes bool * list bytes) (t : bytes)
  : gmap bytes bool * list bytes :=
  let '(seen, tabs) := st in
  if isSeen seen t then st else (<[t := true]> seen, tabs ++ [t]).

(** The body of the loop over the readers. *)
Definition readEditor (home : bytes)
    (st : gmap bytes bool * list bytes * list bytes) (reader : editorReader)
  : gmap bytes bool * list bytes * list bytes :=
  let '(seen, allTabs, allWarnings) := st in
  let '(tabs, warnings) := reader home in
  let '(seen, allTabs) := fold_left addTab tabs (seen, allTabs) in
  (seen, allTabs, allWarnings ++ warnings).

(** The working directory with one separator at its end. *)
Definition workDirPrefix (workDir : bytes) : bytes :=
  if HasSuffix workDir (bs "/") then workDir else workDir ++ bs "/".

Definition keepUnder (workDir prefix : bytes) (result : list bytes) (p : bytes)
  : list bytes :=
  if bytes_eqb p workDir || HasPrefix p prefix then result ++ [p] else result.

(** [filterToWorkDir]. *)
Definition filterToWorkDir (paths : list bytes) (workDir : bytes) : list bytes :=
  match workDir with
  | [] => paths
  | _ => fold_left (keepUnder workDir (workDirPrefix workDir)) paths []
  end.

(** [EditorCollector.Collect]; the error it returns is always [nil].  A
    state directory that is set is read alone, as a VS Code storage. *)
Definition Collect (ed : Editors) (e : EditorCollector) (sess : Session)
  : CollectorResult :=
  let workDir := WorkDir sess in
  if negb (bytes_eqb (StateDir e) []) then
    let '(tabs, warnings) :=
      collectVSCodeFamily ed (bs "VS Code (test)") (StateDir e) in
    let warnings :=
      match tabs, warnings with
      | [], [] =>
          [bs "VS Code workspace storage unavailable (" ++ StateDir e ++ bs ")"]
      | _, _ => warnings
      end in
    mkCollectorResult [] [] None (filterToWorkDir tabs workDir) warnings
  else
    match homeDir ed with
    | inr err =>
        mkCollectorResult [] [] None []
          [bs "editor tab collection skipped: cannot determine home dir: "
           ++ err]
    | inl home =>
        let readers :=
          [collectVSCodeFamilyAuto ed; collectJetBrains ed; collectVim ed;
           collectNeovim ed] in
        let '(_, allTabs, allWarnings) :=
          fold_left (readEditor home) readers (∅, [], []) in
        let allTabs := filterToWorkDir allTabs workDir in
        let allWarnings :=
          match allTabs with
          | [] =>
              allWarnings
              ++ [bs "no open editor tabs found under " ++ workDir]
          | _ => allWarnings
          end in
        mkCollectorResult [] [] None allTabs allWarnings
    end.

(** [collectVSCodeFamilyAuto]: the storage directory of every known fork
    is read by [collectVSCodeFamily], and the paths are merged by the same
    loop as in [Collect]. *)
Definition vscodeAppNames : list (bytes * bytes) :=
  [(bs "VS Code", bs "Code"); (bs "Kiro", bs "Kiro"); (bs "Cursor", bs "Cursor");
   (bs "Windsurf", bs "Windsurf"); (bs "VSCodium", bs "VSCodium")].

(** [vscodeStorageDir]; [goos] is [runtime.GOOS] and [appData] the
    variable [APPDATA]. *)
Definition vscodeStorageDir (env : Env) (goos appData home appDir : bytes) : bytes :=
  if bytes_eqb goos (bs "darwin") then
    Join env [home; bs "Library"; bs "Application Support"; appDir; bs "User";
              bs "workspaceStorage"]
  else if bytes_eqb goos (bs "windows") then
    Join env [appData; appDir; bs "User"; bs "workspaceStorage"]
  else Join env [home; bs ".config"; appDir; bs "User"; bs "workspaceStorage"].

Definition vscodeFamilyAuto (env : Env) (goos appData : bytes)
    (family : bytes -> bytes -> list bytes * list bytes) : editorReader :=
  fun home =>
    let readApp (app : bytes * bytes) : editorReader :=
      fun home => family app.1 (vscodeStorageDir env goos appData home app.2) in
    let '(_, allTabs, allWarnings) :=
      fold_left (readEditor home) (map readApp vscodeAppNames) (∅, [], []) in
    (allTabs, allWarnings).

(** A leading [~/] stands for the home directory. *)
Definition expandHome (env : Env) (home filePath : bytes) : bytes :=
  if HasPrefix filePath (bs "~/") then Join env [home; skipn 2 filePath]
  else filePath.

(** The body of the loop of [parseViminfo]: a line [> <path>] names a
    file. *)
Definition viminfoLine (env : Env) (home : bytes)
    (st : gmap bytes bool * list bytes) (line : bytes)
  : gmap bytes bool * list bytes :=
  if negb (HasPrefix line (bs "> ")) then st
  else
    let filePath := expandHome env home (TrimSpace (TrimPrefix line (bs "> "))) in
    match filePath with
    | [] => st
    | _ => addTab st filePath
    end.

(** [parseViminfo]: the files, and the error of opening or scanning. *)
Definition parseViminfo (env : Env) (path home : bytes)
  : list bytes * option bytes :=
  match Open env path with
  | inr err => ([], Some err)
  | inl data =>
      let '(lines, err) := ScanLines data in
      ((fold_left (viminfoLine env home) lines (∅, [])).2,
       if err then Some (bs "bufio.Scanner: token too long") else None)
  end.

(** [collectVim]: a viminfo file that cannot be read gives nothing. *)
Definition vimReader (env : Env) : editorReader :=
  fun home =>
    match parseViminfo env (Join env [home; bs ".viminfo"]) home with
    | (tabs, None) => (tabs, [])
    | (_, Some _) => ([], [])
    end.

(** The body of the loop of [collectNeovim] over the lines that [nvim]
    prints. *)
Definition neovimLine (env : Env) (home : bytes)
    (st : gmap bytes bool * list bytes) (line : bytes)
  : gmap bytes bool * list bytes :=
  match TrimSpace line with
  | [] => st
  | line => addTab st (expandHome env home line)
  end.

(** [collectNeovim]; [nvim] is the output of the editor run headless,
    [None] when it cannot be run, in which case the shada file is read as
    a viminfo file. *)
Definition neovimReader (env : Env) (nvim : option bytes) : editorReader :=
  fun home =>
    match nvim with
    | None =>
        match parseViminfo env
                (Join env [home; bs ".local"; bs "share"; bs "nvim"; bs "shada";
                           bs "main.shada"]) home with
        | (tabs, None) => (tabs, [])
        | (_, Some _) => ([], [])
        end
    | Some out =>
        ((fold_left (neovimLine env home) (Split (TrimSpace out) "010"%char)
            (∅, [])).2, [])
    end.

(** *** Vocabulary of the statements about editor tabs *)

(** The path a line of a viminfo file names. *)
Definition viminfoPath (env : Env) (home line : bytes) : bytes :=
  expandHome env home (TrimSpace (TrimPrefix line (bs "> "))).

(** A path is under the working directory: it is the directory itself or
    continues the directory and a separator; every path is under the empty
    working directory. *)
Definition under (workDir p : bytes) : Prop :=
  workDir = [] \/ p = workDir \/ exists rest, p = workDirPrefix workDir ++ rest.

(** The tabs and the warnings the four readers return, in the order the
    collector calls them. *)
Definition readerTabs (ed : Editors) (home : bytes) : list bytes :=
  concat (map (fun reader : editorReader => fst (reader home))
            [collectVSCodeFamilyAuto ed; collectJetBrains ed; collectVim ed;
             collectNeovim ed]).


(** The state of a loop that appends the paths not seen before: the paths
    seen are the paths of the list, which holds no path twice. *)
Definition tabsInv (st : gmap bytes bool * list bytes) : Prop :=
  List.NoDup st.2 /\ forall t, isSeen st.1 t = true <-> In t st.2.

End EditorCollector.

(** ** Editors of a sample machine *)
Module EditorSamples.
Import GoStrings GoTime Session BundleData Collector OS EditorCollector.

Definition home : bytes := bs "/home/dev".

(** A viminfo file that names [main.go] twice and a file elsewhere. *)
Definition viminfo : bytes :=
  bs "# Jumplist (newest first):" ++ [Samples.nl]
  ++ bs "> ~/proj/main.go" ++ [Samples.nl]
  ++ bs "> /etc/hosts" ++ [Samples.nl]
  ++ bs "> ~/proj/main.go" ++ [Samples.nl].

Definition vimEnv : Env :=
  Samples.envWith (bs "/bin/zsh") (bs "/home/dev/.viminfo") viminfo.

(** One VS Code fork with the project folder and a file of a sibling
    directory open, no JetBrains IDE, Vim, and a Neovim that prints two
    old files. *)
Definition vscodeTabs : list bytes :=
  [bs "/home/dev/proj"; bs "/home/dev/proj-old/x.go"].

Definition editors : Editors :=
  mkEditors (inl home)
    (fun _ _ => ([], []))
    (vscodeFamilyAuto vimEnv (bs "linux") []
       (fun name _ => if bytes_eqb name (bs "Cursor") then (vscodeTabs, [])
                      else ([], [])))
    (fun _ => ([], []))
    (vimReader vimEnv)
    (neovimReader vimEnv
       (Some (bs "~/proj/main.go" ++ [Samples.nl] ++ bs "/tmp/scratch"
              ++ [Samples.nl]))).

Definition session : Session := Samples.sessionWith 0.

End EditorSamples.

(** ** Package [config], and the configuration the commands see *)
Module Config.
Import GoStrings OS Cmd.

(** [Defaults]. *)
Definition Defaults : Config := mkConfig [] [] (bs "markdown") (bs ".").

(** One of the two blocks of [Merge]: the values of [c] that are not
    empty replace those of [result]; [None] is the [nil] pointer. *)
Definition overlay (result : Config) (c : option Config) : Config :=
  match c with
  | None => result
  | Some c =>
      mkConfig
        (match cfg_IgnorePatterns c with
         | [] => cfg_IgnorePatterns result
         | patterns => patterns
         end)
        (match ShellHistoryPath c with
         | [] => ShellHistoryPath result
         | path => path
         end)
        (match DefaultFormat c with
         | [] => DefaultFormat result
         | format => format
         end)
        (match OutputDir c with
         | [] => OutputDir result
         | dir => dir
         end)
  end.

(** [Merge]: the global values over the defaults, then the project values
    over the result. *)
Definition Merge (global project : option Config) : Config :=
  let result := Defaults in
  let result := overlay result global in
  overlay result project.

(** [loadFile]; [unmarshal] is [json.Unmarshal] into a zero [Config], and
    an error is the text that [%v] prints. *)
Definition loadFile (env : Env) (unmarshal : bytes -> Config + bytes)
    (path : bytes) (returnDefaults : bool) : option Config + bytes :=
  match file env path with
  | Missing => inl (if returnDefaults then Some Defaults else None)
  | Unreadable err => inr err
  | Content data =>
      match unmarshal data with
      | inr err => inr (bs "failed to parse config file " ++ path ++ bs ": " ++ err)
      | inl cfg => inl (Some cfg)
      end
  end.

(** [LoadGlobal]; [home] is what [os.UserHomeDir] returns. *)
Definition LoadGlobal (env : Env) (unmarshal : bytes -> Config + bytes)
    (home : bytes + bytes) : option Config + bytes :=
  match home with
  | inr err => inr err
  | inl home =>
      loadFile env unmarshal
        (Join env [home; bs ".config"; bs "handoff"; bs "config.json"]) true
  end.

(** [LoadProject]. *)
Definition LoadProject (env : Env) (unmarshal : bytes -> Config + bytes)
  : option Config + bytes :=
  loadFile env unmarshal (bs ".handoffconfig") false.

(** The values of the profile that fill the gaps of the configuration, in
    [PersistentPreRunE] of the root command. *)
Definition fillGaps (cfg : Config) (activeProfile : option Profile) : Config :=
  match activeProfile with
  | None => cfg
  | Some p =>
      let format :=
        if bytes_eqb (DefaultFormat cfg) [] || bytes_eqb (DefaultFormat cfg) (bs "markdown")
        then match prof_DefaultFormat p with
             | [] => DefaultFormat cfg
             | format => format
             end
        else DefaultFormat cfg in
      let dir :=
        if bytes_eqb (OutputDir cfg) (bs ".")
           && negb (bytes_eqb (prof_OutputDir p) [])
           && negb (bytes_eqb (prof_OutputDir p) (bs "."))
        then prof_OutputDir p
        else OutputDir cfg in
      mkConfig (cfg_IgnorePatterns cfg) (ShellHistoryPath cfg) format dir
  end.

(** The part of [PersistentPreRunE] that loads and merges the
    configuration files: the configuration [GetConfig] returns afterwards,
    or the error of the command. *)
Definition loadConfig (env : Env) (unmarshal : bytes -> Config + bytes)
    (home : bytes + bytes) (activeProfile : option Profile) : Config + bytes :=
  match LoadGlobal env unmarshal home with
  | inr err => inr (bs "loading global config: " ++ err)
  | inl global =>
      match LoadProject env unmarshal with
      | inr err => inr (bs "loading project config: " ++ err)
      | inl project => inl (fillGaps (Merge global project) activeProfile)
      end
  end.

End Config.

(** ** Configuration files of a sample machine *)
Module ConfigSamples.
Import GoStrings OS Cmd Config.

(** A stand-in for [json.Unmarshal]: the text is the output directory. *)
Definition readDir (data : bytes) : Config + bytes :=
  match data with
  | [] => inr (bs "unexpected end of JSON input")
  | dir => inl (mkConfig [] [] [] dir)
  end.

(** A machine with a project file and no global file. *)
Definition projectOnly : Env :=
  Samples.envWith (bs "/bin/zsh") (bs ".handoffconfig") (bs "out").

End ConfigSamples.

(** ** Vocabulary of the statements about the plugin's command log *)
Module PluginLog.
Import GoStrings GoTime BundleData Collector HistoryFormats.

(** What the shell hook appends for a command, with
    [printf '%s\t%s\n' "$(date +%s)" "$cmd"]: the epoch, a tab, the
    command and a line feed. *)
Definition logEntry : Type := Z * bytes.

Definition tab : ascii := "009"%char.

Definition logLineText (e : logEntry) : bytes := FormatInt e.1 ++ [tab] ++ e.2.

Definition logText (e : logEntry) : bytes := logLineText e ++ [newline].

Definition logCommand (e : logEntry) : Command := mkCommand e.2 (Unix e.1).

(** An entry the reader takes: the epoch fits [int64], the command is not
    empty, and the line reaches the reader unchanged. *)
Definition wfLog (e : logEntry) : bool :=
  isInt64 e.1 && negb (bytes_eqb e.2 []) && wfLine (logLineText e).

(** A bash history line without timestamp, as an entry. *)
Definition plain (cmd : bytes) : bashEntry := (cmd, None).

End PluginLog.

(** ** Package [session]: the store of the active session *)
Module SessionStore.
Import GoStrings Session OS.

(** [encoding/json] for the type [Session]; an error is the text that
    [%v] prints. *)
Class Codec := mkCodec {
  json_Marshal : Session -> bytes + bytes;
  json_Unmarshal : bytes -> Session + bytes
}.

(** The files of the data directory, by path. *)
Abbreviation Disk := (gmap bytes bytes).

(** What the operating system does in a call of the store: the name
    [os.CreateTemp] picks, and the step that fails, if any.  A failing
    write leaves the first [n] bytes in the file. *)
Record Sys := mkSys {
  tempName : bytes;
  createTempFault : option bytes;
  writeFault : option (nat * bytes);
  closeFault : option bytes;
  renameFault : option bytes;
  removeTempFails : bool;
  readFault : option bytes;
  removeFault : option bytes
}.

Definition persistError (err : bytes) : bytes :=
  bs "failed to persist session state: " ++ err.

(** The deferred function of [Save]: the temporary file is removed on
    every error path, as far as [os.Remove] succeeds. *)
Definition cleanup (sys : Sys) (disk : Disk) : Disk :=
  if removeTempFails sys then disk else delete (tempName sys) disk.

(** [diskStore.Save]: the disk after the call and the error. *)
Definition Save `{Codec} (sys : Sys) (path : bytes) (s : Session) (disk : Disk)
  : Disk * option bytes :=
  match json_Marshal s with
  | inr err => (disk, Some (persistError err))
  | inl data =>
      match createTempFault sys with
      | Some err => (disk, Some (persistError err))
      | None =>
          let tmpName := tempName sys in
          let disk := <[tmpName := []]> disk in
          match writeFault sys with
          | Some (n, err) =>
              (cleanup sys (<[tmpName := firstn n data]> disk),
               Some (persistError err))
          | None =>
              let disk := <[tmpName := data]> disk in
              match closeFault sys with
              | Some err => (cleanup sys disk, Some (persistError err))
              | None =>
                  match renameFault sys with
                  | Some err => (cleanup sys disk, Some (persistError err))
                  | None => (<[path := data]> (delete tmpName disk), None)
                  end
              end
          end
      end
  end.

(** The errors of [Load]. *)
Inductive LoadError :=
| ErrNoSession
| ReadFailed (err : bytes)
| ParseFailed (err : bytes).

Definition loadErrorText (e : LoadError) : bytes :=
  match e with
  | ErrNoSession => bs "no active session"
  | ReadFailed err => bs "failed to read session state: " ++ err
  | ParseFailed err => bs "failed to parse session state: " ++ err
  end.

(** [diskStore.Load]. *)
Definition Load `{Codec} (sys : Sys) (path : bytes) (disk : Disk)
  : Session + LoadError :=
  match disk !! path with
  | None => inr ErrNoSession
  | Some data =>
      match readFault sys with
      | Some err => inr (ReadFailed err)
      | None =>
          match json_Unmarshal data with
          | inr err => inr (ParseFailed err)
          | inl s => inl s
          end
      end
  end.

(** [diskStore.Delete]: a file that does not exist is not an error. *)
Definition Delete (sys : Sys) (path : bytes) (disk : Disk) : Disk * option bytes :=
  match disk !! path with
  | None => (disk, None)
  | Some _ =>
      match removeFault sys with
      | Some err => (disk, Some (bs "failed to delete session state: " ++ err))
      | None => (delete path disk, None)
      end
  end.

(** An operating system on which no call fails. *)
Definition sound (tmpName : bytes) : Sys :=
  mkSys tmpName None None None None false None None.

End SessionStore.

(** ** Package [cmd]: the start, note and status commands *)
Module Lifecycle.
Import GoStrings GoTime Session BundleData Bundle OS Collector Cmd.

(** The errors the three commands return. *)
Inductive CmdError :=
| NoStore (err : bytes)
| NoSession
| BadStore (err : bytes)
| AlreadyActive (started : bytes)
| NoWorkDir (err : bytes)
| SaveFailed (err : bytes).

Definition cmdErrorText (e : CmdError) : bytes :=
  match e with
  | NoStore err => err
  | NoSession => bs "no active session"
  | BadStore err => err
  | AlreadyActive started =>
      bs "session already in progress (started at " ++ started ++ bs ")"
  | NoWorkDir err => err
  | SaveFailed err => err
  end.

(** [store.Load] on the session file of the world. *)
Definition load (w : World) : Session + CmdError :=
  match sessionFile w with
  | NoRecord => inr NoSession
  | StoreUnreadable err => inr (BadStore (bs "failed to read session state: " ++ err))
  | Damaged err => inr (BadStore (bs "failed to parse session state: " ++ err))
  | Saved s => inl s
  end.

(** [store.Save] on the session file of the world: a save that fails
    leaves the record as it was, and the record of one that succeeds is
    the session saved.  [saveFault] is the failure, if any. *)
Definition save (saveFault : option bytes) (s : Session) (w : World)
  : World * option CmdError :=
  match saveFault with
  | Some err => (w, Some (SaveFailed (bs "failed to persist session state: " ++ err)))
  | None =>
      (mkWorld (Saved s) (commandLog w) (outputs w) (events w) (stderr w)
         (stdout w), None)
  end.

Definition say (line : bytes) (w : World) : World :=
  mkWorld (sessionFile w) (commandLog w) (outputs w) (events w) (stderr w)
    (stdout w ++ [line]).

(** [startCmd.RunE]; [uuid] is [uuid.New().String()] and [cwd] what
    [os.Getwd] returns. *)
Definition startCmd `{Library} (r : Run) (uuid : bytes) (cwd : bytes + bytes)
    (saveFault : option bytes) (w : World) : World * option CmdError :=
  match storeFault r with
  | Some err => (w, Some (NoStore err))
  | None =>
      match load w with
      | inr (BadStore err) => (w, Some (BadStore err))
      | inl s => (w, Some (AlreadyActive (Format (StartTime s) RFC3339)))
      | inr _ =>
          match cwd with
          | inr err => (w, Some (NoWorkDir err))
          | inl cwd =>
              let baselineCount :=
                ShellCollector.SnapshotHistoryBaseline (env r)
                  (ShellHistoryPath (cfg r)) in
              let newSession :=
                mkSession uuid (now r) None cwd [] [] baselineCount in
              match save saveFault newSession w with
              | (w, Some err) => (w, Some err)
              | (w, None) => (say (bs "Session started.") w, None)
              end
          end
      end
  end.

(** [noteCmd.RunE] with the message [message]. *)
Definition noteCmd (r : Run) (message : bytes) (saveFault : option bytes)
    (w : World) : World * option CmdError :=
  match storeFault r with
  | Some err => (w, Some (NoStore err))
  | None =>
      match load w with
      | inr err => (w, Some err)
      | inl s =>
          let s :=
            mkSession (ID s) (StartTime s) (StopTime s) (WorkDir s)
              (Annotations s ++ [mkAnnotation (now r) message false])
              (FileEdits s) (HistoryBaselineCount s) in
          match save saveFault s w with
          | (w, Some err) => (w, Some err)
          | (w, None) => (say (bs "Note added.") w, None)
          end
      end
  end.

(** [statusCmd.RunE]: what it prints; without a session it prints so and
    returns no error. *)
Definition statusCmd `{Library} (r : Run) (w : World) : World * option CmdError :=
  match storeFault r with
  | Some err => (w, Some (NoStore err))
  | None =>
      match load w with
      | inr NoSession => (say (bs "no active session") w, None)
      | inr err => (w, Some err)
      | inl s =>
          (say (bs "Annotations: " ++ FormatInt (len (Annotations s)))
             (say (bs "File edits: " ++ FormatInt (len (FileEdits s)))
                (say (bs "Duration: " ++ durationText r (now r) (StartTime s))
                   (say (bs "Started: " ++ Format (StartTime s) RFC3339) w))),
           None)
      end
  end.

(** A run at another time, with the same machine. *)
Definition at_ (r : Run) (t : Time) : Run :=
  mkRun (env r) (fs r) (git r) (editors r) (durationText r) t (stopMessage r)
    (stopFormat r) (cfg r) (prof r) (storeFault r) (writeFault r) (deleteFault r).

(** Notes added one after the other, each at its time; the first error
    ends the sequence. *)
Fixpoint noteAll (r : Run) (notes : list (Time * bytes)) (w : World)
  : World * option CmdError :=
  match notes with
  | [] => (w, None)
  | (t, message) :: rest =>
      match noteCmd (at_ r t) message None w with
      | (w, Some err) => (w, Some err)
      | (w, None) => noteAll r rest w
      end
  end.

(** The annotation of a note. *)
Definition noteOf (n : Time * bytes) : Annotation := mkAnnotation n.1 n.2 false.

(** *** Vocabulary of the statements about the stop command *)

(** The format of a run: the flag, else the configuration. *)
Definition formatOf (r : Run) : bytes :=
  match stopFormat r with [] => DefaultFormat (cfg r) | f => f end.

(** The renderer of a run: JSON for the format [json], Markdown for every
    other. *)
Definition renderOf `{Library} (r : Run) (b : ContextBundle) : bytes + bytes :=
  if bytes_eqb (formatOf r) (bs "json") then JSONRender b else MarkdownRender b.

(** The path of the output file of a run. *)
Definition outputPathOf `{Library} (r : Run) : bytes :=
  Join (env r)
    [match OutputDir (cfg r) with [] => bs "." | d => d end;
     bs "handoff-" ++ Format (now r) RFC3339
     ++ (if bytes_eqb (formatOf r) (bs "json") then bs ".json" else bs ".md")].

(** The bundle the command assembles from the stopped session and the
    merged results of the collectors. *)
Definition bundleOf (r : Run) (s : Session) (merged : CollectorResult)
  : ContextBundle :=
  mkContextBundle
    (mkSessionMeta (ID s) (StartTime s) (now r) (WorkDir s)
       (durationText r (now r) (StartTime s))
       (match prof r with Some p => Name p | None => [] end))
    (Annotations s) (cr_FileEdits merged) (cr_GitInfo merged)
    (cr_Commands merged) (cr_EditorTabs merged).

End Lifecycle.

(** ** A sample store and a sample working day *)
Module StoreSamples.
Import GoStrings GoTime Session BundleData OS Collector Cmd SessionStore Lifecycle.

(** A stand-in for [encoding/json]: a session is written as its
    identifier, which is all that the sessions of the samples hold. *)
Definition idCodec : Codec :=
  mkCodec (fun s => inl (ID s))
    (fun data => inl (mkSession data zero None [] [] [] 0)).

Definition sessionPath : bytes := bs "/home/dev/.local/share/handoff/session.json".

Definition tmpPath : bytes :=
  bs "/home/dev/.local/share/handoff/session-1234.json.tmp".

(** An operating system whose write stops after three bytes. *)
Definition shortWrite : Sys :=
  mkSys tmpPath None (Some (3%nat, bs "no space left on device")) None None
    false None None.

Definition bare (id : bytes) : Session := mkSession id zero None [] [] [] 0.

(** A machine without a session, and the notes of a working day. *)
Definition idle : World := mkWorld NoRecord Missing [] [] [] [].

Definition notes : list (Time * bytes) :=
  [(Unix 1700000300, bs "reproduced bug"); (Unix 1700000900, bs "fix in retry loop")].

(** The run of the samples, at the start of the session. *)
Definition morning : Run := at_ Samples.gitWorking Samples.t0.

End StoreSamples.

(** ** Package [cmd]: the view command, and the helpers of the viewer *)
Module View.
Import GoStrings GoTime Session BundleData Bundle OS.

(** [filepath.Ext]: the suffix of the path from the last dot of its last
    element on, empty when that element has no dot.  The path is scanned
    from its end; [acc] is the part behind the byte at hand. *)
Fixpoint extFrom (reversed : bytes) (acc : bytes) : bytes :=
  match reversed with
  | [] => []
  | c :: rest =>
      if byte_eqb c "/"%char then []
      else if byte_eqb c "."%char then c :: acc
      else extFrom rest (c :: acc)
  end.

Definition Ext (path : bytes) : bytes := extFrom (rev path) [].

(** The errors of the command. *)
Inductive ViewError :=
| FileNotFound (path : bytes)
| ReadFailed (err : bytes)
| ParseFailed (e : ParseError).

Definition viewErrorText (e : ViewError) : bytes :=
  match e with
  | FileNotFound path => bs "file not found: " ++ path
  | ReadFailed err => err
  | ParseFailed e => errorText e
  end.

(** [viewCmd.RunE] up to the bundle it shows: the file is read and parsed
    by the parser its extension selects.  [toLower] is [strings.ToLower]
    and [f] the state of the file at [path]. *)
Definition viewCmd `{Library} (toLower : bytes -> bytes) (path : bytes)
    (f : FileState) : ContextBundle + ViewError :=
  match f with
  | Missing => inr (FileNotFound path)
  | Unreadable err => inr (ReadFailed err)
  | Content data =>
      let parsed :=
        if bytes_eqb (toLower (Ext path)) (bs ".json") then JSONParse data
        else MarkdownParse data in
      match parsed with
      | inr e => inr (ParseFailed e)
      | inl b => inl b
      end
  end.

(** [stripWorkDir] of the viewer. *)
Definition stripWorkDir (path workDir : bytes) : bytes :=
  match workDir with
  | [] => path
  | _ =>
      let prefix :=
        if HasSuffix workDir (bs "/") then workDir else workDir ++ bs "/" in
      if HasPrefix path prefix then skipn (length prefix) path else path
  end.

(** [strings.ToLower] on the letters of ASCII, for the samples. *)
Definition asciiLower (s : bytes) : bytes :=
  map (fun c =>
         let n := nat_of_ascii c in
         if (65 <=? n)%nat && (n <=? 90)%nat then ascii_of_nat (n + 32) else c)
    s.

End View.

(** ** Vocabulary of the statements about ignore patterns *)
Module IgnoreSpec.
Import GoStrings GoTime Session BundleData Collector OS FileCollector.

(** The path relative to the working directory, as [isIgnored] computes
    it: the path itself when there is no working directory or
    [filepath.Rel] fails. *)
Definition relative (fs : FileSystem) (fc : FileCollector) (path : bytes) : bytes :=
  match fc_WorkDir fc with
  | [] => path
  | w => match Rel fs w path with Some r => r | None => path end
  end.

(** A line of an ignore file that counts as a pattern. *)
Definition isPattern (p : bytes) : bool :=
  negb (bytes_eqb p [] || HasPrefix p (bs "#")).

(** The patterns an ignore file of the working directory contributes. *)
Definition linesOf (env : Env) (fc : FileCollector) (name : bytes) : list bytes :=
  match file env (Join env [fc_WorkDir fc; name]) with
  | Content data => List.filter isPattern (map TrimSpace (ScanLines data).1)
  | _ => []
  end.

End IgnoreSpec.

(** ** The diff of a file *)
Module FileDiff.
Import GoStrings GoTime OS Collector.

(** The closure [run] of [captureFileDiff]: the output of git without
    its trailing line feeds, empty when git fails.  [git] runs git in a
    directory with arguments and gives its standard output, [None] when
    the command fails. *)
Definition run (git : bytes -> list bytes -> option bytes) (workDir : bytes)
    (args : list bytes) : bytes :=
  match git workDir args with
  | None => []
  | Some out => TrimRightByte out "010"%char
  end.

(** [fallbackDiff]: the whole file as added lines. *)
Definition fallbackDiff (env : Env) (path : bytes) : bytes :=
  match file env path with
  | Content data =>
      let lines := Split (TrimRightByte data "010"%char) "010"%char in
      let sb :=
        bs "--- /dev/null" ++ ["010"%char] ++ bs "+++ " ++ path ++ ["010"%char]
        ++ bs "@@ -0,0 +1," ++ FormatInt (len lines) ++ bs " @@" ++ ["010"%char]
        ++ concat (map (fun l => bs "+" ++ l ++ ["010"%char]) lines) in
      TrimRightByte sb "010"%char
  | _ => []
  end.

(** [captureFileDiff]: the diff against [HEAD], else the staged diff,
    else the fallback. *)
Definition captureFileDiff (env : Env) (git : bytes -> list bytes -> option bytes)
    (path workDir : bytes) : bytes :=
  match run git workDir [bs "diff"; bs "HEAD"; bs "--"; path] with
  | [] =>
      match run git workDir [bs "diff"; bs "--cached"; bs "--"; path] with
      | [] => fallbackDiff env path
      | d => d
      end
  | d => d
  end.

(** The pieces of a text with [sep] between them. *)
Fixpoint joinWith (sep : ascii) (pieces : list bytes) : bytes :=
  match pieces with
  | [] => []
  | [p] => p
  | p :: rest => p ++ sep :: joinWith sep rest
  end.

(** The three header lines of the fallback diff for [n] added lines. *)
Definition fallbackHeader (path : bytes) (n : Z) : bytes :=
  bs "--- /dev/null" ++ ["010"%char] ++ bs "+++ " ++ path ++ ["010"%char]
  ++ bs "@@ -0,0 +1," ++ FormatInt n ++ bs " @@" ++ ["010"%char].

End FileDiff.

(** ** The recent projects of a JetBrains IDE *)
Module JetBrains.
Import GoStrings GoTime.

(** [recentProjects.xml] as [xml.Unmarshal] decodes it into
    [jetbrainsXMLProject], with the fields the parser reads. *)
Record MetaOption := mkMetaOption {
  mo_Name : bytes;
  mo_Value : bytes
}.

Record Entry := mkEntry {
  en_Key : bytes;
  en_Options : list MetaOption
}.

Record MapOption := mkMapOption {
  op_Name : bytes;
  op_Entries : list Entry
}.

Record Component := mkComponent {
  co_Name : bytes;
  co_Options : list MapOption
}.

Record projectEntry := mkProjectEntry {
  pe_path : bytes;
  activated : Time
}.

(** [strings.ReplaceAll] for an [old] that is not empty: the occurrences
    are replaced from the left and do not overlap.  [skip] counts the
    bytes of an occurrence still to step over. *)
Fixpoint replaceFrom (s old new : bytes) (skip : nat) : bytes :=
  match s with
  | [] => []
  | c :: s' =>
      match skip with
      | S k => replaceFrom s' old new k
      | O =>
          if HasPrefix s old then new ++ replaceFrom s' old new (length old - 1)
          else c :: replaceFrom s' old new 0
      end
  end.

Definition ReplaceAll (s old new : bytes) : bytes := replaceFrom s old new 0.

(** [time.UnixMilli]. *)
Definition UnixMilli (msec : Z) : Time :=
  (wrap64 (Z.quot msec 1000 + unixToInternal) * 1000000000
   + Z.rem msec 1000 * 1000000)%Z.

(** The loop over the options of an entry.  [scanInt] is what
    [fmt.Sscanf(value, "%d", &ms)] leaves in [ms], which starts at [0]. *)
Definition activation (scanInt : bytes -> Z) (activated : Time)
    (metaOpt : MetaOption) : Time :=
  if bytes_eqb (mo_Name metaOpt) (bs "activationTimestamp") then
    let ms := scanInt (mo_Value metaOpt) in
    if (0 <? ms)%Z then UnixMilli ms else activated
  else activated.

Definition projectOf (scanInt : bytes -> Z) (home : bytes) (entry : Entry)
  : projectEntry :=
  mkProjectEntry (ReplaceAll (en_Key entry) (bs "$USER_HOME$") home)
    (fold_left (activation scanInt) (en_Options entry) zero).

(** The three nested loops that fill [projects]. *)
Definition collectProjects (scanInt : bytes -> Z) (home : bytes)
    (root : list Component) : list projectEntry :=
  flat_map
    (fun comp =>
       if negb (bytes_eqb (co_Name comp) (bs "RecentProjectsManager")) then []
       else
         flat_map
           (fun opt =>
              if negb (bytes_eqb (op_Name opt) (bs "additionalInfo")) then []
              else map (projectOf scanInt home) (op_Entries opt))
           (co_Options comp))
    root.

(** The inner loop of the sort, entered with [j]: the entry at [j] moves
    towards the front while it was activated after the one before it. *)
Fixpoint bubble (projects : list projectEntry) (j : nat) : list projectEntry :=
  match j with
  | O => projects
  | S j' =>
      match projects !! j, projects !! j' with
      | Some a, Some b =>
          if After (activated a) (activated b)
          then bubble (<[j' := a]> (<[j := b]> projects)) j'
          else projects
      | _, _ => projects
      end
  end.

(** The insertion sort: [for i := 1; i < len(projects); i++]. *)
Definition sortProjects (projects : list projectEntry) : list projectEntry :=
  fold_left bubble (seq 1 (length projects - 1)) projects.

(** The last loop: the paths that are not empty. *)
Definition keepPath (paths : list bytes) (p : projectEntry) : list bytes :=
  match pe_path p with
  | [] => paths
  | path => paths ++ [path]
  end.

(** [parseJetBrainsRecentProjects] on the decoded file. *)
Definition recentProjects (scanInt : bytes -> Z) (home : bytes)
    (root : list Component) : list bytes :=
  fold_left keepPath (sortProjects (collectProjects scanInt home root)) [].

(** *** Vocabulary of the statements about the sort *)

(** The entries in the order of the file with the entry [x] put in: on
    the reversed list, behind the entries activated before it. *)
Fixpoint insertRev (x : projectEntry) (r : list projectEntry) : list projectEntry :=
  match r with
  | [] => [x]
  | b :: r' =>
      if After (activated x) (activated b) then b :: insertRev x r' else x :: r
  end.

(** No entry is activated after one in front of it. *)
Definition recentFirst (a b : projectEntry) : Prop :=
  (activated b <= activated a)%Z.

Definition activatedAt (t : Time) (p : projectEntry) : bool :=
  (activated p =? t)%Z.

End JetBrains.

(* ================================================================== *)
(** * Properties *)
(* ================================================================== *)

(** ** Strings, numbers and lines *)
Section GoStringFacts.
Import GoStrings GoTime Session BundleData Collector HistoryFormats.

Lemma byte_eqb_eq (a b : ascii) : byte_eqb a b = true <-> a = b.
Proof. apply Ascii.eqb_eq. Qed.

Lemma byte_eqb_refl (a : ascii) : byte_eqb a a = true.
Proof. by apply byte_eqb_eq. Qed.

Lemma byte_eqb_neq (a b : ascii) : byte_eqb a b = false <-> a <> b.
Proof. apply Ascii.eqb_neq. Qed.

Lemma bytes_eqb_eq (s t : bytes) : bytes_eqb s t = true <-> s = t.
Proof.
  revert t. induction s as [|a s IH]; intros [|b t]; simpl; try done.
  rewrite andb_true_iff, byte_eqb_eq, IH. split.
  - by intros [-> ->].
  - intros [= -> ->]. done.
Qed.

Lemma HasPrefix_app (p s : bytes) : HasPrefix (p ++ s) p = true.
Proof.
  induction p as [|a p IH]; simpl; [by destruct s|].
  by rewrite byte_eqb_refl.
Qed.

Lemma HasPrefix_head_neq (a b : ascii) (s p : bytes) :
  a <> b -> HasPrefix (a :: s) (b :: p) = false.
Proof. intros H. simpl. apply byte_eqb_neq in H. rewrite Ascii.eqb_sym in H. unfold byte_eqb. by rewrite H. Qed.

Lemma Index_byte_first (pre rest : bytes) (c : ascii) :
  ~ In c pre -> Index (pre ++ c :: rest) [c] = Some (length pre).
Proof.
  induction pre as [|a pre IH]; intros Hn.
  - cbn [app Index HasPrefix length]. rewrite byte_eqb_refl.
    by destruct rest.
  - cbn [app Index]. rewrite HasPrefix_head_neq.
    + rewrite IH; [done|]. intros H. apply Hn. by right.
    + intros ->. apply Hn. by left.
Qed.

Lemma scanFrom_app (l s cur : bytes) :
  ~ In newline l -> scanFrom (l ++ s) cur = scanFrom s (cur ++ l).
Proof.
  revert cur. induction l as [|a l IH]; intros cur Hn.
  - by rewrite app_nil_r.
  - cbn [app scanFrom].
    assert (byte_eqb a "010" = false) as ->.
    { apply byte_eqb_neq. intros ->. apply Hn. by left. }
    rewrite IH.
    + by rewrite <- app_assoc.
    + intros H. apply Hn. by right.
Qed.

Lemma wfLine_spec (line : bytes) :
  wfLine line = true ->
  ~ In newline line /\ dropCR line = line /\ lineFits line = true.
Proof.
  unfold wfLine. rewrite !andb_true_iff, negb_true_iff, bytes_eqb_eq.
  intros [[Hnl Hcr] Hfit]. split; [|done].
  intros Hin. assert (existsb (byte_eqb newline) line = true); [|congruence].
  apply existsb_exists. exists newline. split; [done|apply byte_eqb_refl].
Qed.

(** A carriage return before the line feed is dropped, an empty line is
    kept, and a last line needs no line feed. *)
Example ScanLines_sample :
  ScanLines (bs "ls" ++ ["013"; "010"]%char ++ bs "make" ++ ["010"; "010"]%char
             ++ bs "git status")
  = ([bs "ls"; bs "make"; []; bs "git status"], false).
Proof. reflexivity. Qed.

(** Scanning lines that end in a line feed gives the lines back. *)
Lemma ScanLines_lines (lines : list bytes) :
  Forall (fun l => wfLine l = true) lines ->
  ScanLines (concat (map (fun l => l ++ [newline]) lines)) = (lines, false).
Proof.
  unfold ScanLines. induction 1 as [|l lines Hl _ IH]; [done|].
  apply wfLine_spec in Hl. destruct Hl as (Hnl & Hcr & Hfit).
  cbn [map concat]. rewrite <- app_assoc. rewrite scanFrom_app by done.
  cbn [app scanFrom]. change (byte_eqb newline "010") with true. cbn iota.
  rewrite Hfit, IH, Hcr. done.
Qed.

(** *** Decimal numbers *)

Lemma uintChars_digits (d : Decimal.uint) :
  Forall (fun c => isDigit c = true) (uintChars d).
Proof. induction d; simpl; constructor; done. Qed.

Lemma uintChars_length (d : Decimal.uint) :
  length (uintChars d) = Decimal.nb_digits d.
Proof. induction d; simpl; congruence. Qed.

Lemma parseDigits_acc (d : Decimal.uint) (acc : positive) :
  parseDigits (uintChars d) (Z.pos acc) = Some (Z.pos (Pos.of_uint_acc d acc)).
Proof.
  revert acc. induction d; intros acc; cbn [uintChars parseDigits Pos.of_uint_acc];
    [done|..];
    match goal with
    | |- context [isDigit ?c] => change (isDigit c) with true; cbn iota
    end;
    match goal with
    | |- parseDigits _ ?z = Some (Z.pos (Pos.of_uint_acc _ ?p)) =>
        replace z with (Z.pos p);
        [apply IHd|
         match goal with
         | |- context [digitVal ?c] =>
             let v := eval vm_compute in (digitVal c) in
             change (digitVal c) with v
         end; lia]
    end.
Qed.

Lemma parseDigits_uint (d : Decimal.uint) :
  parseDigits (uintChars d) 0 = Some (Z.of_N (Pos.of_uint d)).
Proof.
  induction d; cbn [uintChars parseDigits Pos.of_uint]; [done|..];
    match goal with
    | |- context [isDigit ?c] => change (isDigit c) with true; cbn iota
    end;
    [exact IHd|..];
    match goal with
    | |- parseDigits _ ?z = Some (Z.of_N (N.pos (Pos.of_uint_acc _ ?p))) =>
        change z with (Z.pos p)
    end; apply parseDigits_acc.
Qed.

Lemma parseDigits_N (n : N) :
  parseDigits (uintChars (N.to_uint n)) 0 = Some (Z.of_N n).
Proof.
  rewrite parseDigits_uint. f_equal. f_equal.
  exact (DecimalN.Unsigned.of_to n).
Qed.

Lemma to_uint_nonnil (n : N) : uintChars (N.to_uint n) <> [].
Proof.
  destruct n as [|p]; [done|]. simpl.
  pose proof (DecimalPos.Unsigned.to_uint_nonnil p) as H.
  destruct (Pos.to_uint p); done.
Qed.

Lemma isDigit_not_sign (c : ascii) :
  isDigit c = true -> byte_eqb c "+" = false /\ byte_eqb c "-" = false.
Proof.
  destruct c as [[] [] [] [] [] [] [] []]; try discriminate; done.
Qed.

Lemma isInt64_spec (z : Z) : isInt64 z = true <-> (- 2 ^ 63 <= z < 2 ^ 63)%Z.
Proof. unfold isInt64. rewrite andb_true_iff, Z.leb_le, Z.ltb_lt. done. Qed.

Lemma ParseInt_minus (s : bytes) :
  s <> [] ->
  ParseInt ("-"%char :: s)
  = match parseDigits s 0 with
    | None => None
    | Some un => if (2 ^ 63 <? un)%Z then None else Some (- un)%Z
    end.
Proof.
  intros Hs. unfold ParseInt.
  change (byte_eqb "-" "+") with false. change (byte_eqb "-" "-") with true.
  cbv iota beta. destruct s as [|c s]; [done|].
  destruct (parseDigits (c :: s) 0); done.
Qed.

Lemma ParseInt_digits (s : bytes) :
  s <> [] -> Forall (fun c => isDigit c = true) s ->
  ParseInt s
  = match parseDigits s 0 with
    | None => None
    | Some un => if (2 ^ 63 <=? un)%Z then None else Some un
    end.
Proof.
  intros Hs Hd. unfold ParseInt. destruct s as [|c s]; [done|].
  apply Forall_cons_iff, proj1, isDigit_not_sign in Hd as [-> ->].
  cbv iota beta.
  destruct (parseDigits (c :: s) 0); [|done]. cbn [negb andb].
  by destruct (2 ^ 63 <=? z)%Z.
Qed.

(** Reading back what [%d] printed. *)
Lemma ParseInt_FormatInt (z : Z) :
  isInt64 z = true -> ParseInt (FormatInt z) = Some z.
Proof.
  rewrite isInt64_spec. intros Hr. unfold FormatInt.
  destruct (Z.ltb_spec z 0) as [Hneg|Hpos].
  - rewrite ParseInt_minus by apply to_uint_nonnil.
    rewrite parseDigits_N.
    destruct (Z.ltb_spec (2 ^ 63) (Z.of_N (Z.abs_N z))); [lia|].
    f_equal. lia.
  - rewrite ParseInt_digits by (apply to_uint_nonnil || apply uintChars_digits).
    rewrite parseDigits_N.
    destruct (Z.leb_spec (2 ^ 63) (Z.of_N (Z.to_N z))); [lia|].
    f_equal. lia.
Qed.

Lemma little_double_digits (d : Decimal.uint) :
  (Decimal.nb_digits (Decimal.Little.double d) <= S (Decimal.nb_digits d)
   /\ Decimal.nb_digits (Decimal.Little.succ_double d) <= S (Decimal.nb_digits d))%nat.
Proof. induction d; simpl; lia. Qed.

Lemma to_little_uint_digits (p : positive) :
  (Decimal.nb_digits (Pos.to_little_uint p) <= Pos.size_nat p)%nat.
Proof.
  induction p as [p IH|p IH|]; simpl; [| |lia].
  - pose proof (proj2 (little_double_digits (Pos.to_little_uint p))). lia.
  - pose proof (proj1 (little_double_digits (Pos.to_little_uint p))). lia.
Qed.

Lemma size_nat_bound (p : positive) (n : nat) :
  (Z.pos p < 2 ^ Z.of_nat n)%Z -> (Pos.size_nat p <= n)%nat.
Proof.
  revert n. induction p as [p IH|p IH|]; intros [|n] H; simpl;
    try (simpl in H; lia).
  - rewrite Nat2Z.inj_succ, Z.pow_succ_r in H by lia.
    specialize (IH n). lia.
  - rewrite Nat2Z.inj_succ, Z.pow_succ_r in H by lia.
    specialize (IH n). lia.
Qed.

Lemma uintChars_N_length (n : N) :
  (Z.of_N n < 2 ^ 64)%Z -> (length (uintChars (N.to_uint n)) <= 64)%nat.
Proof.
  intros H. rewrite uintChars_length. destruct n as [|p]; simpl; [lia|].
  unfold Pos.to_uint. rewrite DecimalFacts.nb_digits_rev.
  pose proof (to_little_uint_digits p).
  pose proof (size_nat_bound p 64 H). lia.
Qed.

Lemma FormatInt_length (z : Z) :
  isInt64 z = true -> (length (FormatInt z) <= 65)%nat.
Proof.
  rewrite isInt64_spec. intros H. unfold FormatInt.
  destruct (Z.ltb_spec z 0).
  - simpl. pose proof (uintChars_N_length (Z.abs_N z)). lia.
  - pose proof (uintChars_N_length (Z.to_N z)). lia.
Qed.

Lemma isDigit_digitOrMinus (c : ascii) : isDigit c = true -> digitOrMinus c = true.
Proof. unfold digitOrMinus. by intros ->. Qed.

Lemma FormatInt_chars (z : Z) :
  Forall (fun c => digitOrMinus c = true) (FormatInt z).
Proof.
  unfold FormatInt. destruct (z <? 0)%Z; [constructor; [done|]|];
    eapply Forall_impl; try apply uintChars_digits;
    intros c; apply isDigit_digitOrMinus.
Qed.

Lemma FormatInt_nonnil (z : Z) : FormatInt z <> [].
Proof.
  unfold FormatInt. destruct (z <? 0)%Z; [done|apply to_uint_nonnil].
Qed.

(** The last byte of a printed number is a digit. *)
Lemma FormatInt_last (z : Z) :
  exists c r, rev (FormatInt z) = c :: r /\ isDigit c = true.
Proof.
  assert (Hu : forall n, exists c r,
    rev (uintChars (N.to_uint n)) = c :: r /\ isDigit c = true).
  { intros n. pose proof (to_uint_nonnil n) as Hnn.
    pose proof (uintChars_digits (N.to_uint n)) as Hd.
    apply Forall_rev in Hd.
    destruct (rev (uintChars (N.to_uint n))) as [|c r] eqn:E.
    - apply (f_equal (@rev _)) in E. rewrite rev_involutive in E. done.
    - exists c, r. split; [done|]. by apply Forall_cons_iff in Hd as [? _]. }
  unfold FormatInt. destruct (z <? 0)%Z; [|apply Hu].
  destruct (Hu (Z.abs_N z)) as (c & r & E & Hc).
  exists c, (r ++ ["-"%char]). simpl. rewrite E. done.
Qed.

Lemma digitOrMinus_plain (c : ascii) :
  digitOrMinus c = true ->
  c <> newline /\ c <> ":"%char /\ c <> ";"%char /\ c <> "013"%char
  /\ c <> " "%char /\ c <> "#"%char.
Proof.
  destruct c as [[] [] [] [] [] [] [] []]; try discriminate; done.
Qed.

Lemma not_In_FormatInt (z : Z) (x : ascii) :
  digitOrMinus x = false -> ~ In x (FormatInt z).
Proof.
  intros Hx Hin. pose proof (FormatInt_chars z) as H.
  rewrite Forall_forall in H. apply H in Hin. congruence.
Qed.

Lemma spaceLen_plain (c : ascii) (s : bytes) :
  digitOrMinus c = true -> spaceLen spaceRunes (c :: s) = 0%nat.
Proof.
  destruct c as [[] [] [] [] [] [] [] []]; try discriminate; reflexivity.
Qed.

Lemma spaceLen_rev_plain (c : ascii) (s : bytes) :
  digitOrMinus c = true ->
  spaceLen (map (@rev ascii) spaceRunes) (c :: s) = 0%nat.
Proof.
  destruct c as [[] [] [] [] [] [] [] []]; try discriminate; reflexivity.
Qed.

Lemma TrimSpace_FormatInt (z : Z) : TrimSpace (FormatInt z) = FormatInt z.
Proof.
  unfold TrimSpace.
  pose proof (FormatInt_nonnil z) as Hnn.
  pose proof (FormatInt_chars z) as Hc.
  destruct (FormatInt_last z) as (c & r & Hrev & Hd).
  destruct (FormatInt z) as [|a s] eqn:E; [done|].
  apply Forall_cons_iff, proj1 in Hc.
  cbn [trimLeftFrom]. rewrite (spaceLen_plain a s Hc).
  rewrite Hrev. cbn [trimLeftFrom].
  rewrite (spaceLen_rev_plain c r (isDigit_digitOrMinus c Hd)).
  rewrite <- Hrev. apply rev_involutive.
Qed.

(** *** Lines of the three grammars *)

Lemma dropCR_keep (line r : bytes) (c : ascii) :
  rev line = c :: r -> c <> "013"%char -> dropCR line = line.
Proof.
  intros E Hc. unfold dropCR. rewrite E.
  apply byte_eqb_neq in Hc. by rewrite Hc.
Qed.

Lemma lineFits_short (line : bytes) :
  (length line <= 1000)%nat -> lineFits line = true.
Proof.
  intros H. unfold lineFits, MaxScanTokenSize. apply N.ltb_lt. lia.
Qed.

Lemma wfLine_intro (line : bytes) :
  ~ In newline line -> dropCR line = line -> lineFits line = true ->
  wfLine line = true.
Proof.
  intros Hnl Hcr Hfit. unfold wfLine.
  rewrite Hfit, Hcr, andb_true_r, andb_true_iff, negb_true_iff, bytes_eqb_eq.
  split; [|done].
  destruct (existsb (byte_eqb newline) line) eqn:E; [|done].
  apply existsb_exists in E as (x & Hin & Hx).
  apply byte_eqb_eq in Hx. by subst.
Qed.

(** A line made of a fixed prefix and a printed number is well formed. *)
Lemma wfLine_number (prefix : bytes) (z : Z) :
  isInt64 z = true -> ~ In newline prefix -> (length prefix <= 100)%nat ->
  wfLine (prefix ++ FormatInt z) = true.
Proof.
  intros Hz Hp Hlen. apply wfLine_intro.
  - rewrite in_app_iff. intros [H|H]; [done|].
    by apply (not_In_FormatInt z newline) in H.
  - destruct (FormatInt_last z) as (c & r & E & Hc).
    apply (dropCR_keep _ (r ++ rev prefix) c).
    + by rewrite rev_app_distr, E.
    + intros ->. done.
  - apply lineFits_short. rewrite length_app.
    pose proof (FormatInt_length z Hz). lia.
Qed.

Lemma concat_map_concat {A B} (f : A -> list B) (ls : list (list A)) :
  concat (map f (concat ls)) = concat (map (fun l => concat (map f l)) ls).
Proof.
  induction ls as [|l ls IH]; [done|].
  cbn [concat map]. by rewrite map_app, concat_app, IH.
Qed.

(** **** Bash *)

Lemma bashText_lines (e : bashEntry) :
  bashText e = concat (map (fun l => l ++ [newline]) (bashLines e)).
Proof.
  destruct e as [cmd [epoch|]]; cbn [bashText bashLines map concat];
    by rewrite ?app_nil_r, <- ?app_assoc.
Qed.

Lemma wfBash_spec (cmd : bytes) (epoch : option Z) :
  wfBash (cmd, epoch) = true ->
  cmd <> [] /\ HasPrefix cmd (bs "#") = false /\ wfLine cmd = true
  /\ match epoch with Some z => isInt64 z = true | None => True end.
Proof.
  unfold wfBash. rewrite !andb_true_iff, !negb_true_iff.
  intros [[[Hne Hp] Hl] He]. repeat split; try done.
  - intros ->. done.
  - destruct epoch; done.
Qed.

Lemma bashLines_wf (e : bashEntry) :
  wfBash e = true -> Forall (fun l => wfLine l = true) (bashLines e).
Proof.
  destruct e as [cmd epoch]. intros H.
  apply wfBash_spec in H as (_ & _ & Hl & He).
  destruct epoch as [z|]; cbn [bashLines]; repeat constructor; try done.
  apply wfLine_number; [done| |simpl; lia].
  simpl. intros [H|[]]. discriminate.
Qed.

Lemma bashLine_entry (e : bashEntry) (commands : list Command) :
  wfBash e = true ->
  fold_left bashLine (bashLines e) (commands, zero)
  = (commands ++ [bashCommand e], zero).
Proof.
  destruct e as [cmd epoch]. intros H.
  apply wfBash_spec in H as (Hne & Hp & _ & He).
  assert (Hcmd : forall t, bashLine (commands, t) cmd
                           = (commands ++ [mkCommand cmd t], zero)).
  { intros t. unfold bashLine. rewrite Hp. by destruct cmd. }
  destruct epoch as [z|]; cbn [bashLines fold_left bashCommand].
  - assert (bashLine (commands, zero) (bs "#" ++ FormatInt z)
            = (commands, Unix z)) as ->.
    { unfold bashLine, TrimPrefix. rewrite HasPrefix_app.
      change (length (bs "#")) with 1%nat. cbn [bs list_ascii_of_string app skipn].
      rewrite skipn_O. by rewrite ParseInt_FormatInt. }
    apply Hcmd.
  - apply Hcmd.
Qed.

Lemma bash_fold (entries : list bashEntry) (commands : list Command) :
  Forall (fun e => wfBash e = true) entries ->
  fold_left bashLine (concat (map bashLines entries)) (commands, zero)
  = (commands ++ map bashCommand entries, zero).
Proof.
  intros H. revert commands.
  induction H as [|e entries He _ IH]; intros commands.
  - simpl. by rewrite app_nil_r.
  - cbn [map concat]. rewrite fold_left_app, bashLine_entry by done.
    rewrite IH. by rewrite <- app_assoc.
Qed.

Lemma history_lines {E} (text : E -> bytes) (lines : E -> list bytes)
    (entries : list E) :
  (forall e, text e = concat (map (fun l => l ++ [newline]) (lines e))) ->
  history text entries
  = concat (map (fun l => l ++ [newline]) (concat (map lines entries))).
Proof.
  intros H. unfold history. rewrite concat_map_concat, map_map.
  f_equal. apply map_ext. intros e. apply H.
Qed.

Lemma Forall_concat_map {A B} (P : B -> Prop) (Q : A -> Prop) (f : A -> list B)
    (l : list A) :
  (forall a, Q a -> Forall P (f a)) -> Forall Q l -> Forall P (concat (map f l)).
Proof.
  intros Hf. induction 1; cbn [map concat]; [constructor|].
  apply Forall_app. split; auto.
Qed.

Lemma parseBashHistory_history (entries : list bashEntry) (since : Time) :
  Forall (fun e => wfBash e = true) entries ->
  parseBashHistory (history bashText entries) since
  = (map bashCommand entries, false).
Proof.
  intros H. unfold parseBashHistory.
  rewrite (history_lines bashText bashLines) by apply bashText_lines.
  rewrite ScanLines_lines.
  - by rewrite bash_fold.
  - eapply Forall_concat_map; [|exact H]. apply bashLines_wf.
Qed.

(** **** Zsh *)

Lemma concat_map_singleton {A B} (f : A -> B) (l : list A) :
  concat (map (fun a => [f a]) l) = map f l.
Proof. induction l; simpl; congruence. Qed.

Lemma wfZsh_spec (cmd : bytes) (epoch elapsed : Z) :
  wfZsh (cmd, epoch, elapsed) = true ->
  isInt64 epoch = true /\ wfLine (zshLineText (cmd, epoch, elapsed)) = true.
Proof. unfold wfZsh. by rewrite andb_true_iff. Qed.

Lemma zshExtended_line (cmd : bytes) (epoch elapsed : Z) :
  isInt64 epoch = true ->
  zshExtended (zshLineText (cmd, epoch, elapsed))
  = Some (mkCommand cmd (Unix epoch)).
Proof.
  intros He. unfold zshExtended, zshLineText.
  rewrite HasPrefix_app.
  change (skipn 2 (bs ": " ++ ?x)) with x.
  set (E := FormatInt epoch). set (L := FormatInt elapsed).
  assert (Hsemi : ~ In ";"%char (E ++ bs ":" ++ L)).
  { rewrite !in_app_iff. intros [H|[H|H]].
    - by apply (not_In_FormatInt epoch ";"%char) in H.
    - simpl in H. destruct H as [H|[]]. discriminate.
    - by apply (not_In_FormatInt elapsed ";"%char) in H. }
  replace (E ++ bs ":" ++ L ++ bs ";" ++ cmd)
    with ((E ++ bs ":" ++ L) ++ ";"%char :: cmd)
    by (by rewrite <- !app_assoc).
  change (bs ";") with [";"%char].
  rewrite Index_byte_first by done.
  assert (HE : E <> []) by apply FormatInt_nonnil.
  destruct (length (E ++ bs ":" ++ L)) as [|n] eqn:Hlen.
  { destruct E; [done|]. simpl in Hlen. lia. }
  rewrite <- Hlen. rewrite take_app_length.
  replace (length (E ++ bs ":" ++ L) + 1)%nat
    with (length ((E ++ bs ":" ++ L) ++ [";"%char]))
    by (rewrite (length_app _ [";"%char]); done).
  replace ((E ++ bs ":" ++ L) ++ ";"%char :: cmd)
    with (((E ++ bs ":" ++ L) ++ [";"%char]) ++ cmd)
    by (by rewrite <- !app_assoc).
  rewrite drop_app_length.
  change (bs ":") with [":"%char]. cbn [app].
  rewrite Index_byte_first by (by apply not_In_FormatInt).
  destruct (length E) as [|m] eqn:HlenE.
  { destruct E; [done|]. simpl in HlenE. lia. }
  rewrite <- HlenE, take_app_length.
  unfold E. by rewrite ParseInt_FormatInt.
Qed.

Lemma zshLine_entry (e : zshEntry) (commands : list Command) :
  wfZsh e = true ->
  zshLine commands (zshLineText e) = commands ++ [zshCommand e].
Proof.
  destruct e as [[cmd epoch] elapsed]. intros H.
  apply wfZsh_spec in H as [He _].
  unfold zshLine. rewrite zshExtended_line by done.
  by cbn [zshLineText bs list_ascii_of_string app].
Qed.

Lemma zsh_fold (entries : list zshEntry) (commands : list Command) :
  Forall (fun e => wfZsh e = true) entries ->
  fold_left zshLine (map zshLineText entries) commands
  = commands ++ map zshCommand entries.
Proof.
  intros H. revert commands.
  induction H as [|e entries He _ IH]; intros commands.
  - simpl. by rewrite app_nil_r.
  - cbn [map fold_left]. rewrite zshLine_entry by done.
    rewrite IH. by rewrite <- app_assoc.
Qed.

Lemma parseZshHistory_history (entries : list zshEntry) (since : Time) :
  Forall (fun e => wfZsh e = true) entries ->
  parseZshHistory (history zshText entries) since
  = (map zshCommand entries, false).
Proof.
  intros H. unfold parseZshHistory.
  rewrite (history_lines zshText (fun e => [zshLineText e])).
  2:{ intros e. unfold zshText. simpl. by rewrite app_nil_r. }
  replace (concat (map (fun e => [zshLineText e]) entries))
    with (map zshLineText entries)
    by (symmetry; apply concat_map_singleton).
  rewrite ScanLines_lines.
  - by rewrite zsh_fold.
  - apply List.Forall_forall. intros l Hl.
    apply in_map_iff in Hl as ([[cmd epoch] elapsed] & <- & Hin).
    rewrite List.Forall_forall in H. apply H in Hin.
    by apply wfZsh_spec in Hin as [_ ?].
Qed.

(** **** Fish *)

Lemma fishText_lines (e : fishEntry) :
  fishText e = concat (map (fun l => l ++ [newline]) (fishLines e)).
Proof.
  destruct e as [cmd epoch]. cbn [fishText fishLines map concat].
  by rewrite ?app_nil_r, <- ?app_assoc.
Qed.

Lemma wfFish_spec (cmd : bytes) (epoch : Z) :
  wfFish (cmd, epoch) = true ->
  cmd <> [] /\ wfLine (bs "- cmd: " ++ cmd) = true /\ isInt64 epoch = true.
Proof.
  unfold wfFish. rewrite !andb_true_iff, negb_true_iff.
  intros [[Hne Hl] He]. repeat split; try done. intros ->. done.
Qed.

Lemma fishLines_wf (e : fishEntry) :
  wfFish e = true -> Forall (fun l => wfLine l = true) (fishLines e).
Proof.
  destruct e as [cmd epoch]. intros H.
  apply wfFish_spec in H as (_ & Hl & He).
  cbn [fishLines]. repeat constructor; [done|].
  apply wfLine_number; [done| |simpl; lia].
  simpl. intuition discriminate.
Qed.

Lemma fishLine_entry (e : fishEntry) (st : fishState) :
  wfFish e = true ->
  fishFlush (fold_left fishLine (fishLines e) st)
  = fishFlush st ++ [fishCommand e]
  /\ inEntry (fold_left fishLine (fishLines e) st) = true.
Proof.
  destruct e as [cmd epoch]. intros H.
  apply wfFish_spec in H as (Hne & _ & He).
  cbn [fishLines fold_left fishCommand].
  assert (fishLine st (bs "- cmd: " ++ cmd)
          = mkFishState (fishFlush st) cmd zero true) as ->.
  { unfold fishLine, TrimPrefix. rewrite HasPrefix_app.
    by rewrite drop_app_length. }
  assert (fishLine (mkFishState (fishFlush st) cmd zero true)
            (bs "  when: " ++ FormatInt epoch)
          = mkFishState (fishFlush st) cmd (Unix epoch) true) as ->.
  { unfold fishLine, TrimPrefix.
    change (HasPrefix (bs "  when: " ++ FormatInt epoch) (bs "- cmd: "))
      with false.
    cbn [inEntry andb]. rewrite HasPrefix_app, drop_app_length.
    by rewrite TrimSpace_FormatInt, ParseInt_FormatInt. }
  split; [|done].
  unfold fishFlush at 1. cbn [inEntry currentCmd currentTime fish_commands andb].
  destruct (bytes_eqb cmd []) eqn:E; [|done].
  apply bytes_eqb_eq in E. done.
Qed.

Lemma fish_fold (entries : list fishEntry) (st : fishState) :
  Forall (fun e => wfFish e = true) entries ->
  fishFlush (fold_left fishLine (concat (map fishLines entries)) st)
  = fishFlush st ++ map fishCommand entries.
Proof.
  intros H. revert st.
  induction H as [|e entries He _ IH]; intros st.
  - simpl. by rewrite app_nil_r.
  - cbn [map concat]. rewrite fold_left_app, IH.
    rewrite (proj1 (fishLine_entry e st He)). by rewrite <- app_assoc.
Qed.

Lemma parseFishHistory_history (entries : list fishEntry) (since : Time) :
  Forall (fun e => wfFish e = true) entries ->
  parseFishHistory (history fishText entries) since
  = (map fishCommand entries, false).
Proof.
  intros H. unfold parseFishHistory.
  rewrite (history_lines fishText fishLines) by apply fishText_lines.
  rewrite ScanLines_lines.
  - by rewrite fish_fold.
  - eapply Forall_concat_map; [|exact H]. apply fishLines_wf.
Qed.

End GoStringFacts.

(** ** The window filter of the shell collector *)
Section WindowFilter.
Import GoStrings GoTime Session BundleData Collector FilterSpec.

(** The invocations named in the source, and two commands that are not
    noise. *)
Example noise_invocations :
  map isHandoffNoise
    [bs "handoff start"; bs "./handoff stop"; bs "/usr/local/bin/handoff start";
     bs "  handoff   stop  --format json"; bs "handoff note fixed it";
     bs "echo handoff start"; bs "handoff"]
  = [true; true; true; true; false; false; false].
Proof. reflexivity. Qed.

Lemma classify_fold (cmds ts nts : list Command) :
  fold_left classify cmds (ts, nts)
  = (ts ++ timestampedOf cmds, nts ++ noTimestampOf cmds).
Proof.
  revert ts nts. induction cmds as [|c cmds IH]; intros ts nts;
    cbn [fold_left].
  - by rewrite !app_nil_r.
  - assert (Hstep : classify (ts, nts) c =
      if isNoise c then (ts, nts)
      else if IsZero (Timestamp c) then (ts, nts ++ [c])
      else (ts ++ [c], nts)) by done.
    rewrite Hstep. unfold timestampedOf, noTimestampOf. simpl.
    destruct (isNoise c); simpl; [apply IH|].
    destruct (IsZero (Timestamp c)); simpl; rewrite IH;
      by rewrite <- ?app_assoc.
Qed.

Lemma keepInWindow_fold (start : Time) (stop : option Time)
    (l acc : list Command) :
  fold_left (keepInWindow start stop) l acc
  = acc ++ List.filter (fun c => inWindow start stop (Timestamp c)) l.
Proof.
  revert acc. induction l as [|c l IH]; intros acc; simpl.
  - by rewrite app_nil_r.
  - rewrite IH. unfold keepInWindow, inWindow.
    destruct (Before (Timestamp c) start); simpl; [done|].
    destruct stop as [stop'|]; [destruct (After (Timestamp c) stop')|];
      simpl; by rewrite <- ?app_assoc.
Qed.

Lemma len_pos_iff {A} (l : list A) : (0 <? len l)%Z = true <-> l <> [].
Proof.
  unfold len. destruct l; simpl; split; intros H; done.
Qed.

(** The commands returned: the timestamped ones of the window, in their
    order, then the no-timestamp ones after the baseline, cut to the last
    fifty. *)
Lemma filterCommands_commands (cmds : list Command) (start : Time)
    (stop : option Time) (baseline : Z) (warnings : list bytes) :
  fst (filterCommands cmds start stop baseline warnings)
  = List.filter (fun c => inWindow start stop (Timestamp c)) (timestampedOf cmds)
    ++ lastN 50 (skipn (Z.to_nat baseline) (noTimestampOf cmds)).
Proof.
  unfold filterCommands. rewrite classify_fold, keepInWindow_fold. simpl.
  set (res := List.filter _ (timestampedOf cmds)).
  set (nts := noTimestampOf cmds).
  assert (Hcut : forall fresh : list Command,
    (if (maxNoTimestampCommands <? len fresh)%Z
     then skipn (Z.to_nat (len fresh - maxNoTimestampCommands)) fresh
     else fresh) = lastN 50 fresh).
  { intros fresh. unfold lastN, maxNoTimestampCommands, len.
    destruct (Z.ltb_spec 50 (Z.of_nat (length fresh))).
    - f_equal. lia.
    - replace (length fresh - 50)%nat with 0%nat by lia. done. }
  assert (Hout : forall (fresh : list Command) (w : list bytes),
    fst (if (0 <? len (lastN 50 fresh))%Z
         then (res ++ lastN 50 fresh,
               w ++ [noTimestampsWarning (len (lastN 50 fresh))])
         else (res, w)) = res ++ lastN 50 fresh).
  { intros fresh w. destruct (lastN 50 fresh) eqn:E; simpl.
    - by rewrite app_nil_r.
    - done. }
  destruct (Z.ltb_spec 0 (len nts)) as [Hpos|Hpos].
  - destruct (Z.ltb_spec 0 baseline) as [Hb|Hb]; simpl.
    + destruct (Z.ltb_spec baseline (len nts)) as [Hlt|Hge]; simpl.
      * rewrite Hcut. apply Hout.
      * destruct (Z.leb_spec (len nts) baseline); [|lia].
        rewrite Hcut. rewrite Hout.
        rewrite skipn_all2; [done|]. unfold len in *. lia.
    + destruct (Z.leb_spec (len nts) baseline); [lia|].
      rewrite Hcut. rewrite Hout.
      replace (Z.to_nat baseline) with 0%nat by lia. done.
  - assert (nts = []) as ->.
    { destruct nts; [done|]. unfold len in Hpos. simpl in Hpos. lia. }
    rewrite skipn_nil. simpl. by rewrite app_nil_r.
Qed.

End WindowFilter.

Section WindowFilterResults.
Import GoStrings GoTime Session BundleData Collector FilterSpec.

Lemma In_skipn_in {A} (x : A) (n : nat) (l : list A) :
  In x (skipn n l) -> In x l.
Proof.
  revert l. induction n as [|n IH]; intros [|y l]; simpl; auto.
Qed.

Lemma In_lastN {A} (x : A) (n : nat) (l : list A) : In x (lastN n l) -> In x l.
Proof. apply In_skipn_in. Qed.

Lemma In_timestampedOf (c : Command) (cmds : list Command) :
  In c (timestampedOf cmds)
  <-> In c cmds /\ isNoise c = false /\ IsZero (Timestamp c) = false.
Proof.
  unfold timestampedOf. rewrite filter_In.
  destruct (isNoise c), (IsZero (Timestamp c)); simpl; intuition congruence.
Qed.

Lemma In_noTimestampOf (c : Command) (cmds : list Command) :
  In c (noTimestampOf cmds)
  <-> In c cmds /\ isNoise c = false /\ IsZero (Timestamp c) = true.
Proof.
  unfold noTimestampOf. rewrite filter_In.
  destruct (isNoise c), (IsZero (Timestamp c)); simpl; intuition congruence.
Qed.


(** A timestamped command is returned exactly when it is given, is not
    noise and lies in the window. *)
Lemma filtered_timestamped (cmds : list Command) (start : Time)
    (stop : option Time) (baseline : Z) (c : Command) :
  IsZero (Timestamp c) = false ->
  (In c (filtered cmds start stop baseline)
   <-> In c cmds /\ isNoise c = false /\ inWindow start stop (Timestamp c) = true).
Proof.
  intros Hnz. unfold filtered.
  rewrite filterCommands_commands, in_app_iff, filter_In, In_timestampedOf.
  split.
  - intros [[(Hin & Hn & _) Hw]|H]; [tauto|].
    apply In_lastN, In_skipn_in, In_noTimestampOf in H.
    destruct H as (_ & _ & Hz). congruence.
  - intros (Hin & Hn & Hw). left. tauto.
Qed.


Lemma inWindow_open (start t : Time) :
  inWindow start None t = true <-> (start <= t)%Z.
Proof.
  unfold inWindow, Before.
  destruct (Z.ltb_spec t start); simpl; split; intros; try done; lia.
Qed.



Lemma timestampedOf_plain (cmds : list Command) :
  Forall (fun c => IsZero (Timestamp c) = true /\ isHandoffNoise (Raw c) = false)
    cmds ->
  timestampedOf cmds = [].
Proof.
  unfold timestampedOf. induction 1 as [|c l [Hz Hn] _ IH]; [done|].
  cbn [List.filter]. unfold isNoise at 1. rewrite Hz, Hn. exact IH.
Qed.

Lemma noTimestampOf_plain (cmds : list Command) :
  Forall (fun c => IsZero (Timestamp c) = true /\ isHandoffNoise (Raw c) = false)
    cmds ->
  noTimestampOf cmds = cmds.
Proof.
  unfold noTimestampOf. induction 1 as [|c l [Hz Hn] _ IH]; [done|].
  cbn [List.filter]. unfold isNoise at 1. rewrite Hz, Hn.
  cbn [negb andb]. f_equal. exact IH.
Qed.

Lemma filter_keep_all {A} (f : A -> bool) (l : list A) :
  (forall x, In x l -> f x = true) -> List.filter f l = l.
Proof.
  induction l as [|x l IH]; intros H; [done|].
  cbn [List.filter]. rewrite (H x) by (by left).
  f_equal. apply IH. intros y Hy. apply H. by right.
Qed.

Lemma filter_drop_all {A} (f : A -> bool) (l : list A) :
  (forall x, In x l -> f x = false) -> List.filter f l = [].
Proof.
  induction l as [|x l IH]; intros H; [done|].
  cbn [List.filter]. rewrite (H x) by (by left).
  apply IH. intros y Hy. apply H. by right.
Qed.

(** What the filter returns for the class of the commands without
    timestamp, as it builds the class: after self-noise is dropped. *)
Lemma no_timestamp_class (cmds : list Command) (start : Time)
    (stop : option Time) (baseline : Z) :
  List.filter (fun c => IsZero (Timestamp c)) (filtered cmds start stop baseline)
  = lastN 50 (skipn (Z.to_nat baseline) (noTimestampOf cmds)).
Proof.
  unfold filtered. rewrite filterCommands_commands.
  rewrite List.filter_app, filter_drop_all, filter_keep_all; [done|..].
  - intros c Hc. apply In_lastN, In_skipn_in, In_noTimestampOf in Hc. tauto.
  - intros c Hc. apply filter_In, proj1, In_timestampedOf in Hc. tauto.
Qed.

(** C4, as the code has it: for every list of commands without timestamp
    none of which is self-noise, and every baseline count, the filter
    returns the list with its first [baseline] entries skipped and then
    cut to its last fifty entries by position; the entries keep their
    order. *)
Theorem no_timestamp_skip_then_tail (cmds : list Command) (start : Time)
    (stop : option Time) (baseline : Z) :
  Forall (fun c => IsZero (Timestamp c) = true /\ isHandoffNoise (Raw c) = false)
    cmds ->
  filtered cmds start stop baseline
  = lastN 50 (skipn (Z.to_nat baseline) cmds).
Proof.
  intros Hall. unfold filtered. rewrite filterCommands_commands.
  by rewrite (timestampedOf_plain _ Hall), (noTimestampOf_plain _ Hall).
Qed.

Lemma no_timestamp_skip_then_tail_witness :
  Forall (fun c => IsZero (Timestamp c) = true /\ isHandoffNoise (Raw c) = false)
    [Samples.cmdPlainA; Samples.cmdPlainB]
  /\ filtered [Samples.cmdPlainA; Samples.cmdPlainB] Samples.t0
       (Some Samples.t1) 1
     = [Samples.cmdPlainB].
Proof.
  assert (H : Forall
    (fun c => IsZero (Timestamp c) = true /\ isHandoffNoise (Raw c) = false)
    [Samples.cmdPlainA; Samples.cmdPlainB])
    by (repeat constructor).
  split; [exact H|].
  exact (no_timestamp_skip_then_tail _ Samples.t0 (Some Samples.t1) 1 H).
Defined.

(** C4 does not hold as stated for a list that holds self-noise.  All
    commands of the two lists below are without timestamp.  With a
    baseline of zero nothing is to be skipped, yet [handoff stop] is
    missing from the result; with a baseline of one, skipping the first
    entry leaves [ls], yet the filter returns nothing: it drops
    [handoff stop] first and then skips [ls]. *)
Lemma no_timestamp_skip_counterexample :
  (Forall (fun c => IsZero (Timestamp c) = true)
     [Samples.cmdPlainA; mkCommand (bs "handoff stop") zero; Samples.cmdPlainB]
   /\ lastN 50 (skipn (Z.to_nat 0)
                  [Samples.cmdPlainA; mkCommand (bs "handoff stop") zero;
                   Samples.cmdPlainB])
      = [Samples.cmdPlainA; mkCommand (bs "handoff stop") zero; Samples.cmdPlainB]
   /\ filtered
        [Samples.cmdPlainA; mkCommand (bs "handoff stop") zero; Samples.cmdPlainB]
        Samples.t0 (Some Samples.t1) 0
      = [Samples.cmdPlainA; Samples.cmdPlainB])
  /\ (Forall (fun c => IsZero (Timestamp c) = true)
        [mkCommand (bs "handoff stop") zero; Samples.cmdPlainA]
      /\ lastN 50 (skipn (Z.to_nat 1)
                     [mkCommand (bs "handoff stop") zero; Samples.cmdPlainA])
         = [Samples.cmdPlainA]
      /\ filterCommands [mkCommand (bs "handoff stop") zero; Samples.cmdPlainA]
           Samples.t0 (Some Samples.t1) 1 []
         = ([], [notFlushedWarning])).
Proof.
  split; (split; [repeat constructor|split; reflexivity]).
Qed.

(** C10: when the stop time of the session is unset, the filter has no
    upper bound: every command it is given that is not self-noise, has a
    non-zero timestamp and is not before the start time is returned,
    however late its timestamp. *)
Theorem open_window_keeps_later (cmds : list Command) (start : Time)
    (baseline : Z) (c : Command) :
  In c cmds ->
  isHandoffNoise (Raw c) = false ->
  IsZero (Timestamp c) = false ->
  Before (Timestamp c) start = false ->
  In c (filtered cmds start None baseline).
Proof.
  intros Hin Hn Hnz Hb. apply filtered_timestamped; [done|].
  unfold isNoise, inWindow. rewrite Hb. done.
Qed.

Lemma open_window_keeps_later_witness :
  In Samples.cmdAfter [Samples.cmdBefore; Samples.cmdAfter]
  /\ In Samples.cmdAfter
       (filtered [Samples.cmdBefore; Samples.cmdAfter] Samples.t0 None 7).
Proof.
  assert (Hin : In Samples.cmdAfter [Samples.cmdBefore; Samples.cmdAfter])
    by (simpl; auto).
  split; [exact Hin|].
  apply (open_window_keeps_later _ Samples.t0 7 _ Hin); reflexivity.
Defined.

End WindowFilterResults.

(** ** The warning for a history that was not flushed *)
Section FlushWarning.
Import GoStrings GoTime Session BundleData Collector FilterSpec OS ShellCollector.

Lemma noTimestampsWarning_neq (n : Z) : noTimestampsWarning n <> notFlushedWarning.
Proof.
  intros H. apply (f_equal (firstn 15)) in H. vm_compute in H. discriminate.
Qed.

(** The warnings of the filter: the not-flushed warning when there are
    no-timestamp commands and no more of them than the baseline; else the
    count of the no-timestamp commands shown, when there are any. *)
Lemma filterCommands_warnings (cmds : list Command) (start : Time)
    (stop : option Time) (baseline : Z) (warnings : list bytes) :
  snd (filterCommands cmds start stop baseline warnings)
  = warnings ++
    if (0 <? len (noTimestampOf cmds))%Z then
      if (len (noTimestampOf cmds) <=? baseline)%Z then [notFlushedWarning]
      else [noTimestampsWarning
              (len (lastN 50 (skipn (Z.to_nat baseline) (noTimestampOf cmds))))]
    else [].
Proof.
  unfold filterCommands. rewrite classify_fold, keepInWindow_fold.
  cbn [app].
  set (res := List.filter _ (timestampedOf cmds)).
  generalize (noTimestampOf cmds). intros nts.
  destruct (Z.ltb_spec 0 (len nts)) as [Hpos|Hpos];
    [|simpl; by rewrite app_nil_r].
  assert (Hcut : forall fresh : list Command,
    (if (maxNoTimestampCommands <? len fresh)%Z
     then skipn (Z.to_nat (len fresh - maxNoTimestampCommands)) fresh
     else fresh) = lastN 50 fresh).
  { intros fresh. unfold lastN, maxNoTimestampCommands, len.
    destruct (Z.ltb_spec 50 (Z.of_nat (length fresh))).
    - f_equal. lia.
    - replace (length fresh - 50)%nat with 0%nat by lia. done. }
  assert (Hlast : forall fresh : list Command,
    (0 < len fresh)%Z -> (0 < len (lastN 50 fresh))%Z).
  { intros fresh Hne. unfold lastN, len in *. rewrite length_skipn. lia. }
  destruct (Z.leb_spec (len nts) baseline) as [Hle|Hgt].
  - replace ((0 <? baseline)%Z && (baseline <? len nts)%Z) with false.
    2:{ destruct (Z.ltb_spec baseline (len nts)); [lia|].
        by rewrite andb_false_r. }
    simpl. done.
  - assert (Hfresh : (0 < len (skipn (Z.to_nat baseline) nts))%Z).
    { unfold len in *. rewrite length_skipn. lia. }
    destruct (Z.ltb_spec 0 baseline) as [Hb|Hb]; cbn [andb].
    + destruct (Z.ltb_spec baseline (len nts)); [|lia].
      rewrite Hcut. specialize (Hlast _ Hfresh).
      destruct (Z.ltb_spec 0 (len (lastN 50 (skipn (Z.to_nat baseline) nts))));
        [done|lia].
    + rewrite Hcut.
      replace (Z.to_nat baseline) with 0%nat in * by lia.
      rewrite skipn_O in *.
      specialize (Hlast _ Hfresh).
      destruct (Z.ltb_spec 0 (len (lastN 50 nts))); [done|lia].
Qed.

(** What [collectFromHistory] returns for a history that opens and parses. *)
Lemma collectFromHistory_parsed (env : Env) (sc : ShellCollector)
    (sess : Session) (f : bytes) (cmds : list Command) :
  Open env (historyPath env sc) = inl f ->
  fst (selectParser env) f (StartTime sess) = (cmds, false) ->
  collectFromHistory env sc sess
  = mkCollectorResult []
      (filtered cmds (StartTime sess) (StopTime sess) (HistoryBaselineCount sess))
      None []
      (filterWarnings cmds (StartTime sess) (StopTime sess)
         (HistoryBaselineCount sess)).
Proof.
  intros Hopen Hparse. unfold collectFromHistory, filtered, filterWarnings.
  rewrite Hopen, Hparse.
  by destruct (filterCommands cmds _ _ _ []).
Qed.

(** When the collector gives the warning: exactly when the history holds a
    command without timestamp that is not self-noise, and no more of them
    than the baseline. *)
Lemma not_flushed_warning_iff (env : Env) (sc : ShellCollector)
    (sess : Session) (f : bytes) (cmds : list Command) :
  Open env (historyPath env sc) = inl f ->
  fst (selectParser env) f (StartTime sess) = (cmds, false) ->
  In notFlushedWarning (cr_Warnings (collectFromHistory env sc sess))
  <-> noTimestampOf cmds <> []
      /\ (len (noTimestampOf cmds) <= HistoryBaselineCount sess)%Z.
Proof.
  intros Hopen Hparse.
  rewrite (collectFromHistory_parsed _ _ _ _ _ Hopen Hparse). simpl.
  unfold filterWarnings. rewrite filterCommands_warnings. cbn [app].
  assert (Hne : noTimestampOf cmds <> [] <-> (0 < len (noTimestampOf cmds))%Z).
  { unfold len. destruct (noTimestampOf cmds); simpl; split; intros; done. }
  rewrite Hne.
  generalize (noTimestampOf cmds). intros nts.
  destruct (Z.ltb_spec 0 (len nts)) as [Hpos|Hpos].
  2:{ split; [done|]. lia. }
  destruct (Z.leb_spec (len nts) (HistoryBaselineCount sess)) as [Hle|Hgt].
  - split; [done|]. intros _. simpl. auto.
  - split.
    + simpl. intros [H|[]]. by apply noTimestampsWarning_neq in H.
    + intros [_ H]. lia.
Qed.



(** When [Collect] reads the plugin's log: the commands of the log are
    filtered with a baseline of zero, and the log is emptied. *)
Lemma Collect_via_log (env : Env) (sc : ShellCollector) (log : FileState)
    (sess : Session) (cmds : list Command) :
  UsePluginLog sc = true ->
  ShellLog.ReadCommandLog log = (cmds, false) ->
  cmds <> [] ->
  Collect env sc log sess
  = (mkCollectorResult []
       (filtered cmds (StartTime sess) (StopTime sess) 0) None []
       (filterWarnings cmds (StartTime sess) (StopTime sess) 0),
     ShellLog.TruncateCommandLog log).
Proof.
  intros Hp Hlog Hne. unfold Collect, filtered, filterWarnings.
  rewrite Hp, Hlog. cbn [negb andb].
  apply len_pos_iff in Hne. rewrite Hne.
  by destruct (filterCommands cmds _ _ 0 []).
Qed.




End FlushWarning.

(** ** History parsing and the order of the collected commands *)
Section HistoryOrder.
Import GoStrings GoTime Session BundleData Collector FilterSpec OS
  ShellCollector HistoryFormats.

Lemma sublist_filter_bool {A} (f : A -> bool) (l : list A) :
  sublist (List.filter f l) l.
Proof.
  induction l as [|x l IH]; simpl; [constructor|].
  destruct (f x); by constructor.
Qed.

Lemma sublist_lastN {A} (n : nat) (l : list A) : sublist (lastN n l) l.
Proof. apply sublist_drop. Qed.

Lemma timestampedOf_sublist (cmds : list Command) :
  sublist (timestampedOf cmds) cmds.
Proof. apply sublist_filter_bool. Qed.

Lemma noTimestampOf_sublist (cmds : list Command) :
  sublist (noTimestampOf cmds) cmds.
Proof. apply sublist_filter_bool. Qed.

(** The result of the filter is made of two runs, each in the order of
    the input: the timestamped commands kept, then the no-timestamp
    commands kept. *)
Lemma filtered_two_runs (cmds : list Command) (start : Time)
    (stop : option Time) (baseline : Z) :
  exists ts nts : list Command,
    filtered cmds start stop baseline = ts ++ nts
    /\ sublist ts cmds /\ sublist nts cmds
    /\ Forall (fun c => IsZero (Timestamp c) = false) ts
    /\ Forall (fun c => IsZero (Timestamp c) = true) nts.
Proof.
  eexists _, _. split; [apply filterCommands_commands|].
  split; [|split; [|split]].
  - etransitivity; [apply sublist_filter_bool|apply timestampedOf_sublist].
  - etransitivity; [apply sublist_lastN|].
    etransitivity; [apply sublist_drop|apply noTimestampOf_sublist].
  - apply List.Forall_forall. intros c Hc.
    apply filter_In, proj1, In_timestampedOf in Hc. tauto.
  - apply List.Forall_forall. intros c Hc.
    apply In_lastN, In_skipn_in, In_noTimestampOf in Hc. tauto.
Qed.

(** C8, as the code has it: for each of the three grammars, parsing a
    well-formed history gives exactly the encoded commands with their
    timestamps, in the order of the file and without error; the collected
    list keeps the order of encounter among the timestamped commands and
    among the commands without timestamp, all kept timestamped commands
    standing before the kept commands without timestamp. *)
Theorem history_parsing_and_order
    (bashEntries : list bashEntry) (zshEntries : list zshEntry)
    (fishEntries : list fishEntry) (since : Time)
    (cmds : list Command) (start : Time) (stop : option Time) (baseline : Z) :
  Forall (fun e => wfBash e = true) bashEntries ->
  Forall (fun e => wfZsh e = true) zshEntries ->
  Forall (fun e => wfFish e = true) fishEntries ->
  parseBashHistory (history bashText bashEntries) since
  = (map bashCommand bashEntries, false)
  /\ parseZshHistory (history zshText zshEntries) since
     = (map zshCommand zshEntries, false)
  /\ parseFishHistory (history fishText fishEntries) since
     = (map fishCommand fishEntries, false)
  /\ exists ts nts : list Command,
       filtered cmds start stop baseline = ts ++ nts
       /\ sublist ts cmds /\ sublist nts cmds
       /\ Forall (fun c => IsZero (Timestamp c) = false) ts
       /\ Forall (fun c => IsZero (Timestamp c) = true) nts.
Proof.
  intros Hb Hz Hf. repeat split.
  - by apply parseBashHistory_history.
  - by apply parseZshHistory_history.
  - by apply parseFishHistory_history.
  - apply filtered_two_runs.
Qed.

Lemma history_parsing_and_order_witness :
  parseBashHistory
    (history bashText [(bs "ls -la", Some 1700000100%Z); (bs "make", None)])
    Samples.t0
  = ([mkCommand (bs "ls -la") (Unix 1700000100); mkCommand (bs "make") zero],
     false)
  /\ parseZshHistory
       (history zshText [(bs "go test ./...", 1700000300%Z, 12%Z)]) Samples.t0
     = ([Samples.cmdInside], false)
  /\ parseFishHistory
       (history fishText [(bs "git status", 1700000200%Z)]) Samples.t0
     = ([mkCommand (bs "git status") (Unix 1700000200)], false)
  /\ exists ts nts : list Command,
       filtered [Samples.cmdPlainA; Samples.cmdInside] Samples.t0
         (Some Samples.t1) 0 = ts ++ nts
       /\ sublist ts [Samples.cmdPlainA; Samples.cmdInside]
       /\ sublist nts [Samples.cmdPlainA; Samples.cmdInside]
       /\ Forall (fun c => IsZero (Timestamp c) = false) ts
       /\ Forall (fun c => IsZero (Timestamp c) = true) nts.
Proof.
  apply (history_parsing_and_order
           [(bs "ls -la", Some 1700000100%Z); (bs "make", None)]
           [(bs "go test ./...", 1700000300%Z, 12%Z)]
           [(bs "git status", 1700000200%Z)]
           Samples.t0 [Samples.cmdPlainA; Samples.cmdInside]
           Samples.t0 (Some Samples.t1) 0);
    repeat constructor.
Defined.

(** C8 does not hold as stated: in a zsh history with a plain line before
    an extended one, [ls] is met before [go test ./...], yet the collector
    returns [go test ./...] first. *)
Lemma encounter_order_counterexample :
  parseZshHistory
    (bs "ls" ++ [Samples.nl] ++ bs ": 1700000300:0;go test ./..." ++ [Samples.nl])
    Samples.t0
  = ([Samples.cmdPlainA; Samples.cmdInside], false)
  /\ cr_Commands
       (collectFromHistory Samples.zshMixed Samples.autoShell
          (Samples.sessionWith 0))
     = [Samples.cmdInside; Samples.cmdPlainA]
  /\ ~ sublist [Samples.cmdInside; Samples.cmdPlainA]
         [Samples.cmdPlainA; Samples.cmdInside].
Proof.
  split; [reflexivity|]. split; [reflexivity|].
  intros H. apply sublist_cons_r in H as [H|(l & [=] & _)].
  apply sublist_cons_l in H as (k1 & k2 & E & H).
  destruct k1 as [|x [|y k1]]; simplify_eq/=.
  by apply sublist_nil_r in H.
Qed.

End HistoryOrder.

(** ** The Git collector *)
Section GitOutcomes.
Import GoStrings GoTime Session BundleData Collector GitCollector.

Variable defaultRunner : GitRunner.
Variable formatRFC3339 : Time -> bytes.
Variable g : GitCollector.
Variable sess : Session.

Let runnerOf : GitRunner := runnerOf defaultRunner g.
Let workDirOf : bytes := workDirOf g sess.
Let queries : list (list bytes) := queries formatRFC3339 sess.

Lemma Collect_unfold :
  Collect defaultRunner formatRFC3339 g sess
  = match runnerOf workDirOf branchQuery with
    | inr err =>
        if isExitCode128 err then
          inl (mkCollectorResult [] [] None [] [notARepository])
        else inr err
    | inl branch =>
        match runnerOf workDirOf headQuery with
        | inr err => inr err
        | inl headCommit =>
            match runnerOf workDirOf diffQuery with
            | inr err => inr err
            | inl diff =>
                match runnerOf workDirOf stagedQuery with
                | inr err => inr err
                | inl stagedDiff =>
                    match runnerOf workDirOf
                            (logQuery (formatRFC3339 (StartTime sess))) with
                    | inr err => inr err
                    | inl logOut =>
                        inl (mkCollectorResult [] []
                               (Some (mkGitInfo (TrimSpace branch)
                                        (TrimSpace headCommit) diff stagedDiff
                                        (parseLogLines logOut)))
                               [] [])
                    end
                end
            end
        end
    end.
Proof. reflexivity. Qed.

End GitOutcomes.

Section GitExamples.
Import GoStrings GoTime Session BundleData Collector GitCollector.

(** The runner of [TestGitCollectorNonGitRepo]: every call exits with 128. *)
Example git_not_a_repository :
  Collect (fun _ _ => inr (ExitError 128)) (fun _ => bs "2023-11-14T22:13:20Z")
    (mkGitCollector (bs "/some/dir") None) (Samples.sessionWith 0)
  = inl (mkCollectorResult [] [] None [] [notARepository]).
Proof. reflexivity. Qed.

(** A repository where [git diff] exits with status 1. *)
Example git_diff_fails :
  Collect
    (fun _ args =>
       if bytes_eqb (hd [] args) (bs "diff") then inr (ExitError 1)
       else inl (bs "main" ++ [Samples.nl]))
    (fun _ => bs "2023-11-14T22:13:20Z")
    (mkGitCollector [] None) (Samples.sessionWith 0)
  = inr (ExitError 1).
Proof. reflexivity. Qed.

(** All queries succeed, as in [TestGitCollectorSuccess]. *)
Example git_success :
  Collect
    (fun _ args =>
       if bytes_eqb (hd [] args) (bs "log") then
         inl (bs "abc123 first" ++ [Samples.nl] ++ bs "def456 second" ++ [Samples.nl])
       else if bytes_eqb (hd [] args) (bs "diff") then inl (bs "diff --git a b")
       else inl (bs "main" ++ [Samples.nl]))
    (fun _ => bs "2023-11-14T22:13:20Z")
    (mkGitCollector [] None) (Samples.sessionWith 0)
  = inl (mkCollectorResult [] []
           (Some (mkGitInfo (bs "main") (bs "main") (bs "diff --git a b")
                    (bs "diff --git a b")
                    [bs "abc123 first"; bs "def456 second"]))
           [] []).
Proof. reflexivity. Qed.

End GitExamples.

(** ** The file-activity collector *)
Section FileEdits.
Import GoStrings GoTime Session BundleData Collector OS FileCollector.

Lemma seed_fold (edits : list FileEdit) (latest : gmap bytes Time) :
  fold_left seedEdit edits latest
  = fold_left recordPair (map (fun fe => (fe_Path fe, fe_Timestamp fe)) edits) latest.
Proof.
  revert latest. induction edits as [|fe edits IH]; intros latest; [done|].
  simpl. apply IH.
Qed.

Lemma visit_accepted (fs : FileSystem) (fc : FileCollector) (patterns : list bytes)
    (start stopTime : Time) (latest : gmap bytes Time) (d : DirEntry) :
  visit fs fc patterns start stopTime latest d
  = fold_left recordPair (accepted fs fc patterns start stopTime d) latest.
Proof.
  unfold visit, accepted.
  destruct (de_err d); [done|]. destruct (de_IsDir d); [done|].
  cbn [orb]. destruct (isIgnored fs fc (de_path d) patterns); [done|].
  destruct (de_ModTime d) as [mtime|]; [|done].
  destruct (Before mtime start || After mtime stopTime); done.
Qed.

Lemma visit_fold (fs : FileSystem) (fc : FileCollector) (patterns : list bytes)
    (start stopTime : Time) (walk : list DirEntry) (latest : gmap bytes Time) :
  fold_left (visit fs fc patterns start stopTime) walk latest
  = fold_left recordPair
      (flat_map (accepted fs fc patterns start stopTime) walk) latest.
Proof.
  revert latest. induction walk as [|d walk IH]; intros latest; [done|].
  cbn [fold_left flat_map]. rewrite fold_left_app, <- visit_accepted. apply IH.
Qed.

(** After one step the map holds, for the path entered, the later of its
    former time and the new one; other paths are untouched. *)
Lemma record_lookup (latest : gmap bytes Time) (p q : bytes) (t : Time) :
  record latest p t !! q
  = if decide (p = q) then
      match latest !! p with
      | Some t0 => Some (Z.max t0 t)
      | None => Some t
      end
    else latest !! q.
Proof.
  unfold record, After.
  destruct (decide (p = q)) as [->|Hne].
  - destruct (latest !! q) as [t0|] eqn:E.
    + destruct (Z.ltb_spec t0 t).
      * rewrite lookup_insert_eq. f_equal. lia.
      * rewrite E. f_equal. lia.
    + by rewrite lookup_insert_eq.
  - destruct (latest !! p) as [t0|]; [destruct (t0 <? t)%Z|];
      by rewrite ?lookup_insert_ne.
Qed.

(** Every entry of the merged map is an occurrence, or was in the map. *)
Lemma merged_sound (pairs : list (bytes * Time)) (latest : gmap bytes Time)
    (p : bytes) (t : Time) :
  fold_left recordPair pairs latest !! p = Some t ->
  latest !! p = Some t \/ In (p, t) pairs.
Proof.
  revert latest. induction pairs as [|[q u] pairs IH]; intros latest H.
  - by left.
  - cbn [fold_left] in H. apply IH in H as [H|H]; [|right; by right].
    unfold recordPair in H. cbn [fst snd] in H. rewrite record_lookup in H.
    destruct (decide (q = p)) as [->|Hne]; [|by left].
    destruct (latest !! p) as [t0|] eqn:E.
    + injection H as <-. destruct (Z.max_spec t0 u) as [[_ ->]|[_ ->]].
      * right. by left.
      * by left.
    + injection H as <-. right. by left.
Qed.

(** The merged map has an entry for every occurrence, at least as late. *)
Lemma merged_latest (pairs : list (bytes * Time)) (latest : gmap bytes Time)
    (p : bytes) (t' : Time) :
  latest !! p = Some t' \/ In (p, t') pairs ->
  exists t, fold_left recordPair pairs latest !! p = Some t /\ (t' <= t)%Z.
Proof.
  revert latest t'. induction pairs as [|[q u] pairs IH]; intros latest t' H.
  - destruct H as [H|[]]. exists t'. split; [done|lia].
  - cbn [fold_left]. unfold recordPair at 2. cbn [fst snd].
    destruct H as [H|[[= -> ->]|H]].
    + destruct (decide (q = p)) as [->|Hne].
      * destruct (IH (record latest p u) (Z.max t' u)) as (t & Ht & Hle).
        { left. rewrite record_lookup, decide_True, H by done. done. }
        exists t. split; [done|lia].
      * apply IH. left. by rewrite record_lookup, decide_False.
    + destruct (latest !! p) as [t0|] eqn:E.
      * destruct (IH (record latest p t') (Z.max t0 t')) as (t & Ht & Hle).
        { left. rewrite record_lookup, decide_True, E by done. done. }
        exists t. split; [done|lia].
      * apply IH. left. by rewrite record_lookup, decide_True, E.
    + apply IH. by right.
Qed.

Lemma emit_fold (fs : FileSystem) (fc : FileCollector) (patterns : list bytes)
    (entries : list (bytes * Time)) (edits : list FileEdit) :
  fold_left (emit fs fc patterns) entries edits
  = edits ++
    map (fun e => mkFileEdit e.1 e.2 (captureFileDiff fs e.1 (fc_WorkDir fc)))
      (List.filter (fun e => negb (isIgnored fs fc e.1 patterns)) entries).
Proof.
  revert edits. induction entries as [|[p t] entries IH]; intros edits.
  - simpl. by rewrite app_nil_r.
  - cbn [fold_left List.filter fst]. rewrite IH. unfold emit at 1.
    destruct (isIgnored fs fc p patterns); cbn [negb]; [done|].
    cbn [map fst snd]. by rewrite <- app_assoc.
Qed.

Lemma NoDup_map_filter {A B} (f : A -> B) (g : A -> bool) (l : list A) :
  List.NoDup (map f l) -> List.NoDup (map f (List.filter g l)).
Proof.
  induction l as [|x l IH]; simpl; [done|].
  intros H. apply NoDup_cons_iff in H as [Hx Hl].
  destruct (g x); [|by apply IH].
  simpl. apply NoDup_cons_iff. split; [|by apply IH].
  intros Hin. apply Hx. apply in_map_iff in Hin as (y & <- & Hy).
  apply filter_In in Hy as [Hy _]. by apply in_map.
Qed.

Lemma Collect_loaded (env : Env) (fs : FileSystem) (now : Time)
    (fc : FileCollector) (sess : Session) (patterns : list bytes) :
  loadIgnorePatterns env fc = inl patterns ->
  cr_FileEdits (Collect env fs now fc sess)
  = map (fun e => mkFileEdit e.1 e.2 (captureFileDiff fs e.1 (fc_WorkDir fc)))
      (List.filter (fun e => negb (isIgnored fs fc e.1 patterns))
         (map_to_list
            (fold_left recordPair (occurrences fs now fc patterns sess) ∅))).
Proof.
  intros Hload. unfold Collect. rewrite Hload. cbn [cr_FileEdits].
  rewrite emit_fold, visit_fold, seed_fold. cbn [app].
  unfold occurrences, recorded. by rewrite fold_left_app.
Qed.

(** C7: the file-activity collector returns at most one record per path;
    the time of a record is one of the occurrences of its path, among the
    edits recorded on the session and the files the walk accepts, and no
    occurrence of that path is later; every path with an occurrence that
    is not ignored has a record. *)
Theorem latest_edit_per_path (env : Env) (fs : FileSystem) (now : Time)
    (fc : FileCollector) (sess : Session) (patterns : list bytes) :
  loadIgnorePatterns env fc = inl patterns ->
  List.NoDup (map fe_Path (cr_FileEdits (Collect env fs now fc sess)))
  /\ (forall fe,
        In fe (cr_FileEdits (Collect env fs now fc sess)) ->
        In (fe_Path fe, fe_Timestamp fe) (occurrences fs now fc patterns sess)
        /\ forall t',
             In (fe_Path fe, t') (occurrences fs now fc patterns sess) ->
             (t' <= fe_Timestamp fe)%Z)
  /\ (forall p t,
        In (p, t) (occurrences fs now fc patterns sess) ->
        isIgnored fs fc p patterns = false ->
        exists fe,
          In fe (cr_FileEdits (Collect env fs now fc sess)) /\ fe_Path fe = p).
Proof.
  intros Hload. rewrite (Collect_loaded _ _ _ _ _ _ Hload).
  set (occ := occurrences fs now fc patterns sess).
  set (latest := fold_left recordPair occ ∅).
  split; [|split].
  - rewrite map_map. cbn [fe_Path]. apply NoDup_map_filter.
    apply NoDup_ListNoDup, (NoDup_fst_map_to_list latest).
  - intros fe Hfe. apply in_map_iff in Hfe as ([p t] & <- & Hin).
    apply filter_In in Hin as [Hin _]. cbn [fe_Path fe_Timestamp fst snd].
    apply list_elem_of_In, elem_of_map_to_list in Hin.
    split.
    + apply merged_sound in Hin as [Hin|Hin]; [|done].
      by rewrite lookup_empty in Hin.
    + intros t' Ht'.
      destruct (merged_latest occ ∅ p t') as (t1 & Ht1 & Hle); [by right|].
      fold latest in Ht1. rewrite Hin in Ht1. injection Ht1 as <-. done.
  - intros p t Hin Hign.
    destruct (merged_latest occ ∅ p t) as (t1 & Ht1 & _); [by right|].
    fold latest in Ht1.
    exists (mkFileEdit p t1 (captureFileDiff fs p (fc_WorkDir fc))).
    split; [|done].
    apply in_map_iff. exists (p, t1). split; [done|].
    apply filter_In. split.
    + by apply list_elem_of_In, elem_of_map_to_list.
    + cbn [fst]. by rewrite Hign.
Qed.

Lemma latest_edit_per_path_witness :
  loadIgnorePatterns Samples.bashPlain Samples.projCollector = inl [bs "*.log"]
  /\ List.NoDup
       (map fe_Path
          (cr_FileEdits
             (Collect Samples.bashPlain Samples.projFiles Samples.t1
                Samples.projCollector Samples.watchedSession))).
Proof.
  assert (Hload : loadIgnorePatterns Samples.bashPlain Samples.projCollector
                  = inl [bs "*.log"]) by reflexivity.
  split; [exact Hload|].
  exact (proj1 (latest_edit_per_path Samples.bashPlain Samples.projFiles
                  Samples.t1 Samples.projCollector Samples.watchedSession
                  [bs "*.log"] Hload)).
Defined.

(** The sample session: [main.go] is met three times, once in the walk and
    twice on the session; one record remains, with the latest time. *)
Example file_edits_sample :
  cr_FileEdits
    (Collect Samples.bashPlain Samples.projFiles Samples.t1
       Samples.projCollector Samples.watchedSession)
  = [mkFileEdit Samples.mainGo (Unix 1700001500) []].
Proof. vm_compute. reflexivity. Qed.

End FileEdits.

(** ** Base64 *)
Section Base64Facts.
Import GoStrings Base64.

Lemma encode_decode_char (v : N) : (v < 64)%N -> decodeStd (encodeStd v) = Some v.
Proof.
  intros H.
  assert (Hall : forallb (fun i => match decodeStd (encodeStd i) with
                                   | Some j => (j =? i)%N | None => false end)
                   (map N.of_nat (seq 0 64)) = true) by (vm_compute; reflexivity).
  rewrite forallb_forall in Hall.
  specialize (Hall v).
  destruct (decodeStd (encodeStd v)) as [j|].
  - f_equal. apply N.eqb_eq, Hall. apply in_map_iff. exists (N.to_nat v).
    split; [lia|]. apply in_seq. lia.
  - discriminate Hall. apply in_map_iff. exists (N.to_nat v).
    split; [lia|]. apply in_seq. lia.
Qed.

Lemma encodeStd_pad (v : N) : decodeStd padChar = None /\ encodeStd v <> padChar.
Proof.
  split; [reflexivity|].
  unfold encodeStd.
  assert (forall n, (n < 256)%N -> N_of_ascii padChar <> n -> ascii_of_N n <> padChar).
  { intros n Hn Hne E. apply Hne. rewrite <- E. by rewrite N_ascii_embedding. }
  destruct (N.ltb_spec v 26); [apply H; [lia|simpl; lia]|].
  destruct (N.ltb_spec v 52); [apply H; [lia|simpl; lia]|].
  destruct (N.ltb_spec v 62); [apply H; [lia|simpl; lia]|].
  destruct (v =? 62)%N; discriminate.
Qed.

Ltac divmod := zify; Z.to_euclidean_division_equations; lia.

Lemma sextets_3 (x y z : N) :
  (x < 256)%N -> (y < 256)%N -> (z < 256)%N ->
  (x / 4 < 64 /\ x mod 4 * 16 + y / 16 < 64 /\ y mod 16 * 4 + z / 64 < 64
   /\ z mod 64 < 64
   /\ x / 4 * 4 + (x mod 4 * 16 + y / 16) / 16 = x
   /\ (x mod 4 * 16 + y / 16) mod 16 * 16 + (y mod 16 * 4 + z / 64) / 4 = y
   /\ (y mod 16 * 4 + z / 64) mod 4 * 64 + z mod 64 = z)%N.
Proof. intros. repeat split; divmod. Qed.

Lemma sextets_2 (x y : N) :
  (x < 256)%N -> (y < 256)%N ->
  (x / 4 < 64 /\ x mod 4 * 16 + y / 16 < 64 /\ y mod 16 * 4 < 64
   /\ x / 4 * 4 + (x mod 4 * 16 + y / 16) / 16 = x
   /\ (x mod 4 * 16 + y / 16) mod 16 * 16 + (y mod 16 * 4) / 4 = y)%N.
Proof. intros. repeat split; divmod. Qed.

Lemma sextets_1 (x : N) :
  (x < 256)%N ->
  (x / 4 < 64 /\ x mod 4 * 16 < 64
   /\ x / 4 * 4 + (x mod 4 * 16) / 16 = x)%N.
Proof. intros. repeat split; divmod. Qed.

Lemma encodeStd_byte (v : N) : (v < 64)%N -> isBase64Byte (encodeStd v) = true.
Proof. intros H. unfold isBase64Byte. by rewrite encode_decode_char. Qed.

Lemma N_of_ascii_lt (a : ascii) : (N_of_ascii a < 256)%N.
Proof. apply N_ascii_bounded. Qed.

Lemma EncodeToString_bytes (src : bytes) :
  Forall (fun c => isBase64Byte c = true) (EncodeToString src).
Proof.
  induction src as [src IH] using (induction_ltof1 _ (@length ascii)).
  unfold ltof in IH.
  destruct src as [|a [|b [|c rest]]]; cbn [EncodeToString].
  - constructor.
  - pose proof (sextets_1 _ (N_of_ascii_lt a)) as (? & ? & _).
    repeat constructor; by apply encodeStd_byte.
  - pose proof (sextets_2 _ _ (N_of_ascii_lt a) (N_of_ascii_lt b))
      as (? & ? & ? & _).
    repeat constructor; by apply encodeStd_byte.
  - pose proof (sextets_3 _ _ _ (N_of_ascii_lt a) (N_of_ascii_lt b)
                  (N_of_ascii_lt c)) as (? & ? & ? & ? & _).
    repeat (constructor; [by apply encodeStd_byte|]).
    apply IH. simpl. lia.
Qed.

Lemma isBase64Byte_plain (c : ascii) :
  isBase64Byte c = true -> c <> " "%char /\ isLineBreak c = false.
Proof.
  destruct c as [[] [] [] [] [] [] [] []]; vm_compute; intros H;
    try discriminate H; split; (discriminate || reflexivity).
Qed.

Lemma decodeQuanta_quantum (a b c d : ascii) (s0 s1 s2 s3 : N) (tail : bytes) :
  decodeStd a = Some s0 -> decodeStd b = Some s1 ->
  decodeStd c = Some s2 -> decodeStd d = Some s3 ->
  decodeQuanta (a :: b :: c :: d :: tail)
  = option_map
      (fun out => ascii_of_N (s0 * 4 + s1 / 16)
                  :: ascii_of_N (s1 mod 16 * 16 + s2 / 4)
                  :: ascii_of_N (s2 mod 4 * 64 + s3) :: out)
      (decodeQuanta tail).
Proof.
  intros Ha Hb Hc Hd. destruct tail as [|e tail].
  - cbn [decodeQuanta]. by rewrite Ha, Hb, Hc, Hd.
  - change (decodeQuanta (a :: b :: c :: d :: e :: tail))
      with (match decodeStd a, decodeStd b, decodeStd c, decodeStd d with
            | Some s0, Some s1, Some s2, Some s3 =>
                match decodeQuanta (e :: tail) with
                | Some out =>
                    Some (ascii_of_N (s0 * 4 + s1 / 16)
                          :: ascii_of_N (s1 mod 16 * 16 + s2 / 4)
                          :: ascii_of_N (s2 mod 4 * 64 + s3) :: out)
                | None => None
                end
            | _, _, _, _ => None
            end).
    rewrite Ha, Hb, Hc, Hd. by destruct (decodeQuanta (e :: tail)).
Qed.

(** Decoding the quanta of an encoded text gives the text back. *)
Lemma decodeQuanta_encode (src : bytes) :
  decodeQuanta (EncodeToString src) = Some src.
Proof.
  induction src as [src IH] using (induction_ltof1 _ (@length ascii)).
  unfold ltof in IH.
  destruct src as [|a [|b [|c rest]]]; cbn [EncodeToString].
  - done.
  - pose proof (sextets_1 _ (N_of_ascii_lt a)) as (H0 & H1 & E).
    cbn [decodeQuanta]. rewrite !encode_decode_char by done.
    change (decodeStd padChar) with (@None N).
    change (Ascii.eqb padChar padChar) with true. cbn [andb].
    by rewrite E, ascii_N_embedding.
  - pose proof (sextets_2 _ _ (N_of_ascii_lt a) (N_of_ascii_lt b))
      as (H0 & H1 & H2 & Ea & Eb).
    cbn [decodeQuanta]. rewrite !encode_decode_char by done.
    change (decodeStd padChar) with (@None N).
    change (Ascii.eqb padChar padChar) with true.
    by rewrite Ea, Eb, !ascii_N_embedding.
  - pose proof (sextets_3 _ _ _ (N_of_ascii_lt a) (N_of_ascii_lt b)
                  (N_of_ascii_lt c)) as (H0 & H1 & H2 & H3 & Ea & Eb & Ec).
    rewrite (decodeQuanta_quantum _ _ _ _ _ _ _ _ _
               (encode_decode_char _ H0) (encode_decode_char _ H1)
               (encode_decode_char _ H2) (encode_decode_char _ H3)).
    rewrite IH by (simpl; lia). cbn [option_map].
    by rewrite Ea, Eb, Ec, !ascii_N_embedding.
Qed.

Lemma filter_all {A} (f : A -> bool) (l : list A) :
  Forall (fun x => f x = true) l -> List.filter f l = l.
Proof.
  induction 1 as [|x l Hx _ IH]; [done|]. simpl. by rewrite Hx, IH.
Qed.

(** [DecodeString] undoes [EncodeToString]. *)
Lemma DecodeString_EncodeToString (src : bytes) :
  DecodeString (EncodeToString src) = Some src.
Proof.
  unfold DecodeString. rewrite filter_all; [apply decodeQuanta_encode|].
  eapply List.Forall_impl; [|apply EncodeToString_bytes].
  intros c Hc. cbn beta. by apply isBase64Byte_plain in Hc as [_ ->].
Qed.

End Base64Facts.

(** ** Rendering and parsing bundles *)
Section Document.
Import GoStrings GoTime Session BundleData Bundle.
Context `{Library}.

(** The first occurrence of [needle] comes after a text that holds the
    first byte of [needle] nowhere. *)
Lemma Index_after (pre rest : bytes) (h : ascii) (needle : bytes) :
  Forall (fun c => c <> h) pre ->
  Index (pre ++ h :: needle ++ rest) (h :: needle) = Some (length pre).
Proof.
  induction 1 as [|a pre Ha _ IH].
  - cbn [app Index length HasPrefix].
    by rewrite byte_eqb_refl, HasPrefix_app.
  - cbn [app Index length HasPrefix].
    assert (byte_eqb h a = false) as ->.
    { apply Ascii.eqb_neq. congruence. }
    cbn [andb]. by rewrite IH.
Qed.


Lemma Index_prefix (s p : bytes) : HasPrefix s p = true -> Index s p = Some 0%nat.
Proof. intros Hp. destruct s; cbn [Index]; by rewrite Hp. Qed.

Lemma Contains_sentinel (rest : bytes) :
  Contains (versionSentinel ++ rest) versionSentinel = true.
Proof.
  unfold Contains. by rewrite Index_prefix by apply HasPrefix_app.
Qed.

Lemma Index_dataPrefix (tail : bytes) :
  Index (versionSentinel ++ lf ++ dataPrefix ++ tail) dataPrefix = Some 35%nat.
Proof. reflexivity. Qed.

Lemma skip_to_payload (tail : bytes) :
  skipn (35 + length dataPrefix) (versionSentinel ++ lf ++ dataPrefix ++ tail)
  = tail.
Proof. reflexivity. Qed.

(** A document that starts with the sentinel line and the payload line is
    parsed from the payload alone. *)
Lemma MarkdownParse_document (encoded tail : bytes) :
  Forall (fun c => c <> " "%char) encoded ->
  MarkdownParse (versionSentinel ++ lf ++ dataPrefix ++ encoded ++ dataSuffix ++ tail)
  = decodePayload encoded.
Proof.
  intros Henc. unfold MarkdownParse.
  rewrite Contains_sentinel. cbn [negb].
  rewrite Index_dataPrefix, skip_to_payload.
  change dataSuffix with (" "%char :: bs "-->").
  cbn [app]. rewrite Index_after by done.
  change (" "%char :: bs "-->" ++ tail) with ((" "%char :: bs "-->") ++ tail).
  by rewrite take_app_length.
Qed.

Lemma MarkdownParse_unfold (data : bytes) :
  MarkdownParse data
  = if negb (Contains data versionSentinel) then inr MissingSentinel
    else
      match Index data dataPrefix with
      | None => inr MissingPayload
      | Some start =>
          match Index (skipn (start + length dataPrefix) data) dataSuffix with
          | None => inr MalformedPayload
          | Some end_ =>
              decodePayload
                (firstn end_ (skipn (start + length dataPrefix) data))
          end
      end.
Proof. reflexivity. Qed.

Lemma decodePayload_error (encoded : bytes) (e : ParseError) :
  decodePayload encoded = inr e -> InvalidBundle e = true.
Proof.
  unfold decodePayload.
  destruct (Base64.DecodeString encoded) as [js|]; [|by intros [= <-]].
  destruct (json_Unmarshal js); [done|by intros [= <-]].
Qed.

Lemma payloadLines_shape (encoded human : bytes) :
  payloadLines encoded ++ human
  = versionSentinel ++ lf ++ dataPrefix ++ encoded ++ dataSuffix
    ++ (lf ++ lf ++ human).
Proof. unfold payloadLines. by rewrite <- !app_assoc. Qed.

Lemma base64_no_space (src : bytes) :
  Forall (fun c => c <> " "%char) (Base64.EncodeToString src).
Proof.
  eapply List.Forall_impl; [|apply EncodeToString_bytes].
  intros c Hc. by apply isBase64Byte_plain in Hc as [? _].
Qed.


(** C2: parsing the Markdown form fails with [InvalidBundle] when the
    version marker is absent, when the payload is missing or not closed,
    and when it cannot be decoded or read; every error of the parser is an
    [InvalidBundle]; a bundle it returns is the one read from the embedded
    payload, so two documents with the marker and the same payload parse
    alike, whatever their human-readable sections say. *)
Theorem markdown_parse_contract (data : bytes) :
  (Contains data versionSentinel = false ->
   MarkdownParse data = inr MissingSentinel)
  /\ (Contains data versionSentinel = true -> embeddedPayload data = None ->
      MarkdownParse data = inr MissingPayload
      \/ MarkdownParse data = inr MalformedPayload)
  /\ (forall encoded,
        Contains data versionSentinel = true ->
        embeddedPayload data = Some encoded ->
        MarkdownParse data = decodePayload encoded
        /\ (Base64.DecodeString encoded = None ->
            MarkdownParse data = inr CorruptBase64)
        /\ (forall jsonBytes err,
              Base64.DecodeString encoded = Some jsonBytes ->
              json_Unmarshal jsonBytes = inr err ->
              MarkdownParse data = inr (EmbeddedJSON err)))
  /\ (forall e, MarkdownParse data = inr e -> InvalidBundle e = true)
  /\ (forall bundle,
        MarkdownParse data = inl bundle ->
        exists encoded jsonBytes,
          Contains data versionSentinel = true
          /\ embeddedPayload data = Some encoded
          /\ Base64.DecodeString encoded = Some jsonBytes
          /\ json_Unmarshal jsonBytes = inl bundle)
  /\ (forall data' encoded,
        Contains data versionSentinel = true ->
        Contains data' versionSentinel = true ->
        embeddedPayload data = Some encoded ->
        embeddedPayload data' = Some encoded ->
        MarkdownParse data = MarkdownParse data')
  /\ (forall encoded human human',
        Forall (fun c => c <> " "%char) encoded ->
        data = payloadLines encoded ++ human ->
        MarkdownParse data = MarkdownParse (payloadLines encoded ++ human')).
Proof.
  assert (Hpayload : forall d encoded,
    Contains d versionSentinel = true -> embeddedPayload d = Some encoded ->
    MarkdownParse d = decodePayload encoded).
  { intros d encoded Hc Hp. rewrite MarkdownParse_unfold, Hc. cbn [negb].
    unfold embeddedPayload in Hp.
    destruct (Index d dataPrefix) as [start|]; [|done].
    destruct (Index (skipn (start + length dataPrefix) d) dataSuffix);
      [|done].
    by injection Hp as <-. }
  split; [|split; [|split; [|split; [|split; [|split]]]]].
  - intros Hc. rewrite MarkdownParse_unfold, Hc. done.
  - intros Hc Hp. rewrite MarkdownParse_unfold, Hc. cbn [negb].
    unfold embeddedPayload in Hp.
    destruct (Index data dataPrefix) as [start|]; [|by left].
    destruct (Index (skipn (start + length dataPrefix) data) dataSuffix);
      [done|by right].
  - intros encoded Hc Hp. rewrite (Hpayload _ _ Hc Hp).
    split; [done|]. unfold decodePayload. split.
    + by intros ->.
    + by intros jsonBytes err -> ->.
  - intros e. rewrite MarkdownParse_unfold.
    destruct (Contains data versionSentinel); cbn [negb]; [|by intros [= <-]].
    destruct (Index data dataPrefix) as [start|]; [|by intros [= <-]].
    destruct (Index (skipn (start + length dataPrefix) data) dataSuffix);
      [|by intros [= <-]].
    apply decodePayload_error.
  - intros bundle. rewrite MarkdownParse_unfold. unfold embeddedPayload.
    destruct (Contains data versionSentinel); cbn [negb]; [|done].
    destruct (Index data dataPrefix) as [start|]; [|done].
    destruct (Index (skipn (start + length dataPrefix) data) dataSuffix)
      as [end_|]; [|done].
    unfold decodePayload.
    destruct (Base64.DecodeString _) as [js|] eqn:Hd; [|done].
    destruct (json_Unmarshal js) as [b|] eqn:Hj; [|done].
    intros [= <-]. eexists. exists js. by rewrite Hd, Hj.
  - intros data' encoded Hc Hc' Hp Hp'.
    by rewrite (Hpayload _ _ Hc Hp), (Hpayload _ _ Hc' Hp').
  - intros encoded human human' Henc ->.
    by rewrite !payloadLines_shape, !MarkdownParse_document.
Qed.

End Document.

Section DocumentExamples.
Import GoStrings GoTime Session BundleData Bundle.


(** The four documents of the parser's unit tests. *)
Example parse_plain_markdown `{Library} :
  MarkdownParse (bs "# Some Document" ++ lf ++ lf ++ bs "- item 1" ++ lf)
  = inr MissingSentinel.
Proof. reflexivity. Qed.

Example parse_corrupted_base64 `{Library} :
  MarkdownParse
    (versionSentinel ++ lf ++ bs "<!-- handoff-data: !!!not-valid-base64!!! -->"
     ++ lf ++ lf ++ bs "# Handoff" ++ lf)
  = inr CorruptBase64.
Proof. reflexivity. Qed.

Example parse_missing_payload `{Library} :
  MarkdownParse (versionSentinel ++ lf ++ lf ++ bs "# Handoff" ++ lf)
  = inr MissingPayload.
Proof. reflexivity. Qed.

Example parse_invalid_embedded_json :
  @MarkdownParse Samples.sampleLibrary
    (versionSentinel ++ lf ++ dataPrefix
     ++ Base64.EncodeToString (bs "this is not json {{{") ++ dataSuffix
     ++ lf ++ lf ++ bs "# Handoff" ++ lf)
  = inr (EmbeddedJSON (bs "invalid character")).
Proof. vm_compute. reflexivity. Qed.

(** The rendered sample starts with the marker and the payload line, and
    parses back when its sections are replaced by other text. *)
Example parse_ignores_sections :
  @MarkdownParse Samples.sampleLibrary
    (payloadLines (Base64.EncodeToString Samples.sampleCompact)
     ++ bs "## Summary" ++ lf ++ bs "- Duration: 99h" ++ lf)
  = inl Samples.sampleBundle.
Proof. vm_compute. reflexivity. Qed.

End DocumentExamples.

(** ** The stop command *)
Section StopCommand.
Import GoStrings GoTime Session BundleData Bundle OS Collector GitCollector Cmd.
Context `{Library}.

(** Whatever error the command returns, the session file is as it was. *)
Lemma stopCmd_error_keeps_session (r : Run) (w w' : World) (e : StopError) :
  stopCmd r w = (w', Some e) -> sessionFile w' = sessionFile w.
Proof.
  unfold stopCmd.
  destruct (storeFault r); [by intros [= <- _]|].
  destruct (Load w) as [s0|]; [|by intros [= <- _]].
  destruct (runCollectors _ _ _ _) as [[merged|err] log]; [|by intros [= <- _]].
  destruct (if bytes_eqb _ _ then JSONRender _ else MarkdownRender _)
    as [data|err]; [|by intros [= <- _]].
  destruct (writeFault r _) as [[?|? ?]|]; [by intros [= <- _]..|].
  destruct (deleteFault r); [by intros [= <- _]|done].
Qed.

(** A collector that fails is one of the collectors run. *)
Lemma runCollectors_error (cs : list Collector) (s : Session) (log log' : FileState)
    (merged : CollectorResult) (err : GoError) :
  runCollectors cs s log merged = (inr err, log') ->
  exists c log0, In c cs /\ c s log0 = (inr err, log').
Proof.
  revert log merged. induction cs as [|c cs IH]; intros log merged; [done|].
  cbn [runCollectors]. destruct (c s log) as [[result|e] l] eqn:E.
  - intros Hrest. apply IH in Hrest as (c' & log0 & Hin & Hc).
    exists c', log0. split; [by right|done].
  - intros [= <- <-]. exists c, log. split; [by left|done].
Qed.


(** The file, shell and editor collectors never return an error: the loop
    fails exactly when git does, and then the command aborts. *)
Lemma git_error_aborts_stop (r : Run) (w : World) (s0 : Session)
    (err : GoError) :
  storeFault r = None ->
  Load w = inl s0 ->
  GitCollector.Collect (git r) (fun t => Format t RFC3339)
    (mkGitCollector (WorkDir (stopSession r s0)) None) (stopSession r s0)
  = inr err ->
  exists w',
    stopCmd r w = (w', Some (CollectorError err))
    /\ sessionFile w' = sessionFile w /\ outputs w' = outputs w.
Proof.
  intros Hstore Hload Hgit. unfold stopCmd. rewrite Hstore, Hload.
  unfold collectors. cbn [runCollectors].
  destruct (ShellCollector.Collect _ _ _ _) as [result log'].
  rewrite Hgit. eexists. split; [done|]. by cbn.
Qed.

End StopCommand.

Section StopExamples.
Import GoStrings GoTime Session BundleData Bundle OS Collector GitCollector Cmd.


(** The failed run of the sample: the session file stays, and the shell
    collector, which ran before git failed, has emptied the plugin's
    command log. *)
Example failed_stop_sample :
  @stopCmd Samples.sampleLibrary Samples.gitBroken Samples.activeWorld
  = (mkWorld (Saved Samples.watchedSession) (Content []) [] [] [] [],
     Some (CollectorError (ExitError 1))).
Proof. vm_compute. reflexivity. Qed.

(** C9, on the code: a stop that a collector fails is not safe to retry
    when the shell plugin records the commands.  The session of the
    sample is active, the plugin's log holds the command [go test ./...]
    run in the session, and git exits with status 1.  The stop returns
    the collector error, renders and writes nothing and leaves the
    session file as it was; but the shell collector, which runs before
    git, has already emptied the log.  The same stop retried once git
    works succeeds, and the bundle it writes does not hold the logged
    command: its commands are the two lines of the shell history, without
    timestamps.  Had git worked at once, the bundle would hold the logged
    command. *)
Theorem failed_stop_loses_logged_commands :
  (Samples.failedStop.2 = Some (CollectorError (ExitError 1))
   /\ events Samples.failedStop.1 = []
   /\ outputs Samples.failedStop.1 = []
   /\ sessionFile Samples.failedStop.1 = Saved Samples.watchedSession
   /\ commandLog Samples.activeWorld
      = Content (bs "1700000300" ++ ["009"%char] ++ bs "go test ./..."
                 ++ [Samples.nl])
   /\ commandLog Samples.failedStop.1 = Content [])
  /\ (Samples.retriedStop.2 = None
      /\ map (fun out => option_map cb_Commands (Samples.readBundle out.2))
           (outputs Samples.retriedStop.1)
         = [Some [Samples.cmdPlainA; Samples.cmdPlainB]])
  /\ (Samples.directStop.2 = None
      /\ map (fun out => option_map cb_Commands (Samples.readBundle out.2))
           (outputs Samples.directStop.1)
         = [Some [Samples.cmdInside]]).
Proof. vm_compute. repeat split. Qed.

(** The successful run: one file is written, then the session file is
    removed. *)
Example successful_stop_sample :
  let '(w', err) :=
    @stopCmd Samples.sampleLibrary Samples.gitWorking Samples.activeWorld in
  err = None /\ sessionFile w' = NoRecord /\ length (outputs w') = 1%nat
  /\ map (fun e => match e with Wrote _ _ => 1%nat | Rendered _ => 0%nat
                               | Deleted => 2%nat end) (events w')
     = [0; 1; 2]%nat.
Proof. vm_compute. repeat split. Qed.

End StopExamples.

(** ** Editor tabs *)

Section EditorTabs.
Import GoStrings GoTime Session BundleData Collector OS EditorCollector.

Lemma HasPrefix_iff (s p : bytes) :
  HasPrefix s p = true <-> exists rest, s = p ++ rest.
Proof.
  revert s. induction p as [|a p IH]; intros s; simpl.
  - split; [by exists s|done].
  - destruct s as [|c s].
    + split; [done|]. by intros [rest ?].
    + rewrite andb_true_iff, IH, byte_eqb_eq. split.
      * intros [-> [rest ->]]. by exists rest.
      * intros [rest [= -> ->]]. split; [done|]. by exists rest.
Qed.

Lemma tabsInv_empty : tabsInv (∅, []).
Proof.
  split; [constructor|]. intros t. unfold isSeen. cbn [fst snd].
  rewrite lookup_empty. split; [done|intros []].
Qed.

Lemma addTab_fold (tabs : list bytes) (st : gmap bytes bool * list bytes) :
  tabsInv st ->
  tabsInv (fold_left addTab tabs st)
  /\ (exists new, (fold_left addTab tabs st).2 = st.2 ++ new /\ sublist new tabs)
  /\ forall t, In t (fold_left addTab tabs st).2 <-> In t st.2 \/ In t tabs.
Proof.
  revert st. induction tabs as [|t tabs IH]; intros [seen acc] Hinv.
  - cbn [fold_left]. split; [exact Hinv|]. split.
    + exists []. by rewrite app_nil_r.
    + intros u. cbn [In]. tauto.
  - cbn [fold_left].
    assert (Hstep : addTab (seen, acc) t
                    = if isSeen seen t then (seen, acc)
                      else (<[t := true]> seen, acc ++ [t])) by done.
    rewrite Hstep. clear Hstep. destruct (isSeen seen t) eqn:Hseen.
    + destruct (IH (seen, acc) Hinv) as (Hinv' & (new & Hnew & Hsub) & Hin).
      split; [done|]. split.
      * exists new. split; [done|]. by apply sublist_cons.
      * intros u. rewrite Hin. cbn [In snd]. split; [tauto|].
        intros [H|[<-|H]]; [tauto| |tauto].
        left. by apply (proj2 Hinv).
    + assert (Hnot : ~ In t acc).
      { intros H. apply (proj2 Hinv) in H. cbn [fst] in H. congruence. }
      assert (Hinv1 : tabsInv (<[t := true]> seen, acc ++ [t])).
      { destruct Hinv as [Hnd Hs]. cbn [fst snd] in *. split; cbn [fst snd].
        - apply List.NoDup_app; [done|repeat constructor; intros []|].
          intros u Hu [<-|[]]. done.
        - intros u. unfold isSeen. rewrite in_app_iff. cbn [In].
          destruct (decide (t = u)) as [->|Hne].
          + rewrite lookup_insert_eq. tauto.
          + rewrite lookup_insert_ne by done. fold (isSeen seen u).
            rewrite Hs. split; [tauto|]. intros [H|[H|[]]]; [done|done]. }
      destruct (IH _ Hinv1) as (Hinv' & (new & Hnew & Hsub) & Hin).
      split; [exact Hinv'|]. split.
      * exists (t :: new). cbn [snd] in *. rewrite Hnew, <- app_assoc.
        split; [done|]. by apply sublist_skip.
      * intros u. rewrite Hin. cbn [snd]. rewrite in_app_iff. cbn [In]. tauto.
Qed.


Lemma keepUnder_fold (workDir prefix : bytes) (paths result : list bytes) :
  fold_left (keepUnder workDir prefix) paths result
  = result
    ++ List.filter (fun p => bytes_eqb p workDir || HasPrefix p prefix) paths.
Proof.
  revert result. induction paths as [|p paths IH]; intros result.
  - by rewrite app_nil_r.
  - cbn [fold_left List.filter]. rewrite IH. unfold keepUnder.
    destruct (bytes_eqb p workDir || HasPrefix p prefix); [|done].
    by rewrite <- app_assoc.
Qed.

Lemma filterToWorkDir_In (paths : list bytes) (workDir p : bytes) :
  In p (filterToWorkDir paths workDir) <-> In p paths /\ under workDir p.
Proof.
  unfold filterToWorkDir, under. destruct workDir as [|c w].
  - split; [by intros H; split; [|left]|tauto].
  - rewrite keepUnder_fold. cbn [app]. rewrite filter_In, orb_true_iff.
    rewrite bytes_eqb_eq, HasPrefix_iff. split.
    + intros [H [H1|H1]]; (split; [done|right; tauto]).
    + intros [H [H1|H1]]; [done|tauto].
Qed.





(** X3: whatever the editors return and whichever branch runs, every tab
    of the editor collector is under the working directory of the session,
    and the collector contributes no file edit, no command and no Git
    data. *)
Theorem editor_tabs_inside_workdir (ed : Editors) (e : EditorCollector)
    (sess : Session) :
  (forall t, In t (cr_EditorTabs (Collect ed e sess)) -> under (WorkDir sess) t)
  /\ cr_FileEdits (Collect ed e sess) = []
  /\ cr_Commands (Collect ed e sess) = []
  /\ cr_GitInfo (Collect ed e sess) = None.
Proof.
  unfold Collect. destruct (negb (bytes_eqb (StateDir e) [])).
  - destruct (collectVSCodeFamily ed _ _) as [tabs warnings].
    split; [|done]. intros t Ht. cbn [cr_EditorTabs] in Ht.
    by apply filterToWorkDir_In in Ht as [_ Ht].
  - destruct (homeDir ed) as [home|err]; [|by split; [intros t []|]].
    destruct (fold_left _ _ _) as [[seen allTabs] allWarnings].
    split; [|done]. intros t Ht. cbn [cr_EditorTabs] in Ht.
    by apply filterToWorkDir_In in Ht as [_ Ht].
Qed.

Lemma viminfoLine_fold (env : Env) (home : bytes) (lines : list bytes)
    (st : gmap bytes bool * list bytes) :
  tabsInv st ->
  tabsInv (fold_left (viminfoLine env home) lines st)
  /\ forall f, In f (fold_left (viminfoLine env home) lines st).2
       <-> In f st.2
           \/ (f <> [] /\ exists line, In line lines
                 /\ HasPrefix line (bs "> ") = true
                 /\ f = viminfoPath env home line).
Proof.
  revert st. induction lines as [|line lines IH]; intros st Hinv.
  - cbn [fold_left]. split; [exact Hinv|]. intros f. split; [tauto|].
    intros [H|(_ & l & [] & _)]. done.
  - cbn [fold_left].
    assert (Hstep : tabsInv (viminfoLine env home st line)
      /\ forall f, In f (viminfoLine env home st line).2
           <-> In f st.2
               \/ (f <> [] /\ HasPrefix line (bs "> ") = true
                   /\ f = viminfoPath env home line)).
    { unfold viminfoLine. fold (viminfoPath env home line).
      destruct (HasPrefix line (bs "> ")); cbn [negb].
      - destruct (viminfoPath env home line) as [|c p] eqn:Hp.
        + split; [exact Hinv|]. intros f. split; [tauto|].
          intros [H|(Hf & _ & ->)]; done.
        + destruct (addTab_fold [c :: p] st Hinv) as (Hinv' & _ & Hin).
          cbn [fold_left] in Hinv', Hin. split; [exact Hinv'|].
          intros f. rewrite Hin. cbn [In]. split.
          * intros [H|[<-|[]]]; [tauto|]. right. done.
          * intros [H|(_ & _ & ->)]; tauto.
      - split; [exact Hinv|]. intros f. split; [tauto|].
        intros [H|(_ & ? & _)]; done. }
    destruct Hstep as [Hinv1 Hin1].
    destruct (IH _ Hinv1) as [Hinv' Hin]. split; [exact Hinv'|].
    intros f. rewrite Hin, Hin1. cbn [In]. split.
    + intros [[H|(Hf & Hp & ->)]|(Hf & l & Hl & Hp & ->)]; [tauto| |].
      * right. split; [done|]. exists line. tauto.
      * right. split; [done|]. exists l. tauto.
    + intros [H|(Hf & l & [<-|Hl] & Hp & ->)]; [tauto| |].
      * left. right. done.
      * right. split; [done|]. exists l. done.
Qed.

(** X4: the files [parseViminfo] reads from a viminfo file are the
    non-empty paths named by its lines that start with [> ], trimmed and
    with a leading [~/] replaced by the home directory; no file is listed
    twice. *)
Theorem viminfo_files (env : Env) (path home data : bytes) :
  file env path = Content data ->
  List.NoDup (parseViminfo env path home).1
  /\ forall f, In f (parseViminfo env path home).1
       <-> f <> []
           /\ exists line, In line (ScanLines data).1
                /\ HasPrefix line (bs "> ") = true
                /\ f = viminfoPath env home line.
Proof.
  intros Hfile. unfold parseViminfo, Open. rewrite Hfile.
  destruct (ScanLines data) as [lines err]. cbn [fst].
  destruct (viminfoLine_fold env home lines _ tabsInv_empty) as [Hinv Hin].
  split; [apply Hinv|]. intros f. rewrite Hin. cbn [snd In]. tauto.
Qed.

End EditorTabs.

Section EditorExamples.
Import GoStrings GoTime Session BundleData Collector OS EditorCollector.



Lemma viminfo_files_witness :
  file EditorSamples.vimEnv (bs "/home/dev/.viminfo")
  = Content EditorSamples.viminfo
  /\ List.NoDup
       (parseViminfo EditorSamples.vimEnv (bs "/home/dev/.viminfo")
          EditorSamples.home).1.
Proof.
  split; [reflexivity|].
  exact (proj1 (viminfo_files EditorSamples.vimEnv (bs "/home/dev/.viminfo")
                  EditorSamples.home EditorSamples.viminfo eq_refl)).
Defined.

(** The sample machine: the project folder comes from the VS Code fork and
    [main.go] from Vim; Neovim names [main.go] again; the file of the
    sibling directory [proj-old] and the files elsewhere are left out. *)
Example editor_tabs_sample :
  cr_EditorTabs
    (Collect EditorSamples.editors (mkEditorCollector []) EditorSamples.session)
  = [bs "/home/dev/proj"; bs "/home/dev/proj/main.go"]
  /\ readerTabs EditorSamples.editors EditorSamples.home
     = [bs "/home/dev/proj"; bs "/home/dev/proj-old/x.go";
        bs "/home/dev/proj/main.go"; bs "/etc/hosts";
        bs "/home/dev/proj/main.go"; bs "/tmp/scratch"].
Proof. split; vm_compute; reflexivity. Qed.

End EditorExamples.

(** ** Configuration *)

Section Configuration.
Import GoStrings OS Cmd Config.

Lemma overlay_format_nonempty (result : Config) (c : option Config) :
  DefaultFormat result <> [] -> DefaultFormat (overlay result c) <> [].
Proof.
  intros H. destruct c as [c|]; [|done]. cbn [overlay DefaultFormat].
  by destruct (DefaultFormat c).
Qed.

Lemma overlay_dir_nonempty (result : Config) (c : option Config) :
  OutputDir result <> [] -> OutputDir (overlay result c) <> [].
Proof.
  intros H. destruct c as [c|]; [|done]. cbn [overlay OutputDir].
  by destruct (OutputDir c).
Qed.

Lemma fillGaps_nonempty (cfg : Config) (activeProfile : option Profile) :
  DefaultFormat cfg <> [] -> OutputDir cfg <> [] ->
  DefaultFormat (fillGaps cfg activeProfile) <> []
  /\ OutputDir (fillGaps cfg activeProfile) <> [].
Proof.
  intros Hf Hd. destruct activeProfile as [p|]; [|done].
  cbn [fillGaps DefaultFormat OutputDir]. split.
  - destruct (_ || _); [|done]. by destruct (prof_DefaultFormat p).
  - destruct (bytes_eqb (OutputDir cfg) (bs ".")); [|done]. cbn [andb].
    destruct (prof_OutputDir p) as [|c d]; [done|]. cbn [bytes_eqb negb andb].
    by destruct (negb _).
Qed.

(** X5: whatever the configuration files and the profile hold, a
    configuration that is loaded has a format and an output directory that
    are not empty. *)
Theorem loaded_config_never_blank (env : Env)
    (unmarshal : bytes -> Config + bytes) (home : bytes + bytes)
    (activeProfile : option Profile) (cfg : Config) :
  loadConfig env unmarshal home activeProfile = inl cfg ->
  DefaultFormat cfg <> [] /\ OutputDir cfg <> [].
Proof.
  unfold loadConfig. destruct (LoadGlobal _ _ _) as [global|]; [|done].
  destruct (LoadProject _ _) as [project|]; [|done].
  intros [= <-]. apply fillGaps_nonempty; unfold Merge.
  - by do 2 apply overlay_format_nonempty.
  - by do 2 apply overlay_dir_nonempty.
Qed.

(** X6: in [Merge], a value of the project configuration that is not
    empty wins; where the project leaves a field empty, or there is no
    project configuration, the result is that of the global configuration
    alone; a global configuration that holds the defaults, as a missing
    global file is loaded, or that is absent gives the defaults. *)
Theorem merge_precedence (global : option Config) (project : Config) :
  (DefaultFormat (Merge global (Some project))
   = if bytes_eqb (DefaultFormat project) [] then DefaultFormat (Merge global None)
     else DefaultFormat project)
  /\ (OutputDir (Merge global (Some project))
      = if bytes_eqb (OutputDir project) [] then OutputDir (Merge global None)
        else OutputDir project)
  /\ (ShellHistoryPath (Merge global (Some project))
      = if bytes_eqb (ShellHistoryPath project) []
        then ShellHistoryPath (Merge global None)
        else ShellHistoryPath project)
  /\ (cfg_IgnorePatterns (Merge global (Some project))
      = match cfg_IgnorePatterns project with
        | [] => cfg_IgnorePatterns (Merge global None)
        | patterns => patterns
        end)
  /\ Merge (Some Defaults) None = Defaults
  /\ Merge None None = Defaults
  /\ Merge (Some (Merge global (Some project))) None = Merge global (Some project).
Proof.
  unfold Merge. cbn [overlay DefaultFormat OutputDir ShellHistoryPath cfg_IgnorePatterns].
  repeat split.
  - by destruct (DefaultFormat project).
  - by destruct (OutputDir project).
  - by destruct (ShellHistoryPath project).
  - destruct global as [g|]; cbn [overlay Defaults DefaultFormat OutputDir
      ShellHistoryPath cfg_IgnorePatterns].
    + destruct (cfg_IgnorePatterns project), (cfg_IgnorePatterns g),
        (ShellHistoryPath project), (ShellHistoryPath g),
        (DefaultFormat project), (DefaultFormat g),
        (OutputDir project), (OutputDir g); reflexivity.
    + destruct (cfg_IgnorePatterns project), (ShellHistoryPath project),
        (DefaultFormat project), (OutputDir project); reflexivity.
Qed.

End Configuration.

Section ConfigurationExamples.
Import GoStrings OS Cmd Config.

Lemma loaded_config_never_blank_witness :
  loadConfig ConfigSamples.projectOnly ConfigSamples.readDir
    (inl (bs "/home/dev")) None
  = inl (mkConfig [] [] (bs "markdown") (bs "out"))
  /\ DefaultFormat (mkConfig [] [] (bs "markdown") (bs "out")) <> [].
Proof.
  assert (H : loadConfig ConfigSamples.projectOnly ConfigSamples.readDir
                (inl (bs "/home/dev")) None
              = inl (mkConfig [] [] (bs "markdown") (bs "out"))) by reflexivity.
  split; [exact H|].
  exact (proj1 (loaded_config_never_blank _ _ _ _ _ H)).
Defined.

(** A configuration file that says [markdown] does not keep the format of
    a profile out: the command cannot tell it from the default. *)
Example profile_overrides_markdown :
  DefaultFormat
    (fillGaps (Merge None (Some (mkConfig [] [] (bs "markdown") [])))
       (Some (mkProfile (bs "dev") (bs "json") false [] [])))
  = bs "json".
Proof. reflexivity. Qed.

End ConfigurationExamples.

(** ** The plugin's command log and the history baseline *)

Section CommandLog.
Import GoStrings GoTime Session BundleData Collector OS ShellLog ShellCollector.
Import FilterSpec HistoryFormats PluginLog.

Lemma IndexByte_first (pre rest : bytes) (c : ascii) :
  ~ In c pre -> IndexByte (pre ++ c :: rest) c = Some (length pre).
Proof.
  induction pre as [|a pre IH]; intros Hn.
  - cbn [app IndexByte length]. by rewrite byte_eqb_refl.
  - cbn [app IndexByte length].
    assert (byte_eqb a c = false) as ->.
    { apply byte_eqb_neq. intros ->. apply Hn. by left. }
    rewrite IH; [done|]. intros H. apply Hn. by right.
Qed.

Lemma wfLog_spec (e : logEntry) :
  wfLog e = true ->
  isInt64 e.1 = true /\ e.2 <> [] /\ wfLine (logLineText e) = true.
Proof.
  unfold wfLog. rewrite !andb_true_iff, negb_true_iff.
  intros [[H1 H2] H3]. split; [done|]. split; [|done].
  intros E. rewrite E in H2. done.
Qed.

Lemma readLogLine_entry (e : logEntry) (cmds : list Command) :
  wfLog e = true ->
  readLogLine cmds (logLineText e) = cmds ++ [logCommand e].
Proof.
  destruct e as [epoch raw]. intros H.
  apply wfLog_spec in H as (He & Hraw & _). cbn [fst snd] in *.
  unfold readLogLine, logLineText. cbn [fst snd app].
  rewrite IndexByte_first by (by apply not_In_FormatInt).
  pose proof (FormatInt_nonnil epoch) as Hne.
  destruct (length (FormatInt epoch)) as [|n] eqn:Hlen.
  { destruct (FormatInt epoch); [done|]. simpl in Hlen. lia. }
  rewrite <- Hlen, take_app_length.
  replace (length (FormatInt epoch) + 1)%nat
    with (length (FormatInt epoch ++ [tab]))
    by (rewrite (length_app _ [tab]); done).
  replace (FormatInt epoch ++ tab :: raw) with ((FormatInt epoch ++ [tab]) ++ raw)
    by (by rewrite <- app_assoc).
  rewrite drop_app_length, ParseInt_FormatInt by done.
  by destruct raw.
Qed.

Lemma readLogLine_fold (entries : list logEntry) (cmds : list Command) :
  Forall (fun e => wfLog e = true) entries ->
  fold_left readLogLine (map logLineText entries) cmds
  = cmds ++ map logCommand entries.
Proof.
  intros H. revert cmds. induction H as [|e entries He _ IH]; intros cmds.
  - simpl. by rewrite app_nil_r.
  - cbn [map fold_left]. rewrite readLogLine_entry by done.
    rewrite IH. by rewrite <- app_assoc.
Qed.

Lemma command_log_round_trip_aux (entries : list logEntry) :
  Forall (fun e => wfLog e = true) entries ->
  ReadCommandLog (Content (history logText entries))
  = (map logCommand entries, false).
Proof.
  intros H. unfold ReadCommandLog.
  rewrite (history_lines logText (fun e => [logLineText e])).
  2:{ intros e. unfold logText. simpl. by rewrite app_nil_r. }
  rewrite concat_map_singleton, ScanLines_lines.
  - by rewrite readLogLine_fold.
  - apply List.Forall_forall. intros l Hl.
    apply in_map_iff in Hl as (e & <- & Hin).
    rewrite List.Forall_forall in H. apply H in Hin.
    by apply wfLog_spec in Hin as (_ & _ & ?).
Qed.

(** X7: the reader of the plugin's command log gives back what the shell
    hook wrote: for entries whose epoch fits [int64], whose command is not
    empty and whose line holds no line feed, ends in no carriage return and
    fits the scanner's buffer, the commands read are the commands logged,
    in order, each with the time of its epoch. *)
Theorem command_log_round_trip (entries : list logEntry) :
  Forall (fun e => wfLog e = true) entries ->
  ReadCommandLog (Content (history logText entries))
  = (map logCommand entries, false).
Proof. apply command_log_round_trip_aux. Qed.

Lemma plain_wf (cmds : list bytes) :
  Forall (fun cmd => wfBash (plain cmd) = true /\ isHandoffNoise cmd = false) cmds ->
  Forall (fun e => wfBash e = true) (map plain cmds)
  /\ Forall (fun c => IsZero (Timestamp c) = true /\ isHandoffNoise (Raw c) = false)
       (map bashCommand (map plain cmds)).
Proof.
  intros H. split; apply List.Forall_forall; intros x Hx.
  - apply in_map_iff in Hx as (cmd & <- & Hin).
    rewrite List.Forall_forall in H. by destruct (H cmd Hin).
  - apply in_map_iff in Hx as (e & <- & He).
    apply in_map_iff in He as (cmd & <- & Hin).
    rewrite List.Forall_forall in H. by destruct (H cmd Hin).
Qed.

(** X8: the baseline taken at the start of a session and the filter at
    its end fit together for a bash history without timestamps that holds
    no invocation of the tool's own start or stop: when the history file
    holds the commands [old] at the start and [old ++ new] at the end, the
    baseline is the number of the old commands and the shell collector
    returns the new commands, the last fifty of them when there are
    more. *)
Theorem baseline_then_collect (shell home text : bytes)
    (join : list bytes -> bytes) (file0 file1 : bytes -> FileState)
    (sc : ShellCollector) (sess : Session) (old new : list bytes) :
  bytes_eqb (Base shell) (bs "bash") = true ->
  file0 (historyPath (mkEnv shell home join file0 text) sc)
  = Content (history bashText (map plain old)) ->
  file1 (historyPath (mkEnv shell home join file1 text) sc)
  = Content (history bashText (map plain (old ++ new))) ->
  Forall (fun cmd => wfBash (plain cmd) = true /\ isHandoffNoise cmd = false)
    (old ++ new) ->
  HistoryBaselineCount sess
  = SnapshotHistoryBaseline (mkEnv shell home join file0 text) (HistoryPath sc) ->
  SnapshotHistoryBaseline (mkEnv shell home join file0 text) (HistoryPath sc)
  = len old
  /\ cr_Commands (collectFromHistory (mkEnv shell home join file1 text) sc sess)
     = lastN 50 (map (fun cmd => mkCommand cmd zero) new).
Proof.
  set (env0 := mkEnv shell home join file0 text).
  set (env1 := mkEnv shell home join file1 text).
  intros Hbash Hfile0 Hfile1 Hwf Hbase.
  assert (Hparser : forall env, SHELL env = shell ->
            selectParser env
            = (parseBashHistory, Join env [UserHomeDir env; bs ".bash_history"])).
  { intros env <-. unfold selectParser. by rewrite Hbash. }
  assert (Hsnap : SnapshotHistoryBaseline env0 (HistoryPath sc) = len old).
  { unfold SnapshotHistoryBaseline. rewrite (Hparser env0 eq_refl).
    assert (Hpath : match HistoryPath sc with
                    | [] => Join env0 [UserHomeDir env0; bs ".bash_history"]
                    | _ :: _ => HistoryPath sc
                    end = historyPath env0 sc).
    { unfold historyPath. rewrite (Hparser env0 eq_refl).
      by destruct (HistoryPath sc). }
    cbn beta iota zeta. rewrite Hpath. unfold Open. cbn [file env0]. rewrite Hfile0.
    apply Forall_app in Hwf as [Hold _].
    destruct (plain_wf old Hold) as [Hwfold _].
    rewrite parseBashHistory_history by done.
    unfold len. by rewrite !length_map. }
  split; [exact Hsnap|].
  rewrite Hsnap in Hbase.
  destruct (plain_wf _ Hwf) as [Hwfall Hplain].
  rewrite (collectFromHistory_parsed env1 sc sess
             (history bashText (map plain (old ++ new)))
             (map bashCommand (map plain (old ++ new)))).
  2:{ unfold Open. cbn [file env1]. by rewrite Hfile1. }
  2:{ rewrite (Hparser env1 eq_refl). cbn [fst].
      by apply parseBashHistory_history. }
  cbn [cr_Commands]. unfold filtered.
  rewrite filterCommands_commands, (timestampedOf_plain _ Hplain),
    (noTimestampOf_plain _ Hplain), Hbase.
  cbn [List.filter app]. unfold len. rewrite Nat2Z.id.
  rewrite !map_app, drop_app_length'.
  - by rewrite map_map.
  - by rewrite !length_map.
Qed.

End CommandLog.

Section CommandLogExamples.
Import GoStrings GoTime Session BundleData Collector OS ShellLog ShellCollector.
Import FilterSpec HistoryFormats PluginLog.

Lemma command_log_round_trip_witness :
  Forall (fun e => wfLog e = true)
    [(1700000300%Z, bs "go test ./..."); (1700000400%Z, bs "git status")]
  /\ ReadCommandLog
       (Content
          (history logText
             [(1700000300%Z, bs "go test ./..."); (1700000400%Z, bs "git status")]))
     = ([mkCommand (bs "go test ./...") (Unix 1700000300);
         mkCommand (bs "git status") (Unix 1700000400)], false).
Proof.
  assert (H : Forall (fun e => wfLog e = true)
                [(1700000300%Z, bs "go test ./...");
                 (1700000400%Z, bs "git status")]).
  { repeat constructor. }
  split; [exact H|]. exact (command_log_round_trip _ H).
Defined.

Lemma baseline_then_collect_witness :
  SnapshotHistoryBaseline Samples.bashPlain [] = 2%Z
  /\ cr_Commands
       (collectFromHistory
          (Samples.envWith (bs "/bin/bash") (bs "/home/dev/.bash_history")
             (history bashText (map plain [bs "ls"; bs "make"; bs "go vet"])))
          Samples.autoShell (Samples.sessionWith 2))
     = [mkCommand (bs "go vet") zero].
Proof.
  apply (baseline_then_collect (bs "/bin/bash") (bs "/home/dev")
           (bs "no such file or directory") Samples.joinPath
           (file Samples.bashPlain)
           (file (Samples.envWith (bs "/bin/bash") (bs "/home/dev/.bash_history")
                    (history bashText (map plain [bs "ls"; bs "make"; bs "go vet"]))))
           Samples.autoShell (Samples.sessionWith 2)
           [bs "ls"; bs "make"] [bs "go vet"]).
  - reflexivity.
  - reflexivity.
  - reflexivity.
  - repeat constructor.
  - reflexivity.
Defined.

End CommandLogExamples.

(** ** The session store *)

Section Store.
Import GoStrings Session OS SessionStore.
Context `{Codec}.

Lemma cleanup_lookup (sys : Sys) (disk : Disk) (q : bytes) :
  q <> tempName sys -> cleanup sys disk !! q = disk !! q.
Proof.
  intros Hq. unfold cleanup. destruct (removeTempFails sys); [done|].
  by rewrite lookup_delete_ne.
Qed.

Lemma Save_other (sys : Sys) (path : bytes) (s : Session) (disk : Disk) (q : bytes) :
  q <> tempName sys -> q <> path ->
  (Save sys path s disk).1 !! q = disk !! q.
Proof.
  intros Hq Hp. unfold Save.
  destruct (json_Marshal s) as [data|]; [|done].
  destruct (createTempFault sys); [done|].
  destruct (writeFault sys) as [[n err]|].
  { cbn [fst]. by rewrite cleanup_lookup, !lookup_insert_ne. }
  destruct (closeFault sys).
  { cbn [fst]. by rewrite cleanup_lookup, !lookup_insert_ne. }
  destruct (renameFault sys); cbn [fst].
  - by rewrite cleanup_lookup, !lookup_insert_ne.
  - by rewrite lookup_insert_ne, lookup_delete_ne, !lookup_insert_ne.
Qed.

Lemma Save_failed (sys : Sys) (path : bytes) (s : Session) (disk disk' : Disk)
    (err : bytes) :
  tempName sys <> path ->
  Save sys path s disk = (disk', Some err) ->
  disk' !! path = disk !! path.
Proof.
  intros Hne. unfold Save.
  destruct (json_Marshal s) as [data|]; [|by intros [= <- _]].
  destruct (createTempFault sys); [by intros [= <- _]|].
  destruct (writeFault sys) as [[n e]|].
  { intros [= <- _]. by rewrite cleanup_lookup, !lookup_insert_ne. }
  destruct (closeFault sys).
  { intros [= <- _]. by rewrite cleanup_lookup, !lookup_insert_ne. }
  destruct (renameFault sys); [|done].
  intros [= <- _]. by rewrite cleanup_lookup, !lookup_insert_ne.
Qed.

Lemma Save_done (sys : Sys) (path : bytes) (s : Session) (disk disk' : Disk) :
  tempName sys <> path ->
  Save sys path s disk = (disk', None) ->
  exists data,
    json_Marshal s = inl data /\ disk' !! path = Some data
    /\ disk' !! tempName sys = None.
Proof.
  intros Hne. unfold Save.
  destruct (json_Marshal s) as [data|]; [|done].
  destruct (createTempFault sys); [done|].
  destruct (writeFault sys) as [[n e]|]; [done|].
  destruct (closeFault sys); [done|].
  destruct (renameFault sys); [done|].
  intros [= <-]. exists data. split; [done|].
  rewrite lookup_insert_eq, lookup_insert_ne, lookup_delete_eq by done. done.
Qed.

(** X9: [Save] replaces the session file in one step.  Whatever call of
    the operating system fails, and wherever a write stops, the session
    file afterwards holds either exactly what it held before (and an error
    is returned) or the complete encoding of the session (and none is);
    no other file is touched but the temporary one, which is gone after a
    save that succeeds. *)
Theorem save_is_atomic (sys : Sys) (path : bytes) (s : Session) (disk : Disk) :
  tempName sys <> path ->
  match (Save sys path s disk).2 with
  | Some _ => (Save sys path s disk).1 !! path = disk !! path
  | None =>
      exists data,
        json_Marshal s = inl data
        /\ (Save sys path s disk).1 !! path = Some data
        /\ (Save sys path s disk).1 !! tempName sys = None
  end
  /\ forall q, q <> tempName sys -> q <> path ->
       (Save sys path s disk).1 !! q = disk !! q.
Proof.
  intros Hne. split; [|intros q; apply Save_other].
  destruct (Save sys path s disk) as [disk' [err|]] eqn:E; cbn [fst snd].
  - by eapply Save_failed.
  - by eapply Save_done.
Qed.

(** X10: the store keeps what is saved: when the encoding of a session
    decodes to the session, a [Save] that succeeds makes [Load] return it;
    [Delete] then makes [Load] fail with [ErrNoSession], and a second
    [Delete] finds nothing to do and returns no error. *)
Theorem save_load_delete (sys sys' : Sys) (path : bytes) (s : Session)
    (disk disk' : Disk) (data : bytes) :
  tempName sys <> path ->
  json_Marshal s = inl data ->
  json_Unmarshal data = inl s ->
  Save sys path s disk = (disk', None) ->
  readFault sys' = None ->
  removeFault sys' = None ->
  Load sys' path disk' = inl s
  /\ (Delete sys' path disk').2 = None
  /\ Load sys' path (Delete sys' path disk').1 = inr ErrNoSession
  /\ Delete sys' path (Delete sys' path disk').1
     = ((Delete sys' path disk').1, None).
Proof.
  intros Hne Hm Hu Hsave Hread Hremove.
  destruct (Save_done _ _ _ _ _ Hne Hsave) as (data' & Hm' & Hpath & _).
  rewrite Hm in Hm'. injection Hm' as <-.
  unfold Load, Delete. rewrite Hpath, Hread, Hu, Hremove. cbn [fst snd].
  rewrite lookup_delete_eq. done.
Qed.

End Store.
(** ** The life of a session: start, note, status, stop *)

Section SessionLife.
Import GoStrings GoTime Session BundleData Bundle OS Collector GitCollector Cmd.
Import Lifecycle.
Context `{Library}.

Lemma save_ok (s : Session) (w : World) :
  save None s w
  = (mkWorld (Saved s) (commandLog w) (outputs w) (events w) (stderr w)
       (stdout w), None).
Proof. done. Qed.

(** X11: [start] never replaces a session record: when the session file
    exists, whether it holds a session, cannot be read or cannot be
    decoded, the command returns an error and leaves the world as it was;
    for a session that can be loaded the error tells when it started. *)
Theorem start_keeps_existing_record (r : Run) (uuid : bytes) (cwd : bytes + bytes)
    (saveFault : option bytes) (w : World) :
  sessionFile w <> NoRecord ->
  (exists err, startCmd r uuid cwd saveFault w = (w, Some err))
  /\ forall s, storeFault r = None -> sessionFile w = Saved s ->
       startCmd r uuid cwd saveFault w
       = (w, Some (AlreadyActive (Format (StartTime s) RFC3339))).
Proof.
  intros Hrec. unfold startCmd, load. split.
  - destruct (storeFault r); [by eexists|].
    destruct (sessionFile w); [done|by eexists..].
  - intros s -> ->. done.
Qed.

(** What a successful [start] leaves. *)
Lemma startCmd_fresh (r : Run) (uuid cwd : bytes) (w : World) :
  storeFault r = None ->
  sessionFile w = NoRecord ->
  startCmd r uuid (inl cwd) None w
  = (mkWorld
       (Saved (mkSession uuid (now r) None cwd [] []
                 (ShellCollector.SnapshotHistoryBaseline (env r)
                    (ShellHistoryPath (cfg r)))))
       (commandLog w) (outputs w) (events w) (stderr w)
       (stdout w ++ [bs "Session started."]), None).
Proof. intros Hs Hw. unfold startCmd, load. by rewrite Hs, Hw. Qed.

Lemma noteCmd_saved (r : Run) (message : bytes) (w : World) (s : Session) :
  storeFault r = None ->
  sessionFile w = Saved s ->
  noteCmd r message None w
  = (mkWorld
       (Saved (mkSession (ID s) (StartTime s) (StopTime s) (WorkDir s)
                 (Annotations s ++ [mkAnnotation (now r) message false])
                 (FileEdits s) (HistoryBaselineCount s)))
       (commandLog w) (outputs w) (events w) (stderr w)
       (stdout w ++ [bs "Note added."]), None).
Proof. intros Hs Hw. unfold noteCmd, load. by rewrite Hs, Hw. Qed.

(** X12: [note] appends: on a stored session it adds one annotation, not
    a summary, with the message and the time of the call, after those
    already there, and changes nothing else of the session; when it
    returns an error, whichever, the world is as it was; without a
    session the error is [no active session]. *)
Theorem note_appends (r : Run) (message : bytes) (saveFault : option bytes)
    (w : World) :
  (forall s, storeFault r = None -> saveFault = None -> sessionFile w = Saved s ->
     exists w',
       noteCmd r message saveFault w = (w', None)
       /\ sessionFile w'
          = Saved (mkSession (ID s) (StartTime s) (StopTime s) (WorkDir s)
                     (Annotations s ++ [mkAnnotation (now r) message false])
                     (FileEdits s) (HistoryBaselineCount s))
       /\ outputs w' = outputs w /\ events w' = events w)
  /\ (forall w' err, noteCmd r message saveFault w = (w', Some err) -> w' = w)
  /\ (storeFault r = None -> sessionFile w = NoRecord ->
      noteCmd r message saveFault w = (w, Some NoSession)).
Proof.
  split; [|split].
  - intros s Hs -> Hw. rewrite (noteCmd_saved r message w s Hs Hw).
    eexists. split; [done|]. done.
  - intros w' err. unfold noteCmd.
    destruct (storeFault r); [by intros [= <- _]|].
    destruct (load w) as [s|e]; [|by intros [= <- _]].
    unfold save. destruct saveFault; [by intros [= <- _]|done].
  - intros Hs Hw. unfold noteCmd, load. by rewrite Hs, Hw.
Qed.

Lemma noteAll_saved (r : Run) (notes : list (Time * bytes)) (w : World)
    (s : Session) :
  storeFault r = None ->
  sessionFile w = Saved s ->
  exists w',
    noteAll r notes w = (w', None)
    /\ sessionFile w'
       = Saved (mkSession (ID s) (StartTime s) (StopTime s) (WorkDir s)
                  (Annotations s ++ map noteOf notes)
                  (FileEdits s) (HistoryBaselineCount s))
    /\ commandLog w' = commandLog w /\ outputs w' = outputs w
    /\ events w' = events w.
Proof.
  intros Hs. revert w s. induction notes as [|[t m] notes IH]; intros w s Hw.
  - exists w. cbn [noteAll map]. rewrite app_nil_r. by destruct s.
  - cbn [noteAll]. rewrite (noteCmd_saved (at_ r t) m w s) by done.
    match goal with
    | |- context [noteAll r notes ?w1] =>
        destruct (IH w1 _ eq_refl) as (w' & Hrun & Hfile & Hlog & Hout & Hev)
    end.
    exists w'. rewrite Hrun. split; [done|]. rewrite Hfile.
    cbn [ID StartTime StopTime WorkDir Annotations FileEdits
         HistoryBaselineCount map now at_ commandLog outputs events] in *.
    rewrite <- app_assoc. done.
Qed.

(** What a successful [stop] does. *)
Lemma stopCmd_done (r : Run) (w w' : World) :
  stopCmd r w = (w', None) ->
  exists s0 merged log data,
    Load w = inl s0
    /\ runCollectors (collectors r (stopSession r s0)) (stopSession r s0)
         (commandLog w) emptyResult = (inl merged, log)
    /\ renderOf r (bundleOf r (stopSession r s0) merged) = inl data
    /\ w' = mkWorld NoRecord log (outputs w ++ [(outputPathOf r, data)])
              (events w ++ [Rendered (formatOf r); Wrote (outputPathOf r) data;
                            Deleted])
              (stderr w
               ++ map (fun warning => bs "warning: " ++ warning)
                    (cr_Warnings merged))
              (stdout w ++ [bs "Session stopped. Output: " ++ outputPathOf r]).
Proof.
  unfold stopCmd. destruct (storeFault r); [done|].
  destruct (Load w) as [s0|]; [|done].
  destruct (runCollectors _ _ _ _) as [[merged|err] log] eqn:Hrun; [|done].
  fold (formatOf r). fold (bundleOf r (stopSession r s0) merged).
  fold (renderOf r (bundleOf r (stopSession r s0) merged)).
  destruct (renderOf r _) as [data|err] eqn:Hrender; [|done].
  fold (outputPathOf r).
  destruct (writeFault r _) as [[?|? ?]|]; [done..|].
  destruct (deleteFault r); [done|].
  intros [= <-]. exists s0, merged, log, data.
  rewrite <- !app_assoc. done.
Qed.


(** X14: a session from start to stop.  On a machine without a session,
    [start], then notes added one after the other, then a [stop] that
    returns no error leave one output file: the rendering of a bundle with
    the identifier, the start time and the directory of [start], the stop
    time of [stop], and as annotations the notes, in the order they were
    added and each with its time, followed by the summary when [stop] got
    a message; the session file is gone again. *)
Theorem session_end_to_end (r : Run) (uuid cwd : bytes) (t0 : Time)
    (notes : list (Time * bytes)) (w0 w3 : World) :
  storeFault r = None ->
  sessionFile w0 = NoRecord ->
  stopCmd r (noteAll r notes (startCmd (at_ r t0) uuid (inl cwd) None w0).1).1
  = (w3, None) ->
  exists b data,
    renderOf r b = inl data
    /\ outputs w3 = outputs w0 ++ [(outputPathOf r, data)]
    /\ sessionFile w3 = NoRecord
    /\ sm_ID (cb_Session b) = uuid
    /\ sm_StartTime (cb_Session b) = t0
    /\ sm_StopTime (cb_Session b) = now r
    /\ sm_WorkDir (cb_Session b) = cwd
    /\ cb_Annotations b
       = map noteOf notes
         ++ match stopMessage r with
            | [] => []
            | m => [mkAnnotation (now r) m true]
            end.
Proof.
  intros Hstore Hw0 Hstop.
  rewrite (startCmd_fresh (at_ r t0) uuid cwd w0 Hstore Hw0) in Hstop.
  cbn [fst] in Hstop.
  match type of Hstop with
  | context [noteAll r notes ?w1] =>
      destruct (noteAll_saved r notes w1 _ Hstore eq_refl)
        as (w2 & Hrun & Hfile & _ & Hout & _)
  end.
  rewrite Hrun in Hstop. cbn [fst] in Hstop.
  apply stopCmd_done in Hstop as (s0 & merged & log & data & Hl & _ & Hr & ->).
  unfold Load in Hl. rewrite Hfile in Hl. injection Hl as Hs0.
  exists (bundleOf r (stopSession r s0) merged), data.
  split; [exact Hr|]. cbn [outputs sessionFile] in *. rewrite Hout.
  split; [reflexivity|]. split; [reflexivity|]. rewrite <- Hs0.
  cbn. repeat split. destruct (stopMessage r); [by rewrite app_nil_r|done].
Qed.

End SessionLife.

Section SessionLifeExamples.
Import GoStrings GoTime Session BundleData Bundle OS Collector GitCollector Cmd.
Import SessionStore Lifecycle.

Lemma save_is_atomic_witness :
  tempName StoreSamples.shortWrite <> StoreSamples.sessionPath
  /\ (@Save StoreSamples.idCodec StoreSamples.shortWrite
        StoreSamples.sessionPath (StoreSamples.bare (bs "b2c3"))
        {[StoreSamples.sessionPath := bs "a1b2"]}).1
     !! StoreSamples.sessionPath
     = Some (bs "a1b2").
Proof.
  assert (Hne : tempName StoreSamples.shortWrite <> StoreSamples.sessionPath)
    by discriminate.
  split; [exact Hne|].
  pose proof (proj1 (@save_is_atomic StoreSamples.idCodec
                       StoreSamples.shortWrite StoreSamples.sessionPath
                       (StoreSamples.bare (bs "b2c3"))
                       {[StoreSamples.sessionPath := bs "a1b2"]} Hne)) as Hs.
  cbn [Save json_Marshal StoreSamples.idCodec createTempFault writeFault
       StoreSamples.shortWrite snd] in Hs.
  etrans; [exact Hs|]. apply lookup_singleton_eq.
Defined.

Lemma save_load_delete_witness :
  @Load StoreSamples.idCodec (sound StoreSamples.tmpPath)
    StoreSamples.sessionPath
    (@Save StoreSamples.idCodec (sound StoreSamples.tmpPath)
       StoreSamples.sessionPath (StoreSamples.bare (bs "b2c3")) ∅).1
  = inl (StoreSamples.bare (bs "b2c3")).
Proof.
  refine (proj1 (@save_load_delete StoreSamples.idCodec
                   (sound StoreSamples.tmpPath) (sound StoreSamples.tmpPath)
                   StoreSamples.sessionPath (StoreSamples.bare (bs "b2c3"))
                   ∅ _ (bs "b2c3") _ eq_refl eq_refl eq_refl eq_refl eq_refl));
    discriminate.
Defined.

Lemma start_keeps_existing_record_witness :
  sessionFile Samples.activeWorld <> NoRecord
  /\ exists err,
       @startCmd Samples.sampleLibrary StoreSamples.morning (bs "b2c3")
         (inl (bs "/home/dev/proj")) None Samples.activeWorld
       = (Samples.activeWorld, Some err).
Proof.
  assert (Hrec : sessionFile Samples.activeWorld <> NoRecord) by discriminate.
  split; [exact Hrec|].
  exact (proj1 (@start_keeps_existing_record Samples.sampleLibrary
                  StoreSamples.morning (bs "b2c3") (inl (bs "/home/dev/proj"))
                  None Samples.activeWorld Hrec)).
Defined.

Lemma session_end_to_end_witness :
  exists w3,
    @stopCmd Samples.sampleLibrary Samples.gitWorking
      (noteAll Samples.gitWorking StoreSamples.notes
         (@startCmd Samples.sampleLibrary StoreSamples.morning (bs "b2c3")
            (inl (bs "/home/dev/proj")) None StoreSamples.idle).1).1
    = (w3, None)
    /\ exists b data,
         @renderOf Samples.sampleLibrary Samples.gitWorking b = inl data
         /\ outputs w3
            = [(@outputPathOf Samples.sampleLibrary Samples.gitWorking, data)]
         /\ cb_Annotations b
            = [mkAnnotation (Unix 1700000300) (bs "reproduced bug") false;
               mkAnnotation (Unix 1700000900) (bs "fix in retry loop") false;
               mkAnnotation Samples.t1 (bs "see retry loop") true].
Proof.
  destruct (@stopCmd Samples.sampleLibrary Samples.gitWorking
              (noteAll Samples.gitWorking StoreSamples.notes
                 (@startCmd Samples.sampleLibrary StoreSamples.morning (bs "b2c3")
                    (inl (bs "/home/dev/proj")) None StoreSamples.idle).1).1)
    as [w3 err] eqn:E.
  assert (Herr : err = None).
  { apply (f_equal snd) in E. cbn [snd] in E. rewrite <- E.
    vm_compute. reflexivity. }
  subst err. exists w3. split; [reflexivity|].
  destruct (@session_end_to_end Samples.sampleLibrary Samples.gitWorking
              (bs "b2c3") (bs "/home/dev/proj") Samples.t0 StoreSamples.notes
              StoreSamples.idle w3 eq_refl eq_refl E)
    as (b & data & Hr & Hout & _ & _ & _ & _ & _ & Hann).
  exists b, data. split; [exact Hr|]. split; [exact Hout|]. exact Hann.
Defined.

End SessionLifeExamples.

(** ** Viewing what stop wrote *)

Section Viewing.
Import GoStrings GoTime Session BundleData Bundle OS Collector GitCollector Cmd.
Import Lifecycle View EditorCollector.
Context `{Library}.

Lemma extFrom_suffix (e pre acc : bytes) :
  Forall (fun c => c <> "/"%char /\ c <> "."%char) e ->
  extFrom (rev e ++ "."%char :: pre) acc = "."%char :: rev (rev e) ++ acc.
Proof.
  intros He. rewrite rev_involutive. revert acc.
  induction e as [|c e IH] using rev_ind; intros acc; [done|].
  apply Forall_app in He as [He Hc]. apply Forall_inv in Hc as [Hc1 Hc2].
  rewrite rev_app_distr. cbn [rev app extFrom].
  apply byte_eqb_neq in Hc1, Hc2. rewrite Hc1, Hc2.
  rewrite IH by done. by rewrite <- app_assoc.
Qed.

(** The extension of a path that ends in a dot and letters. *)
Lemma Ext_suffix (pre e : bytes) :
  Forall (fun c => c <> "/"%char /\ c <> "."%char) e ->
  Ext (pre ++ "."%char :: e) = "."%char :: e.
Proof.
  intros He. unfold Ext. rewrite rev_app_distr. cbn [rev].
  rewrite <- app_assoc. cbn [app].
  rewrite extFrom_suffix by done. by rewrite rev_involutive, app_nil_r.
Qed.

(** X15: [view] reads what [stop] wrote.  When [stop] returns no error
    and the path of its output ends in the extension it chose, [view] of
    that file parses it with the parser of the format [stop] rendered in;
    for a bundle that [encoding/json] writes and reads back, it shows the
    bundle that was written. *)
Theorem stop_then_view (r : Run) (w w' : World) (toLower : bytes -> bytes) :
  stopCmd r w = (w', None) ->
  toLower (bs ".json") = bs ".json" ->
  toLower (bs ".md") = bs ".md" ->
  (exists pre,
     outputPathOf r
     = pre ++ if bytes_eqb (formatOf r) (bs "json") then bs ".json" else bs ".md") ->
  exists b data,
    outputs w' = outputs w ++ [(outputPathOf r, data)]
    /\ renderOf r b = inl data
    /\ viewCmd toLower (outputPathOf r) (Content data)
       = match (if bytes_eqb (formatOf r) (bs "json") then JSONParse data
                else MarkdownParse data) with
         | inr e => inr (ParseFailed e)
         | inl b' => inl b'
         end
    /\ forall compact indented,
         json_Marshal b = inl compact -> json_Unmarshal compact = inl b ->
         json_MarshalIndent b = inl indented -> json_Unmarshal indented = inl b ->
         viewCmd toLower (outputPathOf r) (Content data) = inl b.
Proof.
  intros Hstop Hjson Hmd [pre Hpath].
  apply stopCmd_done in Hstop as (s0 & merged & log & data & _ & _ & Hr & ->).
  exists (bundleOf r (stopSession r s0) merged), data.
  split; [done|]. split; [exact Hr|].
  assert (Hview : viewCmd toLower (outputPathOf r) (Content data)
                  = match (if bytes_eqb (formatOf r) (bs "json") then JSONParse data
                           else MarkdownParse data) with
                    | inr e => inr (ParseFailed e)
                    | inl b' => inl b'
                    end).
  { unfold viewCmd. rewrite Hpath.
    destruct (bytes_eqb (formatOf r) (bs "json")).
    - change (bs ".json") with ("."%char :: bs "json").
      rewrite Ext_suffix by (repeat constructor; discriminate).
      change ("."%char :: bs "json") with (bs ".json"). by rewrite Hjson.
    - change (bs ".md") with ("."%char :: bs "md").
      rewrite Ext_suffix by (repeat constructor; discriminate).
      change ("."%char :: bs "md") with (bs ".md"). by rewrite Hmd. }
  split; [exact Hview|].
  intros compact indented Hm Hu Hmi Hui. rewrite Hview.
  revert Hr. unfold renderOf.
  destruct (bytes_eqb (formatOf r) (bs "json")).
  - unfold JSONRender, JSONParse. rewrite Hmi. intros [= <-]. by rewrite Hui.
  - unfold MarkdownRender. rewrite Hm. intros Hr.
    replace data
      with (payloadLines (Base64.EncodeToString compact)
            ++ humanView (bundleOf r (stopSession r s0) merged))
      by congruence.
    rewrite payloadLines_shape, MarkdownParse_document by apply base64_no_space.
    unfold decodePayload. by rewrite DecodeString_EncodeToString, Hu.
Qed.

Lemma HasPrefix_app' (s : bytes) : HasPrefix s s = true.
Proof. rewrite <- (app_nil_r s) at 1. apply HasPrefix_app. Qed.

(** X16: the viewer shows the tabs the editor collector kept relative to
    the working directory: for a working directory that is not empty,
    every path [filterToWorkDir] keeps is the prefix of the directory
    followed by what [stripWorkDir] makes of it, or is the directory
    itself, written without a separator at its end, which [stripWorkDir]
    leaves as it is; a path that does not start with the prefix is left
    as it is. *)
Theorem kept_tabs_are_relative (paths : list bytes) (workDir p : bytes) :
  workDir <> [] ->
  (In p (filterToWorkDir paths workDir) ->
   workDirPrefix workDir ++ stripWorkDir p workDir = p
   \/ (p = workDir /\ stripWorkDir p workDir = p))
  /\ (HasPrefix p (workDirPrefix workDir) = false -> stripWorkDir p workDir = p).
Proof.
  intros Hw. split.
  - intros Hin. apply filterToWorkDir_In in Hin as [_ Hin].
    destruct Hin as [Hin|[Hin|[rest Hin]]]; [done| |].
    + subst p. unfold stripWorkDir, workDirPrefix.
      destruct workDir as [|c wd]; [done|].
      destruct (HasSuffix (c :: wd) (bs "/")) eqn:Hs.
      * left. rewrite HasPrefix_app'. by rewrite skipn_all, app_nil_r.
      * right. split; [done|].
        destruct (HasPrefix (c :: wd) ((c :: wd) ++ bs "/")) eqn:Hp; [|done].
        apply HasPrefix_iff in Hp as [rest Hp].
        apply (f_equal (@length ascii)) in Hp.
        rewrite !length_app in Hp. cbn [length bs list_ascii_of_string] in Hp. lia.
    + left. subst p. unfold stripWorkDir. fold (workDirPrefix workDir).
      destruct workDir as [|c wd]; [done|].
      by rewrite HasPrefix_app, drop_app_length.
  - intros Hp. unfold stripWorkDir. fold (workDirPrefix workDir).
    destruct workDir; [done|]. by rewrite Hp.
Qed.

End Viewing.

Section ViewingExamples.
Import GoStrings GoTime Session BundleData Bundle OS Collector GitCollector Cmd.
Import Lifecycle View EditorCollector.

Lemma stop_then_view_witness :
  exists w' b data,
    @stopCmd Samples.sampleLibrary Samples.gitWorking Samples.activeWorld
    = (w', None)
    /\ outputs w'
       = [(@outputPathOf Samples.sampleLibrary Samples.gitWorking, data)]
    /\ @renderOf Samples.sampleLibrary Samples.gitWorking b = inl data
    /\ @viewCmd Samples.sampleLibrary asciiLower
         (@outputPathOf Samples.sampleLibrary Samples.gitWorking) (Content data)
       = match @MarkdownParse Samples.sampleLibrary data with
         | inr e => inr (ParseFailed e)
         | inl b' => inl b'
         end.
Proof.
  destruct (@stopCmd Samples.sampleLibrary Samples.gitWorking Samples.activeWorld)
    as [w' err] eqn:E.
  assert (Herr : err = None).
  { apply (f_equal snd) in E. cbn [snd] in E. rewrite <- E.
    vm_compute. reflexivity. }
  subst err.
  destruct (@stop_then_view Samples.sampleLibrary Samples.gitWorking
              Samples.activeWorld w' asciiLower E eq_refl eq_refl)
    as (b & data & Hout & Hr & Hview & _).
  { exists (bs "./handoff-"
            ++ @Format Samples.sampleLibrary Samples.t1 RFC3339).
    vm_compute. reflexivity. }
  exists w', b, data. split; [reflexivity|]. split; [exact Hout|].
  split; [exact Hr|]. exact Hview.
Defined.

Lemma kept_tabs_are_relative_witness :
  bs "/home/dev/proj" <> []
  /\ (HasPrefix (bs "/home/dev/proj-old/x.go") (workDirPrefix (bs "/home/dev/proj"))
      = false ->
      stripWorkDir (bs "/home/dev/proj-old/x.go") (bs "/home/dev/proj")
      = bs "/home/dev/proj-old/x.go").
Proof.
  assert (H : bs "/home/dev/proj" <> []) by discriminate.
  split; [exact H|].
  exact (proj2 (kept_tabs_are_relative [] (bs "/home/dev/proj")
                  (bs "/home/dev/proj-old/x.go") H)).
Defined.

(** A working directory written with a separator at its end is shown as
    the empty path. *)
Example stripWorkDir_of_the_directory :
  stripWorkDir (bs "/home/dev/proj/") (bs "/home/dev/proj/") = []
  /\ stripWorkDir (bs "/home/dev/proj") (bs "/home/dev/proj") = bs "/home/dev/proj"
  /\ stripWorkDir (bs "/home/dev/proj/cmd/stop.go") (bs "/home/dev/proj")
     = bs "cmd/stop.go".
Proof. repeat split. Qed.

End ViewingExamples.

(** ** Ignore patterns *)

Section IgnorePatterns.
Import GoStrings GoTime Session BundleData Collector OS FileCollector IgnoreSpec.

Lemma patternLine_fold (lines patterns : list bytes) :
  fold_left patternLine lines patterns
  = patterns ++ List.filter isPattern (map TrimSpace lines).
Proof.
  revert patterns. induction lines as [|l lines IH]; intros patterns.
  - by rewrite app_nil_r.
  - cbn [fold_left map List.filter]. rewrite IH. unfold patternLine, isPattern.
    destruct (bytes_eqb (TrimSpace l) [] || HasPrefix (TrimSpace l) (bs "#"));
      cbn [negb]; [done|]. by rewrite <- app_assoc.
Qed.

Lemma loadIgnoreFile_ok (env : Env) (fc : FileCollector) (patterns patterns' : list bytes)
    (name : bytes) :
  loadIgnoreFile env fc (inl patterns) name = inl patterns' ->
  patterns' = patterns ++ linesOf env fc name.
Proof.
  unfold loadIgnoreFile, linesOf, readPatternFile.
  destruct (file env _) as [|err|data].
  - intros [= <-]. by rewrite app_nil_r.
  - done.
  - destruct (ScanLines data) as [lines []]; [done|].
    intros [= <-]. by rewrite patternLine_fold.
Qed.

Lemma loadIgnoreFile_err (env : Env) (fc : FileCollector) (err : bytes) (name : bytes) :
  loadIgnoreFile env fc (inr err) name = inr err.
Proof. done. Qed.

Lemma loadIgnorePatterns_ok (env : Env) (fc : FileCollector) (patterns : list bytes) :
  loadIgnorePatterns env fc = inl patterns ->
  patterns
  = IgnorePatterns fc ++ linesOf env fc (bs ".gitignore")
    ++ linesOf env fc (bs ".handoffignore").
Proof.
  unfold loadIgnorePatterns. cbn [fold_left].
  destruct (loadIgnoreFile env fc (inl (IgnorePatterns fc)) (bs ".gitignore"))
    as [p1|err] eqn:E1; [|done].
  intros E2. apply loadIgnoreFile_ok in E1, E2. subst. by rewrite <- app_assoc.
Qed.

Lemma isIgnored_false (fs : FileSystem) (fc : FileCollector) (path : bytes)
    (patterns : list bytes) :
  isIgnored fs fc path patterns = false
  <-> forall pattern, In pattern patterns ->
        Match fs pattern (Base path) = false
        /\ Match fs pattern (relative fs fc path) = false
        /\ Match fs pattern path = false.
Proof.
  unfold isIgnored. fold (relative fs fc path).
  induction patterns as [|p patterns IH]; cbn [existsb].
  - split; [intros _ ? []|done].
  - rewrite orb_false_iff, IH, !orb_false_iff. split.
    + intros [[[H1 H2] H3] Hrest] pattern [<-|Hin]; [done|by apply Hrest].
    + intros Hall. split.
      * destruct (Hall p) as (? & ? & ?); [by left|done].
      * intros pattern Hin. apply Hall. by right.
Qed.

(** X17: the file-activity collector honours every ignore pattern it
    loads: no edit it returns, whether found by the walk or recorded on
    the session, has a path that a loaded pattern matches by base name, by
    path relative to the working directory or by full path; the patterns
    loaded are the configured ones followed by the lines of [.gitignore]
    and of [.handoffignore] in the working directory, trimmed, without
    the empty lines and the lines that start with [#]. *)
Theorem ignored_paths_excluded (env : Env) (fs : FileSystem) (now : Time)
    (fc : FileCollector) (sess : Session) (patterns : list bytes) :
  loadIgnorePatterns env fc = inl patterns ->
  (forall fe pattern,
     In fe (cr_FileEdits (Collect env fs now fc sess)) -> In pattern patterns ->
     Match fs pattern (Base (fe_Path fe)) = false
     /\ Match fs pattern (relative fs fc (fe_Path fe)) = false
     /\ Match fs pattern (fe_Path fe) = false)
  /\ patterns
     = IgnorePatterns fc ++ linesOf env fc (bs ".gitignore")
       ++ linesOf env fc (bs ".handoffignore").
Proof.
  intros Hload. split; [|by apply loadIgnorePatterns_ok].
  intros fe pattern Hfe Hp.
  rewrite (Collect_loaded _ _ _ _ _ _ Hload) in Hfe.
  apply in_map_iff in Hfe as ([p t] & <- & Hin).
  apply filter_In in Hin as [_ Hign]. cbn [fst fe_Path] in *.
  apply negb_true_iff in Hign. by apply (isIgnored_false fs fc p patterns).
Qed.

End IgnorePatterns.

Section IgnorePatternsExamples.
Import GoStrings GoTime Session BundleData Collector OS FileCollector IgnoreSpec.

Lemma ignored_paths_excluded_witness :
  loadIgnorePatterns Samples.bashPlain Samples.projCollector = inl [bs "*.log"]
  /\ [bs "*.log"]
     = IgnorePatterns Samples.projCollector
       ++ linesOf Samples.bashPlain Samples.projCollector (bs ".gitignore")
       ++ linesOf Samples.bashPlain Samples.projCollector (bs ".handoffignore").
Proof.
  assert (Hload : loadIgnorePatterns Samples.bashPlain Samples.projCollector
                  = inl [bs "*.log"]) by reflexivity.
  split; [exact Hload|].
  exact (proj2 (ignored_paths_excluded Samples.bashPlain Samples.projFiles
                  Samples.t1 Samples.projCollector Samples.watchedSession
                  [bs "*.log"] Hload)).
Defined.

End IgnorePatternsExamples.

(** ** Lines of git output and the diff of a file *)

Section Lines.
Import GoStrings GoTime OS Collector GitCollector FileDiff.

Lemma SplitFrom_line (l s cur : bytes) (sep : ascii) :
  ~ In sep l ->
  SplitFrom (l ++ sep :: s) sep cur = (cur ++ l) :: SplitFrom s sep [].
Proof.
  revert cur. induction l as [|a l IH]; intros cur Hn.
  - cbn [app SplitFrom]. by rewrite byte_eqb_refl, app_nil_r.
  - cbn [app SplitFrom].
    assert (byte_eqb a sep = false) as ->.
    { apply byte_eqb_neq. intros ->. apply Hn. by left. }
    rewrite IH by (intros ?; apply Hn; by right).
    by rewrite <- app_assoc.
Qed.

Lemma Split_lines (lines : list bytes) (sep : ascii) :
  Forall (fun l => ~ In sep l) lines ->
  Split (concat (map (fun l => l ++ [sep]) lines)) sep = lines ++ [[]].
Proof.
  unfold Split. induction 1 as [|l lines Hl _ IH]; [done|].
  cbn [map concat]. rewrite <- app_assoc. cbn [app].
  by rewrite SplitFrom_line, IH.
Qed.

(** X18: [parseLogLines] gives back the lines git printed: for lines
    that are not empty and hold no line feed, written one after the other
    and each ended by a line feed, the result is the lines, in order;
    whatever the output, no line of the result is empty. *)
Theorem parseLogLines_lines (lines : list bytes) (output : bytes) :
  Forall (fun l => l <> [] /\ ~ In "010"%char l) lines ->
  parseLogLines (concat (map (fun l => l ++ ["010"%char]) lines)) = lines
  /\ Forall (fun l => l <> []) (parseLogLines output).
Proof.
  intros H. split.
  - unfold parseLogLines. rewrite Split_lines.
    + rewrite List.filter_app. cbn [List.filter bytes_eqb negb].
      rewrite app_nil_r. apply filter_keep_all.
      intros l Hl. rewrite List.Forall_forall in H.
      destruct (H l Hl) as [Hne _]. by destruct l.
    + eapply List.Forall_impl; [|exact H]. by intros l [_ ?].
  - unfold parseLogLines. apply List.Forall_forall. intros l Hl.
    apply filter_In in Hl as [_ Hl]. by destruct l.
Qed.

Lemma dropWhileEq_head (c : ascii) (s : bytes) :
  HasPrefix (dropWhileEq c s) [c] = false.
Proof.
  induction s as [|a s IH]; [done|]. cbn [dropWhileEq].
  destruct (byte_eqb a c) eqn:E; [done|].
  cbn [HasPrefix]. rewrite Ascii.eqb_sym in E. unfold byte_eqb in *. by rewrite E.
Qed.

Lemma TrimRightByte_suffix (s : bytes) (c : ascii) :
  HasSuffix (TrimRightByte s c) [c] = false.
Proof.
  unfold HasSuffix, TrimRightByte. rewrite rev_involutive. apply dropWhileEq_head.
Qed.

Lemma TrimRightByte_keep (s : bytes) (a c : ascii) :
  a <> c -> TrimRightByte (s ++ [a]) c = s ++ [a].
Proof.
  intros Hne. unfold TrimRightByte. rewrite rev_app_distr. cbn [rev app dropWhileEq].
  apply byte_eqb_neq in Hne. rewrite Hne. cbn [rev]. by rewrite rev_involutive.
Qed.

Lemma TrimRightByte_drop (s : bytes) (c : ascii) :
  TrimRightByte (s ++ [c]) c = TrimRightByte s c.
Proof.
  unfold TrimRightByte. rewrite rev_app_distr. cbn [rev app dropWhileEq].
  by rewrite byte_eqb_refl.
Qed.

(** X19: the diff [captureFileDiff] attaches to a file edit never ends in
    a line feed, whether it comes from [git diff HEAD], from the staged
    diff or from the fallback, and whatever git prints and the file
    holds. *)
Theorem diff_ends_without_line_feed (env : Env)
    (git : bytes -> list bytes -> option bytes) (path workDir : bytes) :
  HasSuffix (captureFileDiff env git path workDir) ["010"%char] = false.
Proof.
  assert (Hrun : forall args, HasSuffix (run git workDir args) ["010"%char] = false).
  { intros args. unfold run. destruct (git workDir args); [|done].
    apply TrimRightByte_suffix. }
  unfold captureFileDiff.
  destruct (run git workDir [bs "diff"; bs "HEAD"; bs "--"; path]) eqn:E1.
  - destruct (run git workDir [bs "diff"; bs "--cached"; bs "--"; path]) eqn:E2.
    + unfold fallbackDiff. destruct (file env path); [done..|].
      apply TrimRightByte_suffix.
    + rewrite <- E2. apply Hrun.
  - rewrite <- E1. apply Hrun.
Qed.

Lemma SplitFrom_nonempty (s cur : bytes) (sep : ascii) : SplitFrom s sep cur <> [].
Proof.
  revert cur. induction s as [|c s IH]; intros cur; [done|].
  cbn [SplitFrom]. destruct (byte_eqb c sep); [done|apply IH].
Qed.

Lemma joinWith_cons (sep : ascii) (p : bytes) (rest : list bytes) :
  rest <> [] -> joinWith sep (p :: rest) = p ++ sep :: joinWith sep rest.
Proof. by destruct rest. Qed.

Lemma SplitFrom_join (s cur : bytes) (sep : ascii) :
  joinWith sep (SplitFrom s sep cur) = cur ++ s.
Proof.
  revert cur. induction s as [|c s IH]; intros cur.
  - cbn. by rewrite app_nil_r.
  - cbn [SplitFrom]. destruct (byte_eqb c sep) eqn:E.
    + apply byte_eqb_eq in E as ->.
      rewrite joinWith_cons by apply SplitFrom_nonempty. by rewrite IH.
    + rewrite IH. by rewrite <- app_assoc.
Qed.

Lemma SplitFrom_pieces (s cur : bytes) (sep : ascii) :
  ~ In sep cur -> Forall (fun p => ~ In sep p) (SplitFrom s sep cur).
Proof.
  revert cur. induction s as [|c s IH]; intros cur Hcur.
  - by constructor.
  - cbn [SplitFrom]. destruct (byte_eqb c sep) eqn:E.
    + constructor; [done|]. apply IH. intros [].
    + apply IH. rewrite in_app_iff. intros [H|[<-|[]]]; [done|].
      by rewrite byte_eqb_refl in E.
Qed.

Lemma added_lines_text (lines : list bytes) (sep : ascii) :
  lines <> [] ->
  concat (map (fun l => bs "+" ++ l ++ [sep]) lines)
  = joinWith sep (map (fun l => "+"%char :: l) lines) ++ [sep].
Proof.
  induction lines as [|l lines IH]; [done|]. intros _.
  destruct lines as [|l' lines].
  - cbn. by rewrite app_nil_r.
  - rewrite !(map_cons _ l), concat_cons, IH by done.
    rewrite joinWith_cons by done. cbn [bs list_ascii_of_string app].
    by rewrite <- !app_assoc.
Qed.

Lemma joinWith_last (pieces : list bytes) (sep : ascii) :
  pieces <> [] ->
  Forall (fun p => p <> [] /\ ~ In sep p) pieces ->
  exists body a, joinWith sep pieces = body ++ [a] /\ a <> sep.
Proof.
  induction pieces as [|p pieces IH]; [done|]. intros _ Hall.
  apply Forall_cons_iff in Hall as [[Hne Hp] Hrest].
  destruct pieces as [|p' pieces].
  - destruct (exists_last Hne) as (body & a & ->). exists body, a.
    split; [done|]. intros ->. apply Hp. rewrite in_app_iff. right. by left.
  - destruct (IH ltac:(done) Hrest) as (body & a & Heq & Ha).
    exists (p ++ sep :: body), a. rewrite joinWith_cons by done.
    rewrite Heq, <- app_assoc. done.
Qed.

(** X20: the fallback diff shows the file as added lines.  For a file
    that can be read, the text without its trailing line feeds is split
    into at least one line; the diff is the header, whose hunk counts
    these lines, followed by each line behind a [+], with a line feed
    between them and none at the end; an empty file counts as one empty
    line. *)
Theorem fallbackDiff_added_lines (env : Env) (path data : bytes) :
  file env path = Content data ->
  exists lines,
    lines <> []
    /\ Forall (fun l => ~ In "010"%char l) lines
    /\ joinWith "010"%char lines = TrimRightByte data "010"%char
    /\ fallbackDiff env path
       = fallbackHeader path (len lines)
         ++ joinWith "010"%char (map (fun l => "+"%char :: l) lines).
Proof.
  intros Hfile. unfold fallbackDiff. rewrite Hfile.
  set (lines := Split (TrimRightByte data "010"%char) "010"%char).
  assert (Hne : lines <> []) by apply SplitFrom_nonempty.
  assert (Hpieces : Forall (fun l => ~ In "010"%char l) lines).
  { apply SplitFrom_pieces. intros []. }
  exists lines. split; [done|]. split; [done|].
  split; [apply (SplitFrom_join _ [])|].
  cbn zeta. rewrite added_lines_text by done.
  destruct (joinWith_last (map (fun l => "+"%char :: l) lines) "010"%char)
    as (body & a & Hbody & Ha).
  { by destruct lines. }
  { apply List.Forall_forall. intros p Hp.
    apply in_map_iff in Hp as (l & <- & Hl). split; [done|].
    rewrite List.Forall_forall in Hpieces. intros [H|H]; [done|].
    by apply (Hpieces l Hl). }
  rewrite Hbody. unfold fallbackHeader.
  replace (bs "--- /dev/null" ++ ["010"%char] ++ bs "+++ " ++ path ++ ["010"%char]
           ++ bs "@@ -0,0 +1," ++ FormatInt (len lines) ++ bs " @@" ++ ["010"%char]
           ++ (body ++ [a]) ++ ["010"%char])
    with (((bs "--- /dev/null" ++ ["010"%char] ++ bs "+++ " ++ path ++ ["010"%char]
            ++ bs "@@ -0,0 +1," ++ FormatInt (len lines) ++ bs " @@" ++ ["010"%char]
            ++ body) ++ [a]) ++ ["010"%char])
    by (by rewrite <- !app_assoc).
  rewrite TrimRightByte_drop, TrimRightByte_keep by done.
  by rewrite <- !app_assoc.
Qed.

End Lines.

Section LinesExamples.
Import GoStrings GoTime OS Collector GitCollector FileDiff.

Lemma parseLogLines_lines_witness :
  Forall (fun l => l <> [] /\ ~ In "010"%char l)
    [bs "a1b2c3d fix retry loop"; bs "e4f5a6b add tests"]
  /\ parseLogLines
       (bs "a1b2c3d fix retry loop" ++ ["010"%char] ++ bs "e4f5a6b add tests"
        ++ ["010"%char])
     = [bs "a1b2c3d fix retry loop"; bs "e4f5a6b add tests"].
Proof.
  assert (H : Forall (fun l => l <> [] /\ ~ In "010"%char l)
                [bs "a1b2c3d fix retry loop"; bs "e4f5a6b add tests"]).
  { repeat constructor; try discriminate;
      (intros Hin; vm_compute in Hin; repeat destruct Hin as [Hin|Hin];
       try discriminate; done). }
  split; [exact H|]. exact (proj1 (parseLogLines_lines _ [] H)).
Defined.

Lemma fallbackDiff_added_lines_witness :
  file Samples.bashPlain (bs "/home/dev/.bash_history")
  = Content (bs "ls" ++ [Samples.nl] ++ bs "make" ++ [Samples.nl])
  /\ exists lines,
       lines <> []
       /\ fallbackDiff Samples.bashPlain (bs "/home/dev/.bash_history")
          = fallbackHeader (bs "/home/dev/.bash_history") (len lines)
            ++ joinWith "010"%char (map (fun l => "+"%char :: l) lines).
Proof.
  split; [reflexivity|].
  destruct (fallbackDiff_added_lines Samples.bashPlain
              (bs "/home/dev/.bash_history")
              (bs "ls" ++ [Samples.nl] ++ bs "make" ++ [Samples.nl]) eq_refl)
    as (lines & Hne & _ & _ & Hdiff).
  exists lines. split; [exact Hne|exact Hdiff].
Defined.

(** A file of two lines, and a file that is empty. *)
Example fallbackDiff_sample :
  fallbackDiff Samples.bashPlain (bs "/home/dev/.bash_history")
  = bs "--- /dev/null" ++ [Samples.nl] ++ bs "+++ /home/dev/.bash_history"
    ++ [Samples.nl] ++ bs "@@ -0,0 +1,2 @@" ++ [Samples.nl] ++ bs "+ls"
    ++ [Samples.nl] ++ bs "+make"
  /\ fallbackDiff (Samples.envWith (bs "/bin/sh") (bs "empty") []) (bs "empty")
     = bs "--- /dev/null" ++ [Samples.nl] ++ bs "+++ empty" ++ [Samples.nl]
       ++ bs "@@ -0,0 +1,1 @@" ++ [Samples.nl] ++ bs "+".
Proof. split; vm_compute; reflexivity. Qed.

End LinesExamples.

(** ** The outcomes of the Git collector *)
Section GitSnapshot.
Import GoStrings GoTime Session BundleData Collector GitCollector.

Lemma isExitCode128_iff (err : GoError) :
  isExitCode128 err = true <-> err = ExitError 128.
Proof.
  destruct err as [code|msg]; cbn [isExitCode128]; [|done].
  rewrite Z.eqb_eq. split; [by intros ->|by intros [= ->]].
Qed.

(** The lines of an output in which every line is ended by a line feed,
    without the empty ones. *)
Lemma parseLogLines_written (lines : list bytes) :
  Forall (fun l => ~ In "010"%char l) lines ->
  parseLogLines (concat (map (fun l => l ++ ["010"%char]) lines))
  = List.filter (fun l => negb (bytes_eqb l [])) lines.
Proof.
  intros H. unfold parseLogLines. rewrite Split_lines by done.
  rewrite List.filter_app. cbn [List.filter bytes_eqb negb].
  by rewrite app_nil_r.
Qed.

(** C6: when the branch query fails with exit status 128, the collector
    returns, without error, a result with no git snapshot and the one
    warning [not a git repository].  When a query fails and every query
    made before it succeeded, the collector returns the error of that
    query as its own, unless it is the branch query and the error is exit
    status 128: so every other exit status of the branch query, every
    exit status of a later query and every error that is not an exit
    status are fatal.  When all five queries succeed, the snapshot holds
    the branch and the head commit without the white space around them,
    both diffs as git printed them, and as log the lines that git
    printed, in order, without the empty ones. *)
Theorem git_collector_outcomes (defaultRunner : GitRunner)
    (formatRFC3339 : Time -> bytes) (g : GitCollector) (sess : Session) :
  (ask defaultRunner g sess branchQuery = inr (ExitError 128) ->
   Collect defaultRunner formatRFC3339 g sess
   = inl (mkCollectorResult [] [] None [] [bs "not a git repository"]))
  /\ (forall (i : nat) (q : list bytes) (err : GoError),
        queries formatRFC3339 sess !! i = Some q ->
        ask defaultRunner g sess q = inr err ->
        (forall (j : nat) (q' : list bytes),
            (j < i)%nat -> queries formatRFC3339 sess !! j = Some q' ->
            exists out, ask defaultRunner g sess q' = inl out) ->
        (i = 0%nat -> err <> ExitError 128) ->
        Collect defaultRunner formatRFC3339 g sess = inr err)
  /\ (forall (branch headCommit diff stagedDiff : bytes) (lines : list bytes),
        ask defaultRunner g sess branchQuery = inl branch ->
        ask defaultRunner g sess headQuery = inl headCommit ->
        ask defaultRunner g sess diffQuery = inl diff ->
        ask defaultRunner g sess stagedQuery = inl stagedDiff ->
        ask defaultRunner g sess (logQuery (formatRFC3339 (StartTime sess)))
        = inl (concat (map (fun l => l ++ ["010"%char]) lines)) ->
        Forall (fun l => ~ In "010"%char l) lines ->
        Collect defaultRunner formatRFC3339 g sess
        = inl (mkCollectorResult [] []
                 (Some (mkGitInfo (TrimSpace branch) (TrimSpace headCommit)
                          diff stagedDiff
                          (List.filter (fun l => negb (bytes_eqb l [])) lines)))
                 [] [])).
Proof.
  unfold ask, Collect. split; [|split].
  - by intros ->.
  - intros i q err Hq Hfail Hbefore Hnot.
    assert (Hok : forall (j : nat) (q' : list bytes) (e : GoError),
      (j < i)%nat -> queries formatRFC3339 sess !! j = Some q' ->
      runnerOf defaultRunner g (workDirOf g sess) q' = inr e -> False).
    { intros j q' e Hj Hq' He.
      destruct (Hbefore j q' Hj Hq') as [out Hout]. congruence. }
    destruct (runnerOf defaultRunner g (workDirOf g sess) branchQuery)
      as [branch|e0] eqn:E0.
    2:{ destruct i as [|i];
          [|by destruct (Hok 0%nat branchQuery e0 ltac:(lia) eq_refl E0)].
        injection Hq as <-. rewrite E0 in Hfail. injection Hfail as ->.
        destruct (isExitCode128 err) eqn:E; [|done].
        apply isExitCode128_iff in E. by destruct (Hnot eq_refl). }
    destruct i as [|i]; [injection Hq as <-; congruence|].
    destruct (runnerOf defaultRunner g (workDirOf g sess) headQuery)
      as [headCommit|e1] eqn:E1.
    2:{ destruct i as [|i];
          [|by destruct (Hok 1%nat headQuery e1 ltac:(lia) eq_refl E1)].
        injection Hq as <-. congruence. }
    destruct i as [|i]; [injection Hq as <-; congruence|].
    destruct (runnerOf defaultRunner g (workDirOf g sess) diffQuery)
      as [diff|e2] eqn:E2.
    2:{ destruct i as [|i];
          [|by destruct (Hok 2%nat diffQuery e2 ltac:(lia) eq_refl E2)].
        injection Hq as <-. congruence. }
    destruct i as [|i]; [injection Hq as <-; congruence|].
    destruct (runnerOf defaultRunner g (workDirOf g sess) stagedQuery)
      as [stagedDiff|e3] eqn:E3.
    2:{ destruct i as [|i];
          [|by destruct (Hok 3%nat stagedQuery e3 ltac:(lia) eq_refl E3)].
        injection Hq as <-. congruence. }
    destruct i as [|i]; [injection Hq as <-; congruence|].
    destruct i as [|i]; [|done].
    injection Hq as <-. by rewrite Hfail.
  - intros branch headCommit diff stagedDiff lines -> -> -> -> -> Hlines.
    by rewrite parseLogLines_written.
Qed.

(** The three outcomes on the runners of the tests: outside a repository;
    with a [git diff] that exits with status 1 after the branch and the
    head commit were read; and with every query answered. *)
Lemma git_collector_outcomes_witness :
  Collect Samples.gitNoRepo (fun _ => bs "2023-11-14T22:13:20Z")
    (mkGitCollector (bs "/some/dir") None) (Samples.sessionWith 0)
  = inl (mkCollectorResult [] [] None [] [bs "not a git repository"])
  /\ Collect Samples.gitDiffFails (fun _ => bs "2023-11-14T22:13:20Z")
       (mkGitCollector [] None) (Samples.sessionWith 0)
     = inr (ExitError 1)
  /\ Collect Samples.gitAnswers (fun _ => bs "2023-11-14T22:13:20Z")
       (mkGitCollector [] None) (Samples.sessionWith 0)
     = inl (mkCollectorResult [] []
              (Some (mkGitInfo (bs "main") (bs "abc123def456")
                       (bs "diff --git a/foo.go b/foo.go" ++ [Samples.nl])
                       (bs "diff --git a/bar.go b/bar.go" ++ [Samples.nl])
                       [bs "abc123 first commit"; bs "def456 second commit"]))
              [] []).
Proof.
  split; [|split].
  - exact (proj1 (git_collector_outcomes Samples.gitNoRepo
                    (fun _ => bs "2023-11-14T22:13:20Z")
                    (mkGitCollector (bs "/some/dir") None)
                    (Samples.sessionWith 0)) eq_refl).
  - apply (proj1 (proj2 (git_collector_outcomes Samples.gitDiffFails
                           (fun _ => bs "2023-11-14T22:13:20Z")
                           (mkGitCollector [] None) (Samples.sessionWith 0)))
             2%nat diffQuery (ExitError 1) eq_refl eq_refl).
    + intros [|[|j]] q' Hj Hq; [| |lia];
        cbn in Hq; injection Hq as <-; by eexists.
    + discriminate.
  - assert (Hlines : Forall (fun l => ~ In "010"%char l)
              [bs "abc123 first commit"; bs "def456 second commit"]).
    { repeat constructor;
        (intros Hin; vm_compute in Hin; repeat destruct Hin as [Hin|Hin];
         try discriminate; done). }
    exact (proj2 (proj2 (git_collector_outcomes Samples.gitAnswers
                           (fun _ => bs "2023-11-14T22:13:20Z")
                           (mkGitCollector [] None) (Samples.sessionWith 0)))
             (bs "main" ++ [Samples.nl]) (bs "abc123def456" ++ [Samples.nl])
             (bs "diff --git a/foo.go b/foo.go" ++ [Samples.nl])
             (bs "diff --git a/bar.go b/bar.go" ++ [Samples.nl])
             [bs "abc123 first commit"; bs "def456 second commit"]
             eq_refl eq_refl eq_refl eq_refl eq_refl Hlines).
Defined.

End GitSnapshot.

(** ** The order of the recent projects *)

Section RecentProjects.
Import GoStrings GoTime JetBrains.

Lemma bubble_insert (r post : list projectEntry) (x : projectEntry) :
  bubble (rev r ++ x :: post) (length r) = rev (insertRev x r) ++ post.
Proof.
  revert post. induction r as [|b r IH]; intros post; [done|].
  cbn [length bubble rev insertRev].
  assert (Hlen : length (rev r ++ [b]) = S (length r)).
  { rewrite length_app, length_rev. cbn. lia. }
  rewrite (list_lookup_middle (rev r ++ [b]) post x) by done.
  rewrite <- (app_assoc (rev r) [b]). cbn [app].
  rewrite (list_lookup_middle (rev r) (x :: post) b) by (by rewrite length_rev).
  destruct (After (activated x) (activated b)).
  - replace (<[S (length r) := b]> (rev r ++ b :: x :: post))
      with (rev r ++ b :: b :: post).
    2:{ rewrite insert_app_r_alt by (rewrite length_rev; lia).
        rewrite length_rev. by replace (S (length r) - length r)%nat with 1%nat by lia. }
    replace (<[length r := x]> (rev r ++ b :: b :: post))
      with (rev r ++ x :: b :: post).
    2:{ rewrite insert_app_r_alt by (rewrite length_rev; lia).
        rewrite length_rev. by replace (length r - length r)%nat with 0%nat by lia. }
    rewrite IH. cbn [rev]. by rewrite <- app_assoc.
  - cbn [rev]. by rewrite <- !app_assoc.
Qed.

Lemma bubble_fold (rest r : list projectEntry) :
  fold_left bubble (seq (length r) (length rest)) (rev r ++ rest)
  = rev (fold_left (fun r x => insertRev x r) rest r).
Proof.
  revert r. induction rest as [|x rest IH]; intros r.
  - cbn. by rewrite app_nil_r.
  - cbn [length seq fold_left]. rewrite bubble_insert.
    assert (Hlen : length (insertRev x r) = S (length r)).
    { clear. induction r as [|b r IH]; [done|]. cbn [insertRev].
      destruct (After _ _); cbn [length]; by rewrite ?IH. }
    rewrite <- Hlen. apply IH.
Qed.

(** The loops of the sort insert the entries one by one. *)
Lemma sortProjects_insert (projects : list projectEntry) :
  sortProjects projects
  = rev (fold_left (fun r x => insertRev x r) projects []).
Proof.
  unfold sortProjects. destruct projects as [|x rest]; [done|].
  cbn [length fold_left insertRev].
  replace (S (length rest) - 1)%nat with (length rest) by lia.
  apply (bubble_fold rest [x]).
Qed.

Lemma insertRev_perm (x : projectEntry) (r : list projectEntry) :
  Permutation (insertRev x r) (x :: r).
Proof.
  induction r as [|b r IH]; [done|]. cbn [insertRev].
  destruct (After _ _); [|done].
  rewrite IH. apply perm_swap.
Qed.

Lemma insertRev_sorted (x : projectEntry) (r : list projectEntry) :
  StronglySorted (fun a b => recentFirst b a) r ->
  StronglySorted (fun a b => recentFirst b a) (insertRev x r).
Proof.
  induction r as [|b r IH]; intros Hs; [repeat constructor|].
  apply StronglySorted_inv in Hs as [Hs Hb]. cbn [insertRev].
  unfold After. destruct (Z.ltb_spec (activated b) (activated x)) as [Hlt|Hge].
  - constructor; [by apply IH|].
    apply List.Forall_forall. intros y Hy.
    apply (Permutation_in _ (insertRev_perm x r)) in Hy as [<-|Hy].
    + unfold recentFirst. lia.
    + rewrite List.Forall_forall in Hb. by apply Hb.
  - constructor; [by constructor|]. constructor; [done|].
    eapply List.Forall_impl; [|exact Hb]. unfold recentFirst. intros y. lia.
Qed.

Lemma insertRev_stable (t : Time) (x : projectEntry) (r : list projectEntry) :
  List.filter (activatedAt t) (rev (insertRev x r))
  = List.filter (activatedAt t) (rev r ++ [x]).
Proof.
  induction r as [|b r IH]; [done|]. cbn [insertRev].
  unfold After. destruct (Z.ltb_spec (activated b) (activated x)) as [Hlt|Hge]; [|done].
  cbn [rev]. rewrite !List.filter_app, IH, List.filter_app, <- !app_assoc.
  f_equal. cbn [List.filter]. unfold activatedAt.
  destruct (Z.eqb_spec (activated x) t), (Z.eqb_spec (activated b) t); try done. lia.
Qed.

Lemma StronglySorted_snoc {A} (R : A -> A -> Prop) (l : list A) (a : A) :
  StronglySorted R l -> Forall (fun x => R x a) l -> StronglySorted R (l ++ [a]).
Proof.
  induction l as [|b l IH]; intros Hs Ha; [repeat constructor|].
  apply StronglySorted_inv in Hs as [Hs Hb].
  apply Forall_cons_iff in Ha as [Hba Ha].
  cbn [app]. constructor; [by apply IH|].
  apply Forall_app. split; [done|by constructor].
Qed.

Lemma StronglySorted_rev {A} (R : A -> A -> Prop) (l : list A) :
  StronglySorted (fun a b => R b a) l -> StronglySorted R (rev l).
Proof.
  induction l as [|a l IH]; intros Hs; [constructor|].
  apply StronglySorted_inv in Hs as [Hs Ha]. cbn [rev].
  apply StronglySorted_snoc; [by apply IH|]. by apply Forall_rev.
Qed.

Lemma insert_all (projects r : list projectEntry) :
  StronglySorted (fun a b => recentFirst b a) r ->
  Permutation (fold_left (fun r x => insertRev x r) projects r) (rev projects ++ r)
  /\ StronglySorted (fun a b => recentFirst b a)
       (fold_left (fun r x => insertRev x r) projects r)
  /\ forall t,
       List.filter (activatedAt t)
         (rev (fold_left (fun r x => insertRev x r) projects r))
       = List.filter (activatedAt t) (rev r ++ projects).
Proof.
  revert r. induction projects as [|x projects IH]; intros r Hs.
  - cbn. by rewrite app_nil_r.
  - cbn [fold_left].
    destruct (IH (insertRev x r) (insertRev_sorted x r Hs)) as (Hp & Hs' & Hst).
    split; [|split; [done|]].
    + rewrite Hp, insertRev_perm. cbn [rev]. rewrite <- app_assoc. done.
    + intros t. change (x :: projects) with ([x] ++ projects).
      rewrite Hst, !List.filter_app, insertRev_stable, List.filter_app.
      by rewrite <- app_assoc.
Qed.

Lemma keepPath_fold (projects : list projectEntry) (paths : list bytes) :
  fold_left keepPath projects paths
  = paths
    ++ map pe_path (List.filter (fun p => negb (bytes_eqb (pe_path p) [])) projects).
Proof.
  revert paths. induction projects as [|p projects IH]; intros paths.
  - by rewrite app_nil_r.
  - cbn [fold_left List.filter]. rewrite IH. unfold keepPath.
    destruct (pe_path p) eqn:E; cbn [bytes_eqb negb map]; [done|].
    rewrite E. by rewrite <- app_assoc.
Qed.

(** X21: the recent projects of a JetBrains IDE come out most recently
    activated first.  The paths returned are the non-empty paths of the
    entries of the file in an order in which no entry stands behind one
    activated earlier; entries activated at the same instant, among them
    those never activated, keep the order of the file. *)
Theorem recent_projects_order (scanInt : bytes -> Z) (home : bytes)
    (root : list Component) :
  exists sorted,
    recentProjects scanInt home root
    = map pe_path (List.filter (fun p => negb (bytes_eqb (pe_path p) [])) sorted)
    /\ Permutation sorted (collectProjects scanInt home root)
    /\ StronglySorted recentFirst sorted
    /\ forall t,
         List.filter (activatedAt t) sorted
         = List.filter (activatedAt t) (collectProjects scanInt home root).
Proof.
  exists (sortProjects (collectProjects scanInt home root)).
  unfold recentProjects. rewrite keepPath_fold. split; [done|].
  rewrite sortProjects_insert.
  destruct (insert_all (collectProjects scanInt home root) [])
    as (Hp & Hs & Hst); [constructor|].
  split; [|split].
  - rewrite <- Permutation_rev, Hp, app_nil_r. by rewrite <- Permutation_rev.
  - by apply StronglySorted_rev.
  - intros t. by rewrite Hst.
Qed.

(** Three projects, the second never opened and the third opened last;
    the first has no path. *)
Example recent_projects_sample :
  recentProjects (fun v => match ParseInt v with Some z => z | None => 0%Z end)
    (bs "/home/dev")
    [mkComponent (bs "RecentProjectsManager")
       [mkMapOption (bs "additionalInfo")
          [mkEntry []
             [mkMetaOption (bs "activationTimestamp") (bs "1700000000000")];
           mkEntry (bs "$USER_HOME$/old") [];
           mkEntry (bs "$USER_HOME$/proj")
             [mkMetaOption (bs "activationTimestamp") (bs "1700000900000")];
           mkEntry (bs "/srv/app")
             [mkMetaOption (bs "activationTimestamp") (bs "1690000000000")]]]]
  = [bs "/home/dev/proj"; bs "/srv/app"; bs "/home/dev/old"].
Proof. vm_compute. reflexivity. Qed.

End RecentProjects.
